(** * Mediate: the realtime audio-streaming client (consultation workspace)

    A shallow embedding of the client-side core of
    [frontend/src/app/consultation/page.tsx]:

    - the per-sample PCM encoder and the backpressure guard of
      [setupAudioProcessing];
    - the message dispatcher ([newWs.onmessage]) and the close handler
      ([newWs.onclose]) installed by [setupWebSocket];
    - the connection wait loop of [handleRecord], the scripted fallback
      [simulateTranscription], and [handleStop];
    - [getWebSocketUrl], the speaker helpers, [formatRecordingTime], and
      the handlers that approve, edit and finalize the report.

    React state setters are modelled by explicit state passing on a
    record; the browser (clock, socket state, close events, audio
    callbacks) is the environment and enters as arguments. *)

From Stdlib Require Import ZArith QArith Qround Qabs Qminmax.
From Stdlib Require Import List Bool Lia.
From Stdlib Require Import String Ascii DecimalString.
From Stdlib Require Import SpecFloat.
Import ListNotations.

Set Warnings "-register-all".

Local Open Scope Z_scope.

(* ================================================================== *)
(** * Audio encoder: Float32 sample to Int16 *)
(* ================================================================== *)

Module Encoder.

(** A JavaScript number as the encoder meets it.  The input samples are
    elements of a [Float32Array]: NaN, an infinity, or a dyadic rational
    [m * 2^e] with [|m| < 2^24].  Finite values are carried by their exact
    rational value.  The only arithmetic on the path is one binary64
    multiplication by [0x7FFF]; a 24-bit significand times a 15-bit
    constant fits the 53-bit significand of a binary64, so that product
    is exact and rational multiplication models it without error (see
    [mul_models_binary64] below).  The sign of zero is dropped: the
    typed-array store maps both zeros to 0. *)
Inductive number : Type :=
| NaN
| Infinity (negative : bool)
| Finite (q : Q).

(** [Math.min(a, b)] and [Math.max(a, b)]: NaN is contagious. *)
Definition Math_min (a b : number) : number :=
  match a, b with
  | NaN, _ | _, NaN => NaN
  | Infinity true, _ | _, Infinity true => Infinity true
  | Infinity false, y => y
  | x, Infinity false => x
  | Finite p, Finite q => if Qle_bool p q then Finite p else Finite q
  end.

Definition Math_max (a b : number) : number :=
  match a, b with
  | NaN, _ | _, NaN => NaN
  | Infinity false, _ | _, Infinity false => Infinity false
  | Infinity true, y => y
  | x, Infinity true => x
  | Finite p, Finite q => if Qle_bool p q then Finite q else Finite p
  end.

Definition Qneg_bool (q : Q) : bool := (Qnum q <? 0)%Z.

(** The [*] operator. *)
Definition mul (a b : number) : number :=
  match a, b with
  | NaN, _ | _, NaN => NaN
  | Infinity s, Infinity t => Infinity (xorb s t)
  | Infinity s, Finite q | Finite q, Infinity s =>
      if Qeq_bool q 0 then NaN else Infinity (xorb s (Qneg_bool q))
  | Finite p, Finite q => Finite (p * q)
  end.

(** [truncate] of ECMAScript: the integer part, toward zero. *)
Definition truncate (q : Q) : Z := Z.quot (Qnum q) (Zpos (Qden q)).

(** ECMAScript [ToInt16], the conversion performed by a store into an
    [Int16Array]: non-finite values and zero give 0; otherwise truncate,
    reduce modulo 2^16 and reinterpret the upper half as negative. *)
Definition ToInt16 (x : number) : Z :=
  match x with
  | NaN | Infinity _ => 0
  | Finite q =>
      let int := truncate q in
      let int16bit := int mod 2 ^ 16 in
      if 2 ^ 15 <=? int16bit then int16bit - 2 ^ 16 else int16bit
  end.

Definition x7FFF : number := Finite (inject_Z 32767).

(** The loop body of [processor.onaudioprocess]:
    [pcmData[i] = Math.max(-1, Math.min(1, inputData[i])) * 0x7FFF]. *)
Definition clamp (x : number) : number :=
  Math_max (Finite (inject_Z (-1))) (Math_min (Finite (inject_Z 1)) x).

Definition encodeSample (x : number) : Z :=
  ToInt16 (mul (clamp x) x7FFF).

(** The whole frame: [for (i = 0; i < inputData.length; i++)]. *)
Definition encodeFrame (inputData : list number) : list Z :=
  map encodeSample inputData.

(** ** The link with IEEE 754 *)

(** The binary64 product of the [*] operator: round to nearest, ties to
    even. *)
Definition binary64_mul : spec_float -> spec_float -> spec_float := SFmul 53 1024.

(** [0x7FFF] as a binary float. *)
Definition x7FFF_float : spec_float := S754_finite false 32767 0.

(** The number a binary float denotes: [(-1)^s * m * 2^e]. *)
Definition of_float (x : spec_float) : number :=
  match x with
  | S754_nan => NaN
  | S754_infinity s => Infinity s
  | S754_zero _ => Finite 0
  | S754_finite s m e => Finite (inject_Z (cond_Zopp s (Zpos m)) * Qpower 2 e)
  end.

(** Equality of numbers, up to the representation of a rational. *)
Definition number_eq (a b : number) : Prop :=
  match a, b with
  | NaN, NaN => True
  | Infinity s, Infinity t => s = t
  | Finite p, Finite q => (p == q)%Q
  | _, _ => False
  end.

(** ** The specification's reading, for comparison *)

(** [clamp(x,-1,1) * 32767] on the rationals. *)
Definition spec_scaled (q : Q) : Q :=
  (Qmax (inject_Z (-1)) (Qmin (inject_Z 1) q) * inject_Z 32767)%Q.

(** [r] is a nearest integer of [v], whatever the tie-break. *)
Definition nearest (v : Q) (r : Z) : Prop :=
  (Qabs (v - inject_Z r) <= 1 # 2)%Q.

(** [round(clamp(x,-1,1)*32767)] with the tie-break of [Math.round],
    then clamped to the int16 range. *)
Definition spec_round (q : Q) : Z :=
  Z.max (-32768) (Z.min 32767 (Qfloor (spec_scaled q + (1 # 2))%Q)).

(** The integer part toward zero, through floor and ceiling. *)
Definition toward_zero (v : Q) : Z :=
  if Qle_bool 0 v then Qfloor v else Qceiling v.

End Encoder.

(* ================================================================== *)
(** * JavaScript values carried by the relay's messages *)
(* ================================================================== *)

Module Js.

(** A JavaScript string is a sequence of UTF-16 code units. *)
Definition jsstring : Type := list N.

(** The source's string literals are ASCII. *)
Definition lit (s : string) : jsstring :=
  map N_of_ascii (list_ascii_of_string s).

Fixpoint str_eqb (a b : jsstring) : bool :=
  match a, b with
  | [], [] => true
  | x :: a', y :: b' => (x =? y)%N && str_eqb a' b'
  | _, _ => false
  end.

(** The value [JSON.parse] returns.  Numbers are the integers of
    magnitude below 2^53, on which binary64 arithmetic and
    [Number::toString] agree with the integers; an object is the list of
    its own properties, read by first match. *)
Inductive json : Type :=
| JNull
| JBool (b : bool)
| JNum (n : Z)
| JStr (s : jsstring)
| JArr (items : list json)
| JObj (props : list (jsstring * json)).

(** A value read from a property: [None] is [undefined]. *)
Definition jsval : Type := option json.

Definition undefined : jsval := None.

(** The exceptions of the modelled code; [OtherError] stands for a plain
    [Error] and for what the platform constructors throw. *)
Inductive exn : Type := TypeError | SyntaxError | OtherError.

Inductive completion (A : Type) : Type :=
| Normal (a : A)
| Throw (e : exn).
Arguments Normal {A} a.
Arguments Throw {A} e.

(** ToBoolean. *)
Definition truthy (v : jsval) : bool :=
  match v with
  | None => false
  | Some JNull => false
  | Some (JBool b) => b
  | Some (JNum n) => negb (n =? 0)
  | Some (JStr s) => match s with [] => false | _ :: _ => true end
  | Some (JArr _) => true
  | Some (JObj _) => true
  end.

(** [typeof v === 'number'] and [typeof v === 'object']. *)
Definition typeof_number (v : jsval) : bool :=
  match v with
  | Some (JNum _) => true
  | _ => false
  end.

Definition typeof_object (v : jsval) : bool :=
  match v with
  | Some JNull | Some (JArr _) | Some (JObj _) => true
  | _ => false
  end.

(** [v === "literal"]. *)
Definition strict_eq_str (v : jsval) (s : jsstring) : bool :=
  match v with
  | Some (JStr t) => str_eqb t s
  | _ => false
  end.

Fixpoint lookup (k : jsstring) (props : list (jsstring * json)) : jsval :=
  match props with
  | [] => undefined
  | (k', v) :: rest => if str_eqb k' k then Some v else lookup k rest
  end.

(** The member access [v.k], for the property names the handlers read
    ([type], [speaker], [text], [data], [message], [status], [event],
    [symptoms], [suggestions], [severity], [diagnoses]): none of them is
    an index, [length] or a prototype member, so a primitive or an array
    yields [undefined]; reading a property of [null] or [undefined]
    throws. *)
Definition get (v : jsval) (k : jsstring) : completion jsval :=
  match v with
  | None | Some JNull => Throw TypeError
  | Some (JObj props) => Normal (lookup k props)
  | Some _ => Normal undefined
  end.

(** Decimal digits of an integer, as [Number::toString] prints it. *)
Definition Number_toString (n : Z) : jsstring :=
  lit (NilZero.string_of_int (Z.to_int n)).

(** ToString, as a template literal applies it.  A number of the model
    (an integer of magnitude below 2^53) prints as its decimal digits.
    An array is joined with commas, a [null] element printing as the
    empty string.  An object literal is converted by the [toString] it
    finds: the inherited one prints [[object Object]]; an own property
    [toString], which in a value read from JSON is never callable, hides
    it, and then no method yields a primitive ([valueOf] is either hidden
    in the same way or returns the object): a [TypeError]. *)
Fixpoint ToString_json (v : json) : completion jsstring :=
  match v with
  | JNull => Normal (lit "null")
  | JBool true => Normal (lit "true")
  | JBool false => Normal (lit "false")
  | JNum n => Normal (Number_toString n)
  | JStr s => Normal s
  | JArr items =>
      (fix join (l : list json) : completion jsstring :=
         match l with
         | [] => Normal []
         | x :: rest =>
             match (match x with JNull => Normal [] | _ => ToString_json x end) with
             | Throw e => Throw e
             | Normal here =>
                 match rest with
                 | [] => Normal here
                 | _ :: _ =>
                     match join rest with
                     | Throw e => Throw e
                     | Normal more => Normal (here ++ lit "," ++ more)
                     end
                 end
             end
         end) items
  | JObj props =>
      match lookup (lit "toString") props with
      | Some _ => Throw TypeError
      | None => Normal (lit "[object Object]")
      end
  end.

Definition ToString (v : jsval) : completion jsstring :=
  match v with
  | None => Normal (lit "undefined")
  | Some j => ToString_json j
  end.

(** [a || b]. *)
Definition or_else (a b : jsval) : jsval := if truthy a then a else b.

End Js.

(* ================================================================== *)
(** * Component state and the message dispatcher *)
(* ================================================================== *)

Module Dispatcher.
Import Js.

(** [interface TranscriptLine].  [id] is the value of [Date.now()];
    [timestamp] is the instant [new Date()] reads (its ISO rendering is
    not modelled).  [text] and [speaker] hold whatever the message
    carried. *)
Record TranscriptLine : Type := mkLine {
  id : Z;
  text : jsval;
  speaker : jsval;
  timestamp : Z
}.

(** [interface AnalysisData]; at run time each field holds the JSON value
    received. *)
Record AnalysisData : Type := mkAnalysis {
  symptoms : json;
  suggestions : json;
  severity : json;
  diagnoses : json
}.

Definition defaultSeverity : json :=
  JObj [(lit "level", JStr (lit "Low")); (lit "rationale", JStr [])].

(** The initial value given to [useState<AnalysisData>]. *)
Definition initialAnalysis : AnalysisData :=
  mkAnalysis (JArr []) (JArr []) defaultSeverity (JArr []).

Inductive Level : Type := LLog | LWarn | LError.

Inductive Tab : Type := TabLive | TabAnalysis | TabReport.

(** The state of [ConsultationWorkspace] the handlers touch, with the
    console as a trace (level and fixed text of each line, oldest
    first).  [renderFailed] records an exception raised inside a state
    updater, which React runs outside the handler's [try].  An updater
    that reads only values fixed when the setter is called is applied at
    the call; the updater of [simulateTranscription], which reads a
    variable the callback changes after the call, is applied as React
    runs it, at the render that follows.  The effects of the component
    (the recording timer, the automatic switch of tab) and the report
    are outside the model. *)
Record UI : Type := mkUI {
  transcript : list TranscriptLine;
  analysis : AnalysisData;
  error : option jsstring;
  isRecording : bool;
  isProcessing : bool;
  recordingDuration : Z;
  activeTab : Tab;
  console : list (Level * string);
  renderFailed : bool
}.

Definition initialUI : UI :=
  mkUI [] initialAnalysis None false false 0 TabLive [] false.

Definition setTranscript (f : list TranscriptLine -> list TranscriptLine) (u : UI) : UI :=
  mkUI (f (transcript u)) (analysis u) (error u) (isRecording u) (isProcessing u)
       (recordingDuration u) (activeTab u) (console u) (renderFailed u).

Definition setAnalysis (a : AnalysisData) (u : UI) : UI :=
  mkUI (transcript u) a (error u) (isRecording u) (isProcessing u)
       (recordingDuration u) (activeTab u) (console u) (renderFailed u).

Definition setError (e : option jsstring) (u : UI) : UI :=
  mkUI (transcript u) (analysis u) e (isRecording u) (isProcessing u)
       (recordingDuration u) (activeTab u) (console u) (renderFailed u).

Definition setIsRecording (b : bool) (u : UI) : UI :=
  mkUI (transcript u) (analysis u) (error u) b (isProcessing u)
       (recordingDuration u) (activeTab u) (console u) (renderFailed u).

Definition setIsProcessing (b : bool) (u : UI) : UI :=
  mkUI (transcript u) (analysis u) (error u) (isRecording u) b
       (recordingDuration u) (activeTab u) (console u) (renderFailed u).

Definition setRecordingDuration (d : Z) (u : UI) : UI :=
  mkUI (transcript u) (analysis u) (error u) (isRecording u) (isProcessing u)
       d (activeTab u) (console u) (renderFailed u).

Definition setActiveTab (t : Tab) (u : UI) : UI :=
  mkUI (transcript u) (analysis u) (error u) (isRecording u) (isProcessing u)
       (recordingDuration u) t (console u) (renderFailed u).

Definition print (l : Level) (msg : string) (u : UI) : UI :=
  mkUI (transcript u) (analysis u) (error u) (isRecording u) (isProcessing u)
       (recordingDuration u) (activeTab u) (console u ++ [(l, msg)]) (renderFailed u).

Definition failRender (u : UI) : UI :=
  mkUI (transcript u) (analysis u) (error u) (isRecording u) (isProcessing u)
       (recordingDuration u) (activeTab u) (console u) true.

(** ** Handler bodies: state and exceptions *)

Definition M (A : Type) : Type := UI -> completion A * UI.

Definition ret {A} (a : A) : M A := fun u => (Normal a, u).

Definition bind {A B} (m : M A) (k : A -> M B) : M B :=
  fun u =>
    match m u with
    | (Normal a, u') => k a u'
    | (Throw e, u') => (Throw e, u')
    end.

Definition lift {A} (c : completion A) : M A := fun u => (c, u).

Definition modify (f : UI -> UI) : M unit := fun u => (Normal tt, f u).

Notation "x <- m ;; k" := (bind m (fun x => k))
  (at level 61, m at next level, right associativity).
Notation "m ;;; k" := (bind m (fun _ => k))
  (at level 61, right associativity).

(** [try { body } catch (error) { console.error(msg, error) }]. *)
Definition try_catch (body : M unit) (msg : string) (u : UI) : UI :=
  match body u with
  | (Normal _, u') => u'
  | (Throw _, u') => print LError msg u'
  end.

(** ** Speaker text helpers *)

Fixpoint strip_prefix (p s : jsstring) : option jsstring :=
  match p, s with
  | [], _ => Some s
  | x :: p', y :: s' => if (x =? y)%N then strip_prefix p' s' else None
  | _ :: _, [] => None
  end.

Fixpoint span (f : N -> bool) (s : jsstring) : jsstring * jsstring :=
  match s with
  | [] => ([], [])
  | c :: s' =>
      if f c then let (a, b) := span f s' in (c :: a, b) else ([], s)
  end.

(** The class [\d]: the ASCII digits. *)
Definition is_digit (c : N) : bool := ((48 <=? c) && (c <=? 57))%N.

(** The class [\s]: white space and line terminators. *)
Definition is_space (c : N) : bool :=
  (((9 <=? c) && (c <=? 13)) || (c =? 32) || (c =? 160) || (c =? 5760)
   || ((8192 <=? c) && (c <=? 8202)) || (c =? 8232) || (c =? 8233)
   || (c =? 8239) || (c =? 8287) || (c =? 12288) || (c =? 65279))%N.

(** A match of [/^(Speaker \d+):/]: the first group and what follows the
    colon.  The digits are matched greedily; a shorter run cannot be
    followed by the colon. *)
Definition match_speaker (t : jsstring) : option (jsstring * jsstring) :=
  match strip_prefix (lit "Speaker ") t with
  | None => None
  | Some rest =>
      match span is_digit rest with
      | (d :: ds, c :: after) =>
          if (c =? 58)%N then Some (lit "Speaker " ++ d :: ds, after) else None
      | _ => None
      end
  end.

(** [text.match(/^(Speaker \d+):/)]; [match ? match[1] : undefined]. *)
Definition extractSpeakerFromText (t : jsstring) : jsval :=
  match match_speaker t with
  | Some (g, _) => Some (JStr g)
  | None => undefined
  end.

(** [text.replace(/^(Speaker \d+):\s*/, '')]. *)
Definition removeSpeakerPrefix (t : jsstring) : jsstring :=
  match match_speaker t with
  | Some (_, after) => snd (span is_space after)
  | None => t
  end.

(** Calling a string method on [v]: a [TypeError] unless [v] is a string. *)
Definition as_string (v : jsval) : completion jsstring :=
  match v with
  | Some (JStr s) => Normal s
  | _ => Throw TypeError
  end.

(** [a || d] with a defined right operand. *)
Definition or_default (a : jsval) (d : json) : json :=
  match a with
  | Some j => if truthy a then j else d
  | None => d
  end.

(** ** The handlers installed by [setupWebSocket] *)

(** The two readings of the clock one appended line consumes:
    [Date.now()] and [new Date()]. *)
Record Clock : Type := mkClock {
  Date_now : Z;
  new_Date : Z
}.

(** [interface CloseEvent]. *)
Record CloseEvent : Type := mkCloseEvent {
  code : Z;
  reason : jsstring;
  wasClean : bool
}.

Section Handlers.

(** [JSON.parse] belongs to the platform: a parameter.  It returns the
    parsed value or throws a [SyntaxError]. *)
Variable JSON_parse : jsstring -> completion json.

Definition appendLine (l : TranscriptLine) : M unit :=
  modify (setTranscript (fun prev => prev ++ [l])).

(** The branch [data.type === "transcript"]. *)
Definition onTranscript (clk : Clock) (d : jsval) : M unit :=
  sp <- lift (get d (lit "speaker")) ;;
  let speakerNumber :=
    match sp with
    | Some (JNum n) => n
    | _ => 0
    end in
  let speakerLabel := lit "Speaker " ++ Number_toString (speakerNumber + 1) in
  t <- lift (get d (lit "text")) ;;
  appendLine (mkLine (Date_now clk) t (Some (JStr speakerLabel)) (new_Date clk)).

(** The branch [data.type === "analysis"]. *)
Definition onAnalysis (d : jsval) : M unit :=
  dd <- lift (get d (lit "data")) ;;
  if truthy dd && typeof_object dd then
    modify (print LLog "Received analysis data:") ;;;
    sy <- lift (get dd (lit "symptoms")) ;;
    su <- lift (get dd (lit "suggestions")) ;;
    se <- lift (get dd (lit "severity")) ;;
    di <- lift (get dd (lit "diagnoses")) ;;
    modify (setAnalysis
              (mkAnalysis (or_default sy (JArr [])) (or_default su (JArr []))
                          (or_default se defaultSeverity) (or_default di (JArr []))))
  else
    modify (print LWarn "Received analysis message with invalid data structure:").

(** The branch [data.type === "error"]: the template literal is
    evaluated before [setError] is called. *)
Definition onErrorMessage (d : jsval) : M unit :=
  m <- lift (get d (lit "message")) ;;
  modify (print LError "Received error message:") ;;;
  shown <- lift (ToString m) ;;
  modify (setError (Some (lit "Error: " ++ shown))).

(** The two legacy branches share their body but for the log line.  The
    speaker is computed in the handler; the text is computed inside the
    updater passed to [setTranscript], which React runs outside the
    handler's [try]. *)
Definition onLegacyText (logmsg : string) (clk : Clock) (d : jsval) : M unit :=
  t <- lift (get d (lit "text")) ;;
  modify (print LLog logmsg) ;;;
  sp <- lift (get d (lit "speaker")) ;;
  who <- (if truthy sp then ret sp
          else s <- lift (as_string t) ;; ret (extractSpeakerFromText s)) ;;
  match t with
  | Some (JStr s) =>
      appendLine (mkLine (Date_now clk) (Some (JStr (removeSpeakerPrefix s))) who
                         (new_Date clk))
  | _ => modify failRender
  end.

(** The body of the [try] in [newWs.onmessage]. *)
Definition onmessage_body (clk : Clock) (data : jsstring) : M unit :=
  if str_eqb data (lit "pong") then
    modify (print LLog "Received pong from server")
  else
    parsed <- lift (JSON_parse data) ;;
    let d : jsval := Some parsed in
    modify (print LLog "Received WebSocket message:") ;;;
    ty <- lift (get d (lit "type")) ;;
    if strict_eq_str ty (lit "transcript") then onTranscript clk d
    else if strict_eq_str ty (lit "analysis") then onAnalysis d
    else if strict_eq_str ty (lit "error") then onErrorMessage d
    else
      st <- lift (get d (lit "status")) ;;
      if strict_eq_str st (lit "ready") || strict_eq_str ty (lit "status") then
        modify (print LLog "Transcription service status:")
      else
        ev <- lift (get d (lit "event")) ;;
        if strict_eq_str ev (lit "transcription") then
          onLegacyText "Received transcription event:" clk d
        else
          t <- lift (get d (lit "text")) ;;
          if truthy t then onLegacyText "Received text data:" clk d
          else ret tt.

Definition onmessage (clk : Clock) (data : jsstring) (u : UI) : UI :=
  try_catch (onmessage_body clk data) "Error processing WebSocket message:" u.

End Handlers.

Definition onopen (u : UI) : UI :=
  setError None (print LLog "WebSocket connection established" u).

Definition onerror (u : UI) : UI :=
  setError
    (Some (lit "WebSocket connection error. Please ensure the backend server is running and reachable."))
    (print LError "WebSocket error:" u).

Definition onclose (event : CloseEvent) (u : UI) : UI :=
  let u' := print LLog "WebSocket connection closed." u in
  if negb (wasClean event) then
    setError (Some (lit "WebSocket connection closed unexpectedly.")) u'
  else u'.

(** ** Vocabulary of the statements about messages *)

(** The own property [k] of a parsed message ([undefined] when absent or
    when the message is not an object literal). *)
Definition field (d : json) (k : string) : jsval :=
  match d with
  | JObj props => lookup (lit k) props
  | _ => undefined
  end.

(** A JavaScript object: an object literal or an array, not [null]. *)
Definition is_object (v : jsval) : bool :=
  match v with
  | Some (JObj _) | Some (JArr _) => true
  | _ => false
  end.

(** The line a [transcript] message [d] appends. *)
Definition transcript_line (clk : Clock) (d : json) : TranscriptLine :=
  mkLine (Date_now clk) (field d "text")
    (Some (JStr (lit "Speaker " ++
                 Number_toString
                   (match field d "speaker" with
                    | Some (JNum n) => n
                    | _ => 0
                    end + 1))))
    (new_Date clk).

(** The snapshot an [analysis] message with payload [v] installs. *)
Definition snapshot_of (v : json) : AnalysisData :=
  mkAnalysis (or_default (field v "symptoms") (JArr []))
             (or_default (field v "suggestions") (JArr []))
             (or_default (field v "severity") defaultSeverity)
             (or_default (field v "diagnoses") (JArr [])).

(** A run of the dispatcher over a sequence of inbound messages, each
    with the clock readings taken while it is handled.  Only the handler
    is composed: the effect that switches the tab after a render is not
    part of it. *)
Fixpoint dispatchAll (parse : jsstring -> completion json)
    (msgs : list (Clock * jsstring)) (u : UI) : UI :=
  match msgs with
  | [] => u
  | (clk, data) :: rest => dispatchAll parse rest (onmessage parse clk data u)
  end.

(** Identifiers strictly increasing in append order. *)
Fixpoint strictly_increasing (l : list Z) : Prop :=
  match l with
  | [] => True
  | x :: rest =>
      match rest with
      | [] => True
      | y :: _ => x < y /\ strictly_increasing rest
      end
  end.

End Dispatcher.

(* ================================================================== *)
(** * Sample messages *)
(* ================================================================== *)

Module Samples.
Import Js Dispatcher.

(** JSON text written with apostrophes for the quotation marks. *)
Definition json_text (s : string) : jsstring :=
  map (fun c => if (c =? 39)%N then 34%N else c) (lit s).

Definition hello0 : jsstring :=
  json_text "{'type':'transcript','text':'Hello','speaker':0}".
Definition hello0_value : json :=
  JObj [(lit "type", JStr (lit "transcript")); (lit "text", JStr (lit "Hello"));
        (lit "speaker", JNum 0)].

Definition again0 : jsstring :=
  json_text "{'type':'transcript','text':'Again','speaker':0}".
Definition again0_value : json :=
  JObj [(lit "type", JStr (lit "transcript")); (lit "text", JStr (lit "Again"));
        (lit "speaker", JNum 0)].

Definition letter_speaker : jsstring :=
  json_text "{'type':'transcript','text':'Hi','speaker':'A'}".
Definition letter_speaker_value : json :=
  JObj [(lit "type", JStr (lit "transcript")); (lit "text", JStr (lit "Hi"));
        (lit "speaker", JStr (lit "A"))].

Definition partial_analysis : jsstring :=
  json_text "{'type':'analysis','data':{'suggestions':['Rest']}}".
Definition partial_analysis_value : json :=
  JObj [(lit "type", JStr (lit "analysis"));
        (lit "data", JObj [(lit "suggestions", JArr [JStr (lit "Rest")])])].

Definition bad_analysis : jsstring :=
  json_text "{'type':'analysis','data':'none'}".
Definition bad_analysis_value : json :=
  JObj [(lit "type", JStr (lit "analysis")); (lit "data", JStr (lit "none"))].

Definition garbage : jsstring := lit "not json at all".

(** [JSON.parse] on the sample texts; any other text is a [SyntaxError]
    here. *)
Definition parse_samples (data : jsstring) : completion json :=
  if str_eqb data hello0 then Normal hello0_value
  else if str_eqb data again0 then Normal again0_value
  else if str_eqb data letter_speaker then Normal letter_speaker_value
  else if str_eqb data partial_analysis then Normal partial_analysis_value
  else if str_eqb data bad_analysis then Normal bad_analysis_value
  else Throw SyntaxError.

End Samples.

(* ================================================================== *)
(** * Transport: sockets, audio processing, record and stop *)
(* ================================================================== *)

Module Transport.
Import Js Dispatcher.

(** [WebSocket.readyState]: 0, 1, 2, 3. *)
Inductive ReadyState : Type := CONNECTING | OPEN | CLOSING | CLOSED.

Definition is_open (r : ReadyState) : bool :=
  match r with
  | OPEN => true
  | _ => false
  end.

(** A [WebSocket] object: its state, the bytes queued and not yet
    transmitted, the frames handed to [send] (oldest first), and the
    arguments of the [close] calls made on it. *)
Record WebSocket : Type := mkWs {
  readyState : ReadyState;
  bufferedAmount : Z;
  sent : list (list Z);
  closeCalls : list (option (Z * string))
}.

Definition newWebSocket : WebSocket := mkWs CONNECTING 0 [] [].

(** [ws.send(pcmData.buffer)] on an open socket: an [Int16Array] of [n]
    samples is a buffer of [2 * n] bytes. *)
Definition ws_send (frame : list Z) (ws : WebSocket) : WebSocket :=
  mkWs (readyState ws) (bufferedAmount ws + 2 * Z.of_nat (List.length frame))
       (sent ws ++ [frame]) (closeCalls ws).

(** [ws.close(...)]: a connecting or open socket starts closing. *)
Definition ws_close (args : option (Z * string)) (ws : WebSocket) : WebSocket :=
  mkWs (match readyState ws with
        | CONNECTING | OPEN => CLOSING
        | r => r
        end)
       (bufferedAmount ws) (sent ws) (closeCalls ws ++ [args]).

Definition ws_set_state (r : ReadyState) (ws : WebSocket) : WebSocket :=
  mkWs r (bufferedAmount ws) (sent ws) (closeCalls ws).

(** The network transmits [n] of the queued bytes. *)
Definition ws_drain (n : Z) (ws : WebSocket) : WebSocket :=
  mkWs (readyState ws) (bufferedAmount ws - Z.max 0 (Z.min n (bufferedAmount ws)))
       (sent ws) (closeCalls ws).

(** ** The audio callback of [setupAudioProcessing] *)

Definition recorderBufferSize : Z := 4096.

(** [processor.onaudioprocess], for the closure variables [recording]
    and [websocket]. *)
Definition onaudioprocess (recording : bool) (ws : WebSocket)
    (inputData : list Encoder.number) (u : UI) : WebSocket * UI :=
  if recording && is_open (readyState ws) then
    let pcmData := Encoder.encodeFrame inputData in
    if bufferedAmount ws <? recorderBufferSize * 2 then
      (ws_send pcmData ws, u)
    else
      (ws, print LWarn "WebSocket buffer full, dropping audio chunk" u)
  else (ws, u).

(** ** The objects of one component instance *)

(** The [ScriptProcessorNode] with the variables its callback closes
    over.  The [AudioContext] is represented by the node it drives. *)
Record Processor : Type := mkProcessor {
  socket : nat;
  recording : bool;
  connected : bool
}.

Record MediaRecorder : Type := mkRecorder {
  stream : nat;
  active : bool
}.

(** The interval of [simulateTranscription] with its variable [index]. *)
Record Simulation : Type := mkSim {
  index : nat;
  running : bool
}.

(** An invocation of the async function [handleRecord]. *)
Inductive Task : Type :=
| AwaitMedia
| AwaitOpen (stream websocket : nat) (retries : nat)
| Finished.

(** A timer requested with [setTimeout] or [setInterval]. *)
Inductive Timer : Type :=
| SleepOf (t : nat)
| IntervalOf (k : nat)
| ProcessingDone.

(** Objects live in stores and are named by their position; the refs of
    the component hold such names.  [streams] records for each
    [MediaStream] whether its tracks are live; [scheduled] lists the
    timers requested so far with their delay in milliseconds. *)
Record Session : Type := mkSession {
  ui : UI;
  sockets : list WebSocket;
  websocketRef : option nat;
  streams : list bool;
  mediaRecorderRef : option MediaRecorder;
  processors : list Processor;
  processorNodeRef : option nat;
  simulations : list Simulation;
  tasks : list Task;
  scheduled : list (Timer * Z)
}.

Definition initialSession : Session :=
  mkSession initialUI [] None [] None [] None [] [] [].

Definition with_ui (f : UI -> UI) (s : Session) : Session :=
  mkSession (f (ui s)) (sockets s) (websocketRef s) (streams s) (mediaRecorderRef s)
            (processors s) (processorNodeRef s) (simulations s) (tasks s) (scheduled s).

Definition with_sockets (f : list WebSocket -> list WebSocket) (s : Session) : Session :=
  mkSession (ui s) (f (sockets s)) (websocketRef s) (streams s) (mediaRecorderRef s)
            (processors s) (processorNodeRef s) (simulations s) (tasks s) (scheduled s).

Definition set_websocketRef (r : option nat) (s : Session) : Session :=
  mkSession (ui s) (sockets s) r (streams s) (mediaRecorderRef s)
            (processors s) (processorNodeRef s) (simulations s) (tasks s) (scheduled s).

Definition with_streams (f : list bool -> list bool) (s : Session) : Session :=
  mkSession (ui s) (sockets s) (websocketRef s) (f (streams s)) (mediaRecorderRef s)
            (processors s) (processorNodeRef s) (simulations s) (tasks s) (scheduled s).

Definition set_mediaRecorderRef (r : option MediaRecorder) (s : Session) : Session :=
  mkSession (ui s) (sockets s) (websocketRef s) (streams s) r
            (processors s) (processorNodeRef s) (simulations s) (tasks s) (scheduled s).

Definition with_processors (f : list Processor -> list Processor) (s : Session) : Session :=
  mkSession (ui s) (sockets s) (websocketRef s) (streams s) (mediaRecorderRef s)
            (f (processors s)) (processorNodeRef s) (simulations s) (tasks s) (scheduled s).

Definition set_processorNodeRef (r : option nat) (s : Session) : Session :=
  mkSession (ui s) (sockets s) (websocketRef s) (streams s) (mediaRecorderRef s)
            (processors s) r (simulations s) (tasks s) (scheduled s).

Definition with_simulations (f : list Simulation -> list Simulation) (s : Session) : Session :=
  mkSession (ui s) (sockets s) (websocketRef s) (streams s) (mediaRecorderRef s)
            (processors s) (processorNodeRef s) (f (simulations s)) (tasks s) (scheduled s).

Definition with_tasks (f : list Task -> list Task) (s : Session) : Session :=
  mkSession (ui s) (sockets s) (websocketRef s) (streams s) (mediaRecorderRef s)
            (processors s) (processorNodeRef s) (simulations s) (f (tasks s)) (scheduled s).

Definition schedule (k : Timer) (delay : Z) (s : Session) : Session :=
  mkSession (ui s) (sockets s) (websocketRef s) (streams s) (mediaRecorderRef s)
            (processors s) (processorNodeRef s) (simulations s) (tasks s)
            (scheduled s ++ [(k, delay)]).

(** Update of the object named [i]; a name that denotes nothing changes
    nothing. *)
Fixpoint alter {A : Type} (f : A -> A) (i : nat) (l : list A) : list A :=
  match l, i with
  | [], _ => []
  | x :: r, O => f x :: r
  | x :: r, S j => x :: alter f j r
  end.

Definition socket_state (s : Session) (w : nat) : option ReadyState :=
  option_map readyState (nth_error (sockets s) w).

Definition socket_is_open (s : Session) (w : nat) : bool :=
  match nth_error (sockets s) w with
  | Some ws => is_open (readyState ws)
  | None => false
  end.

(** [stream.getTracks().forEach(track => track.stop())]. *)
Definition stop_tracks (i : nat) (s : Session) : Session :=
  with_streams (alter (fun _ => false) i) s.

(** ** [simulateTranscription] *)

Definition mockConversation : list (string * string) :=
  ([ ("Good morning. What brings you in today?", "Doctor");
    ("Hello doctor, I've been having some headaches lately.", "Patient");
    ("I'm sorry to hear that. Can you tell me more about these headaches? When do they typically occur?", "Doctor");
    ("They usually start in the morning and get worse throughout the day.", "Patient");
    ("Are you experiencing any other symptoms along with the headaches?", "Doctor");
    ("I've also been feeling a bit dizzy sometimes.", "Patient");
    ("How long have you been experiencing these symptoms?", "Doctor");
    ("Yes, it's been going on for about two weeks now.", "Patient");
    ("Have you tried any medications to alleviate the pain?", "Doctor");
    ("I've tried taking over-the-counter pain medication but it doesn't help much.", "Patient") ])%string.

(** The period of the interval, in milliseconds. *)
Definition SIMULATION_INTERVAL_MS : Z := 2500.

Definition mockLine (clk : Clock) (entry : string * string) : TranscriptLine :=
  mkLine (Date_now clk) (Some (JStr (lit (fst entry)))) (Some (JStr (lit (snd entry))))
         (new_Date clk).

(** Starts the interval; the handle it returns is dropped by the caller. *)
Definition simulateTranscription (s : Session) : Session :=
  schedule (IntervalOf (List.length (simulations s))) SIMULATION_INTERVAL_MS
    (with_simulations (fun l => l ++ [mkSim 0 true])
       (with_ui (print LLog "Using simulated transcription for demo") s)).

(** One firing of the interval callback, with the render that follows
    it (the firings are 2500 ms apart).  The callback tests [index],
    hands [setTranscript] an updater and increments [index]; the updater
    reads [mockConversation[index]] when React runs it, at that render,
    so after the increment: the firing that finds [index = i] appends
    entry [i + 1].  When there is no such entry [mockConversation[index]]
    is [undefined], and reading its [text] throws inside the updater.
    [clk] holds the readings of the clock the updater takes. *)
Definition simulation_tick (k : nat) (clk : Clock) (s : Session) : Session :=
  match nth_error (simulations s) k with
  | Some sim =>
      if running sim then
        if (index sim <? List.length mockConversation)%nat then
          let s1 :=
            with_simulations (alter (fun x => mkSim (S (index x)) (running x)) k) s in
          match nth_error mockConversation (S (index sim)) with
          | Some entry =>
              with_ui (setTranscript (fun prev => prev ++ [mockLine clk entry])) s1
          | None => with_ui failRender s1
          end
        else
          with_ui (fun u => setRecordingDuration 0 (setIsProcessing false (setIsRecording false u)))
            (with_simulations (alter (fun x => mkSim (index x) false) k) s)
      else s
  | None => s
  end.

(** ** [setupWebSocket], [setupAudioProcessing], [handleRecord], [handleStop] *)

Definition MAX_RETRIES : nat := 30.
Definition RETRY_DELAY_MS : Z := 1000.

Definition starts_with (p t : jsstring) : bool :=
  match strip_prefix p t with
  | Some _ => true
  | None => false
  end.

(** The platform and the configuration: [JSON.parse], the value of
    [process.env.NEXT_PUBLIC_API_URL], whether [new WebSocket(url)]
    accepts a URL and the message of the exception it throws otherwise,
    whether the audio graph and the [MediaRecorder] can be created. *)
Record Platform : Type := mkPlatform {
  JSON_parse : jsstring -> completion json;
  API_BASE_URL : option jsstring;
  url_accepted : jsstring -> bool;
  ctor_message : jsstring;
  audio_ok : bool;
  recorder_ok : bool
}.

Section Component.

Variable platform : Platform.

Definition getWebSocketUrl : option jsstring :=
  match API_BASE_URL platform with
  | None | Some [] => None
  | Some base =>
      let wsProtocol := if starts_with (lit "https") base then lit "wss" else lit "ws" in
      let host :=
        match strip_prefix (lit "https://") base with
        | Some r => r
        | None =>
            match strip_prefix (lit "http://") base with
            | Some r => r
            | None => base
            end
        end in
      Some (wsProtocol ++ lit "://" ++ host ++ lit "/ws/transcribe")
  end.

(** "Close existing connection if there is one". *)
Definition close_existing (s : Session) : Session :=
  match websocketRef s with
  | Some w => with_sockets (alter (ws_close None) w) s
  | None => s
  end.

Definition setupWebSocket (s : Session) : completion nat * Session :=
  let s1 := close_existing s in
  match getWebSocketUrl with
  | None =>
      (Throw OtherError,
       with_ui (fun u =>
                  setError (Some (lit "Cannot setup WebSocket: API_BASE_URL is not configured."))
                    (print LError "Cannot setup WebSocket: API_BASE_URL is not configured."
                       (print LError "Cannot determine WebSocket URL because API_BASE_URL is not set." u)))
         s1)
  | Some wsUrl =>
      let s2 :=
        with_ui (fun u => print LLog "Attempting WebSocket connection to backend"
                            (print LLog "Calculated WebSocket URL:" u)) s1 in
      if url_accepted platform wsUrl then
        let w := List.length (sockets s2) in
        (Normal w, set_websocketRef (Some w) (with_sockets (fun l => l ++ [newWebSocket]) s2))
      else
        (Throw OtherError,
         with_ui (fun u =>
                    setError (Some (lit "Failed to connect: " ++
                                    match ctor_message platform with
                                    | [] => lit "Unknown error"
                                    | _ :: _ => ctor_message platform
                                    end))
                      (print LError "Error setting up WebSocket connection:" u)) s2)
  end.

(** Creates the audio graph on [stream] and installs the callback bound
    to [websocket]. *)
Definition setupAudioProcessing (stream websocket : nat) (s : Session)
    : completion nat * Session :=
  let s1 := with_ui (print LLog "Setting up audio processing with Deepgram-friendly format") s in
  if audio_ok platform then
    let p := List.length (processors s1) in
    (Normal p,
     with_ui (print LLog "Audio processing pipeline set up successfully")
       (set_processorNodeRef (Some p)
          (with_processors (fun l => l ++ [mkProcessor websocket true true])
             (with_ui (print LLog "Creating audio processor node") s1))))
  else
    (Throw OtherError, with_ui (print LError "Error setting up audio processing:") s1).

Definition finish (t : nat) (s : Session) : Session :=
  with_tasks (alter (fun _ => Finished) t) s.

(** The [catch] of [handleRecord]. *)
Definition record_failed (t : nat) (s : Session) : Session :=
  finish t
    (with_ui (fun u =>
                setIsRecording false
                  (setError (Some (lit "Could not access microphone or connect to transcription service. Please check permissions."))
                     (print LError "Error accessing microphone or WebSocket:" u))) s).

(** Step 4 of [handleRecord], the socket not open: demonstration mode. *)
Definition fallback (t stream : nat) (s : Session) : Session :=
  let s1 :=
    with_ui (fun u =>
               setError (Some (lit "Could not connect to transcription service. Using demo mode."))
                 (print LWarn "Failed to establish WebSocket connection after retries. Using mock transcription instead." u)) s in
  let s2 := stop_tracks stream s1 in
  let s3 := simulateTranscription s2 in
  finish t (with_ui (setIsRecording true) s3).

(** Step 5 of [handleRecord], the socket open. *)
Definition start_streaming (t stream websocket : nat) (s : Session) : Session :=
  match setupAudioProcessing stream websocket s with
  | (Throw _, s1) => record_failed t s1
  | (Normal _, s1) =>
      if recorder_ok platform then
        finish t
          (with_ui (fun u => print LLog "Real-time streaming transcription started..."
                               (setIsRecording true u))
             (set_mediaRecorderRef (Some (mkRecorder stream true)) s1))
      else record_failed t s1
  end.

(** The loop test
    [while (websocket.readyState !== WebSocket.OPEN && retries > 0)]:
    either the invocation goes to sleep for [RETRY_DELAY_MS], or the
    loop is left and step 4 decides. *)
Definition poll (t stream websocket retries : nat) (s : Session) : Session :=
  if negb (socket_is_open s websocket) && (0 <? retries)%nat then
    schedule (SleepOf t) RETRY_DELAY_MS
      (with_tasks (alter (fun _ => AwaitOpen stream websocket retries) t)
         (with_ui (print LLog "Waiting for WebSocket connection") s))
  else if negb (socket_is_open s websocket) then fallback t stream s
  else start_streaming t stream websocket s.

(** The click on "Start Recording", up to [await getUserMedia]. *)
Definition handleRecord (mediaDevices : bool) (s : Session) : Session :=
  let s1 := with_ui (fun u => setRecordingDuration 0 (setError None u)) s in
  if mediaDevices then with_tasks (fun l => l ++ [AwaitMedia]) s1
  else with_ui (setError (Some (lit "Audio recording is not supported by this browser."))) s1.

(** [getUserMedia] settles for invocation [t]. *)
Definition handleRecord_media (t : nat) (granted : bool) (s : Session) : Session :=
  match nth_error (tasks s) t with
  | Some AwaitMedia =>
      if granted then
        let stream := List.length (streams s) in
        let s1 := with_streams (fun l => l ++ [true]) s in
        match setupWebSocket s1 with
        | (Normal w, s2) => poll t stream w MAX_RETRIES (set_websocketRef (Some w) s2)
        | (Throw _, s2) => record_failed t s2
        end
      else record_failed t s
  | _ => s
  end.

(** The sleep of invocation [t] ends: [retries--], then the loop test. *)
Definition handleRecord_wake (t : nat) (s : Session) : Session :=
  match nth_error (tasks s) t with
  | Some (AwaitOpen stream w retries) => poll t stream w (pred retries) s
  | _ => s
  end.

(** The click on "End Recording".  Closing the [AudioContext] and
    clearing the recording timer leave no trace in the model. *)
Definition handleStop (s : Session) : Session :=
  if isRecording (ui s) then
    let s1 := with_ui (fun u => print LLog "Recording stopped explicitly..." (setIsRecording false u)) s in
    let s2 :=
      match mediaRecorderRef s1 with
      | Some r =>
          if active r then
            stop_tracks (stream r) (set_mediaRecorderRef (Some (mkRecorder (stream r) false)) s1)
          else s1
      | None => s1
      end in
    let s3 :=
      match websocketRef s2 with
      | Some w =>
          if socket_is_open s2 w then
            with_sockets (alter (ws_close (Some (1000, "Client stopped recording"%string))) w)
              (with_ui (print LLog "Closing WebSocket from client after stopping recording.") s2)
          else s2
      | None => s2
      end in
    let s4 :=
      match processorNodeRef s3 with
      | Some p =>
          set_processorNodeRef None
            (with_processors (alter (fun x => mkProcessor (socket x) (recording x) false) p) s3)
      | None => s3
      end in
    schedule ProcessingDone 1500
      (with_ui (fun u => setIsProcessing true (setActiveTab TabAnalysis u)) s4)
  else s.

(** ** The event loop *)

Inductive Event : Type :=
| RecordClicked (mediaDevices : bool)
| MediaSettled (t : nat) (granted : bool)
| RetryTimer (t : nat)
| WsOpen (w : nat)
| WsMessage (w : nat) (clk : Clock) (data : jsstring)
| WsError (w : nat)
| WsClose (w : nat) (event : CloseEvent)
| Drain (w : nat) (n : Z)
| AudioProcess (p : nat) (inputData : list Encoder.number)
| SimTick (k : nat) (clk : Clock)
| StopClicked
| StopTimeout.

Definition step (e : Event) (s : Session) : Session :=
  match e with
  | RecordClicked mediaDevices => handleRecord mediaDevices s
  | MediaSettled t granted => handleRecord_media t granted s
  | RetryTimer t => handleRecord_wake t s
  | WsOpen w =>
      match socket_state s w with
      | Some CONNECTING =>
          with_ui onopen (with_sockets (alter (ws_set_state OPEN) w) s)
      | _ => s
      end
  | WsMessage w clk data =>
      match socket_state s w with
      | Some OPEN | Some CLOSING => with_ui (onmessage (JSON_parse platform) clk data) s
      | _ => s
      end
  | WsError w =>
      match socket_state s w with
      | Some _ => with_ui onerror s
      | None => s
      end
  | WsClose w event =>
      match socket_state s w with
      | Some CLOSED | None => s
      | Some _ => with_ui (onclose event) (with_sockets (alter (ws_set_state CLOSED) w) s)
      end
  | Drain w n => with_sockets (alter (ws_drain n) w) s
  | AudioProcess p inputData =>
      match nth_error (processors s) p with
      | Some pr =>
          if connected pr then
            match nth_error (sockets s) (socket pr) with
            | Some ws =>
                let (ws', u') := onaudioprocess (recording pr) ws inputData (ui s) in
                with_ui (fun _ => u') (with_sockets (alter (fun _ => ws') (socket pr)) s)
            | None => s
            end
          else s
      | None => s
      end
  | SimTick k clk => simulation_tick k clk s
  | StopClicked => handleStop s
  | StopTimeout =>
      with_ui (fun u => print LLog "Analysis complete. Ready to generate report!"
                          (setIsProcessing false u)) s
  end.

Fixpoint run (events : list Event) (s : Session) : Session :=
  match events with
  | [] => s
  | e :: rest => run rest (step e s)
  end.

End Component.

(** ** Vocabulary of the statements about runs *)

(** How many times the sleep of invocation [t] ends in [events]. *)
Fixpoint wakes (t : nat) (events : list Event) : nat :=
  match events with
  | [] => 0
  | RetryTimer t' :: rest => ((if (t' =? t)%nat then 1 else 0) + wakes t rest)%nat
  | _ :: rest => wakes t rest
  end.

(** Whether socket [w] gets opened in [events]. *)
Fixpoint opens (w : nat) (events : list Event) : bool :=
  match events with
  | [] => false
  | WsOpen w' :: rest => (w' =? w)%nat || opens w rest
  | _ :: rest => opens w rest
  end.

(** How many sleeps of [RETRY_DELAY_MS] invocation [t] has requested. *)
Fixpoint sleeps (t : nat) (l : list (Timer * Z)) : nat :=
  match l with
  | [] => 0
  | (SleepOf t', d) :: rest =>
      ((if (t' =? t)%nat && (d =? RETRY_DELAY_MS)%Z then 1 else 0) + sleeps t rest)%nat
  | _ :: rest => sleeps t rest
  end.

(** Socket [w] exists and no frame was ever handed to it. *)
Definition silent (w : nat) (s : Session) : Prop :=
  exists ws, nth_error (sockets s) w = Some ws /\ sent ws = [].

(** No audio callback is bound to socket [w]. *)
Definition unbound (w : nat) (s : Session) : Prop :=
  forall p pr, nth_error (processors s) p = Some pr -> socket pr <> w.

(** Only invocation [t], if any, waits for socket [w] to open. *)
Definition only_waiter (t w : nat) (s : Session) : Prop :=
  forall t' st r, nth_error (tasks s) t' = Some (AwaitOpen st w r) -> t' = t.

(** No invocation waits for socket [w] to open. *)
Definition no_waiter (w : nat) (s : Session) : Prop :=
  forall t st r, nth_error (tasks s) t <> Some (AwaitOpen st w r).

(** Every invocation and every audio callback refers to a socket that
    exists. *)
Definition well_formed (s : Session) : Prop :=
  (forall t st w r, nth_error (tasks s) t = Some (AwaitOpen st w r) ->
                    (w < List.length (sockets s))%nat /\ (st < List.length (streams s))%nat)
  /\ (forall p pr, nth_error (processors s) p = Some pr ->
                   (socket pr < List.length (sockets s))%nat).

(** Invocation [t] sleeps in its wait loop with [r] retries left, for a
    socket [w] that is not open and that nothing else refers to. *)
Definition waiting (t st w r : nat) (s : Session) : Prop :=
  nth_error (tasks s) t = Some (AwaitOpen st w r)
  /\ only_waiter t w s /\ silent w s /\ unbound w s
  /\ socket_is_open s w = false
  /\ (st < List.length (streams s))%nat.

(** Socket [w] has carried no frame and nothing can make it carry one. *)
Definition quiet (w : nat) (s : Session) : Prop :=
  silent w s /\ unbound w s /\ no_waiter w s.

(** The lines that firings at the instants [ticks] append when they
    take the entries of [script] in order. *)
Fixpoint scripted (ticks : list Clock) (script : list (string * string)) : list TranscriptLine :=
  match ticks, script with
  | clk :: ticks', entry :: script' => mockLine clk entry :: scripted ticks' script'
  | _, _ => []
  end.

(** The bound on the bytes queued on a socket: below the threshold plus
    one frame of [recorderBufferSize] samples. *)
Definition buffer_ok (ws : WebSocket) : Prop :=
  0 <= bufferedAmount ws < recorderBufferSize * 2 + 2 * recorderBufferSize.

(** Every audio callback delivers at most one buffer of
    [recorderBufferSize] samples, the size the node was created with. *)
Fixpoint frames_fit (events : list Event) : Prop :=
  match events with
  | [] => True
  | AudioProcess _ inputData :: rest =>
      Z.of_nat (List.length inputData) <= recorderBufferSize /\ frames_fit rest
  | _ :: rest => frames_fit rest
  end.

End Transport.

(* ================================================================== *)
(** * Sample runs *)
(* ================================================================== *)

Module Scenarios.
Import Js Dispatcher Transport.

(** A browser with every facility, configured for a local relay. *)
Definition demo_platform : Platform :=
  mkPlatform Samples.parse_samples (Some (lit "http://localhost:8000"))
             (fun _ => true) [] true true.

(** Both readings of the clock within one millisecond. *)
Definition same_millisecond : Clock := mkClock 1700000000000 1700000000000.

(** Record is clicked in a browser that offers [getUserMedia]. *)
Definition record_clicked : list Event := [RecordClicked true].

(** Twenty-nine sleeps end while the relay stays unreachable. *)
Definition never_connects : list Event := repeat (RetryTimer 0) 29.

(** A recording in progress: the socket opened during the first sleep. *)
Definition recording_session : Session :=
  run demo_platform
    [RecordClicked true; MediaSettled 0 true; WsOpen 0; RetryTimer 0] initialSession.

(** An open socket with more bytes queued than twice
    [recorderBufferSize]. *)
Definition congested_socket : WebSocket := mkWs OPEN 9000 [] [].

(** A clean closure carrying the server-error code. *)
Definition clean_server_error : CloseEvent :=
  mkCloseEvent 1011 (lit "Internal error") true.

End Scenarios.

(* ================================================================== *)
(** * The recording clock *)
(* ================================================================== *)

Module Display.
Import Js.

(** [s.padStart(n, c)] for a filler [c] of one code unit. *)
Definition padStart (n : nat) (c : N) (s : jsstring) : jsstring :=
  repeat c (n - List.length s) ++ s.

(** [formatRecordingTime]; [seconds] is the integer the recording timer
    counts.  [Math.floor(seconds / 60)] is the floor quotient, and [%]
    takes the sign of the dividend. *)
Definition formatRecordingTime (seconds : Z) : jsstring :=
  let mins := seconds / 60 in
  let secs := Z.rem seconds 60 in
  padStart 2 48 (Number_toString mins) ++ lit ":" ++ padStart 2 48 (Number_toString secs).

(** The code unit of the decimal digit [d]. *)
Definition digit (d : Z) : N := (48 + Z.to_N d)%N.

End Display.

(* ================================================================== *)
(** * The report: approving, editing and finalizing its items *)
(* ================================================================== *)

Module Report.
Import Js.

(** [keyof Report['sections']]. *)
Inductive SectionKey : Type :=
| key_context | key_symptoms | key_diagnoses | key_recommendations.

Inductive ItemType : Type := symptom | diagnosis | recommendation | context_item.

(** [interface ReportItem] ([item_id] and [item_type] are its [id] and
    [type]).  [content] holds what [generateReport] put there (the
    description of a symptom is taken from the analysis as it came) or
    the text typed into the editor; [isEditing] is optional. *)
Record ReportItem : Type := mkItem {
  item_id : jsstring;
  item_type : ItemType;
  content : jsval;
  approved : bool;
  isEditing : option bool
}.

Record ReportSection : Type := mkSection {
  title : jsstring;
  items : list ReportItem
}.

Record Sections : Type := mkSections {
  context : ReportSection;
  symptoms : ReportSection;
  diagnoses : ReportSection;
  recommendations : ReportSection
}.

(** [interface PatientInfo]. *)
Record PatientInfo : Type := mkPatient {
  patient_name : jsstring;
  patient_id : option jsstring;
  patient_age : option jsstring;
  patient_gender : option jsstring;
  medicalHistory : option jsstring
}.

(** [interface Report]. *)
Record Report : Type := mkReport {
  patientInfo : PatientInfo;
  consultationDate : jsstring;
  consultationDuration : jsstring;
  sections : Sections;
  isApproved : bool;
  isGenerating : bool
}.

(** [sections[sectionKey]]. *)
Definition section_of (sectionKey : SectionKey) (s : Sections) : ReportSection :=
  match sectionKey with
  | key_context => context s
  | key_symptoms => symptoms s
  | key_diagnoses => diagnoses s
  | key_recommendations => recommendations s
  end.

(** [updatedSections[sectionKey] = { ...section, items: updatedItems }]
    on a copy of the sections, returned in a copy of the report. *)
Definition with_items (sectionKey : SectionKey) (updatedItems : list ReportItem)
    (prevReport : Report) : Report :=
  let updatedSections := sections prevReport in
  let section := section_of sectionKey updatedSections in
  let updated := mkSection (title section) updatedItems in
  mkReport (patientInfo prevReport) (consultationDate prevReport)
    (consultationDuration prevReport)
    (match sectionKey with
     | key_context =>
         mkSections updated (symptoms updatedSections) (diagnoses updatedSections)
                    (recommendations updatedSections)
     | key_symptoms =>
         mkSections (context updatedSections) updated (diagnoses updatedSections)
                    (recommendations updatedSections)
     | key_diagnoses =>
         mkSections (context updatedSections) (symptoms updatedSections) updated
                    (recommendations updatedSections)
     | key_recommendations =>
         mkSections (context updatedSections) (symptoms updatedSections)
                    (diagnoses updatedSections) updated
     end)
    (isApproved prevReport) (isGenerating prevReport).

(** The three editing handlers.  [report] is the state of the component:
    the value the handler tests and the value its updater receives. *)
Definition toggleReportItemApproval (sectionKey : SectionKey) (itemId : jsstring)
    (report : option Report) : option Report :=
  match report with
  | None => None
  | Some prevReport =>
      let section := section_of sectionKey (sections prevReport) in
      let updatedItems :=
        map (fun item =>
               if str_eqb (item_id item) itemId
               then mkItem (item_id item) (item_type item) (content item)
                           (negb (approved item)) (isEditing item)
               else item)
            (items section) in
      Some (with_items sectionKey updatedItems prevReport)
  end.

Definition updateReportItem (sectionKey : SectionKey) (itemId newContent : jsstring)
    (report : option Report) : option Report :=
  match report with
  | None => None
  | Some prevReport =>
      let section := section_of sectionKey (sections prevReport) in
      let updatedItems :=
        map (fun item =>
               if str_eqb (item_id item) itemId
               then mkItem (item_id item) (item_type item) (Some (JStr newContent))
                           (approved item) (Some false)
               else item)
            (items section) in
      Some (with_items sectionKey updatedItems prevReport)
  end.

(** [!item.isEditing]: a missing flag counts as false. *)
Definition not_editing (e : option bool) : bool :=
  match e with
  | Some b => negb b
  | None => true
  end.

Definition toggleItemEditing (sectionKey : SectionKey) (itemId : jsstring)
    (report : option Report) : option Report :=
  match report with
  | None => None
  | Some prevReport =>
      let section := section_of sectionKey (sections prevReport) in
      let updatedItems :=
        map (fun item =>
               if str_eqb (item_id item) itemId
               then mkItem (item_id item) (item_type item) (content item)
                           (approved item) (Some (not_editing (isEditing item)))
               else item)
            (items section) in
      Some (with_items sectionKey updatedItems prevReport)
  end.

(** The dialogs [finalizeReport] opens. *)
Inductive Dialog : Type :=
| Confirm (approvedCount totalItems : nat)
| Alert.

(** [Object.values(report.sections)], in the order the sections were
    created. *)
Definition all_sections (s : Sections) : list ReportSection :=
  [context s; symptoms s; diagnoses s; recommendations s].

(** [finalizeReport]; [answer] is what the user answers if [confirm]
    asks. *)
Definition finalizeReport (answer : bool) (report : option Report)
    : option Report * list Dialog :=
  match report with
  | None => (None, [])
  | Some prevReport =>
      let everything := flat_map items (all_sections (sections prevReport)) in
      let totalItems := List.length everything in
      let approvedCount := List.length (filter approved everything) in
      let finalized :=
        Some (mkReport (patientInfo prevReport) (consultationDate prevReport)
                (consultationDuration prevReport) (sections prevReport) true
                (isGenerating prevReport)) in
      if (approvedCount <? totalItems)%nat then
        if negb answer then (report, [Confirm approvedCount totalItems])
        else (finalized, [Confirm approvedCount totalItems; Alert])
      else (finalized, [Alert])
  end.

End Report.

(* ================================================================== *)
(** * Vocabulary of the statements about every message and every run *)
(* ================================================================== *)

Module Invariants.
Import Js Dispatcher Transport.

(** [data.type === ty]. *)
Definition has_type (d : json) (ty : string) : bool :=
  strict_eq_str (field d "type") (lit ty).

(** A message that reaches one of the two legacy branches of the
    dispatcher: no known [type], not a status, and either
    [event === "transcription"] or a truthy [text]. *)
Definition legacy_shape (d : json) : Prop :=
  has_type d "transcript" = false /\ has_type d "analysis" = false /\
  has_type d "error" = false /\ has_type d "status" = false /\
  strict_eq_str (field d "status") (lit "ready") = false /\
  (strict_eq_str (field d "event") (lit "transcription") = true \/
   truthy (field d "text") = true).

(** What handling one message may do to the component: append at most
    one line and print, with the recording state untouched. *)
Definition handled_gently (u u' : UI) : Prop :=
  (transcript u' = transcript u \/ exists line, transcript u' = transcript u ++ [line])
  /\ isRecording u' = isRecording u /\ isProcessing u' = isProcessing u
  /\ recordingDuration u' = recordingDuration u
  /\ exists c, console u' = console u ++ c.

(** Every number [ToString] prints of [v] is a number of the model: an
    integer of magnitude below 2^53. *)
Fixpoint printed_numbers_safe (v : json) : bool :=
  match v with
  | JNum n => Z.abs n <? 2 ^ 53
  | JArr items => forallb printed_numbers_safe items
  | _ => true
  end.

(** The numeric value of [readyState]. *)
Definition state_code (r : ReadyState) : Z :=
  match r with
  | CONNECTING => 0
  | OPEN => 1
  | CLOSING => 2
  | CLOSED => 3
  end.

(** Every socket but the one [websocketRef] names is closing or closed. *)
Definition superseded_closed (s : Session) : Prop :=
  forall w ws, nth_error (sockets s) w = Some ws ->
               websocketRef s <> Some w ->
               readyState ws = CLOSING \/ readyState ws = CLOSED.

(** The sleeps an invocation has requested and the retries it has left
    add up to the budget of its wait loop. *)
Definition budget_ok (s : Session) : Prop :=
  forall t,
    match nth_error (tasks s) t with
    | Some (AwaitOpen _ _ r) =>
        (1 <= r)%nat /\ (sleeps t (scheduled s) + r = S MAX_RETRIES)%nat
    | Some Finished => (sleeps t (scheduled s) <= MAX_RETRIES)%nat
    | _ => sleeps t (scheduled s) = 0%nat
    end.

End Invariants.

(* ================================================================== *)
(** * More sample messages and runs *)
(* ================================================================== *)

Module MoreScenarios.
Import Js Dispatcher Transport Samples Scenarios.

Definition legacy_text : jsstring := json_text "{'text':'Speaker 2: I feel dizzy'}".
Definition legacy_text_value : json :=
  JObj [(lit "text", JStr (lit "Speaker 2: I feel dizzy"))].

Definition legacy_number : jsstring := json_text "{'event':'transcription','text':5}".
Definition legacy_number_value : json :=
  JObj [(lit "event", JStr (lit "transcription")); (lit "text", JNum 5)].

Definition bare_error : jsstring := json_text "{'type':'error'}".
Definition bare_error_value : json := JObj [(lit "type", JStr (lit "error"))].

Definition bare_number : jsstring := lit "42".

(** [JSON.parse] on these texts; any other text is a [SyntaxError] here. *)
Definition parse_more (data : jsstring) : completion json :=
  if str_eqb data legacy_text then Normal legacy_text_value
  else if str_eqb data legacy_number then Normal legacy_number_value
  else if str_eqb data bare_error then Normal bare_error_value
  else if str_eqb data bare_number then Normal (JNum 42)
  else Throw SyntaxError.

(** The relay configured without a scheme, not configured at all, and a
    browser that cannot create a [MediaRecorder]. *)
Definition bare_host_platform : Platform :=
  mkPlatform parse_samples (Some (lit "localhost:8000")) (fun _ => true) [] true true.

Definition unconfigured_platform : Platform :=
  mkPlatform parse_samples None (fun _ => true) [] true true.

Definition no_recorder_platform : Platform :=
  mkPlatform parse_samples (Some (lit "http://localhost:8000")) (fun _ => true) [] true false.

(** Up to the end of the first sleep, the socket having opened. *)
Definition socket_opened : list Event :=
  [RecordClicked true; MediaSettled 0 true; WsOpen 0].


(** Record is clicked again while the first connection is pending. *)
Definition record_twice : list Event :=
  [RecordClicked true; MediaSettled 0 true; RecordClicked true; MediaSettled 1 true].

(** One audio buffer: a quarter, not-a-number, and both infinities. *)
Definition odd_buffer : list Encoder.number :=
  [Encoder.Finite (1 # 4); Encoder.NaN; Encoder.Infinity false; Encoder.Infinity true].

End MoreScenarios.

(* ================================================================== *)
(** * Properties of the encoder *)
(* ================================================================== *)

Section EncoderFacts.
Import Encoder.

(** [truncate] drops the fraction: floor of a non-negative value, ceiling of a negative one. *)
Lemma truncate_toward_zero (q : Q) : truncate q = toward_zero q.
Proof.
  destruct q as [n d]. unfold truncate, toward_zero, Qle_bool, Qceiling, Qfloor, Qopp.
  cbn [Qnum Qden]. rewrite Z.mul_1_r. cbn [Z.mul].
  destruct (Z.leb_spec 0 n) as [Hn | Hn].
  - apply Z.quot_div_nonneg; lia.
  - replace n with (- (- n)) at 1 by lia.
    rewrite Z.quot_opp_l by lia.
    rewrite Z.quot_div_nonneg by lia. reflexivity.
Qed.

(** The integer part does not depend on how the rational is written. *)
Lemma toward_zero_comp (p q : Q) : (p == q)%Q -> toward_zero p = toward_zero q.
Proof.
  intros H. unfold toward_zero.
  assert (Hb : Qle_bool 0 p = Qle_bool 0 q).
  { apply eq_true_iff_eq. rewrite !Qle_bool_iff. rewrite H. tauto. }
  rewrite Hb. destruct (Qle_bool 0 q).
  - apply Qfloor_comp, H.
  - apply Qceiling_comp, H.
Qed.

Lemma Qle_bool_false (p q : Q) : Qle_bool p q = false -> (q < p)%Q.
Proof.
  intros H. apply Qnot_le_lt. intro Hc. apply Qle_bool_iff in Hc. congruence.
Qed.

(** The integer part of a value within [-b, b] is within [-b, b]. *)
Lemma toward_zero_bounds (v : Q) (b : Z) :
  (inject_Z (- b) <= v)%Q -> (v <= inject_Z b)%Q -> - b <= toward_zero v <= b.
Proof.
  intros Hlo Hhi. unfold toward_zero.
  destruct (Qle_bool 0 v) eqn:Hs.
  - apply Qle_bool_iff in Hs. split.
    + apply Z.le_trans with 0.
      * assert (0 <= b). { rewrite Zle_Qle. eapply Qle_trans; eauto. } lia.
      * rewrite <- (Qfloor_Z 0). apply Qfloor_resp_le, Hs.
    + rewrite <- (Qfloor_Z b). apply Qfloor_resp_le, Hhi.
  - apply Qle_bool_false in Hs. split.
    + rewrite <- (Qceiling_Z (- b)). apply Qceiling_resp_le, Hlo.
    + apply Z.le_trans with 0.
      * rewrite <- (Qceiling_Z 0). apply Qceiling_resp_le, Qlt_le_weak, Hs.
      * assert (- b <= 0).
        { rewrite Zle_Qle. eapply Qle_trans; eauto. apply Qlt_le_weak, Hs. }
        lia.
Qed.

(** The clamp keeps a finite sample finite and within [-1, 1]. *)
Lemma clamp_finite (q : Q) :
  exists c : Q,
    clamp (Finite q) = Finite c
    /\ (c == Qmax (inject_Z (-1)) (Qmin (inject_Z 1) q))%Q
    /\ (inject_Z (-1) <= c)%Q /\ (c <= inject_Z 1)%Q.
Proof.
  unfold clamp. cbn [Math_min].
  destruct (Qle_bool (inject_Z 1) q) eqn:H1.
  - apply Qle_bool_iff in H1. exists (inject_Z 1). cbn [Math_max].
    change (Qle_bool (inject_Z (-1)) (inject_Z 1)) with true. cbn iota.
    split; [reflexivity|]. split.
    + rewrite (Q.min_l _ _ H1). rewrite Q.max_r; [reflexivity | discriminate].
    + split; [discriminate | apply Qle_refl].
  - apply Qle_bool_false in H1. cbn [Math_max].
    assert (Hmin : (Qmin (inject_Z 1) q == q)%Q) by (apply Q.min_r, Qlt_le_weak, H1).
    destruct (Qle_bool (inject_Z (-1)) q) eqn:H2.
    + apply Qle_bool_iff in H2. exists q. split; [reflexivity|]. split.
      * rewrite Hmin. rewrite Q.max_r; [reflexivity | exact H2].
      * split; [exact H2 | apply Qlt_le_weak, H1].
    + apply Qle_bool_false in H2. exists (inject_Z (-1)). split; [reflexivity|]. split.
      * rewrite Hmin. rewrite Q.max_l; [reflexivity | apply Qlt_le_weak, H2].
      * split; [apply Qle_refl | discriminate].
Qed.

(** Within the int16 range the reduction modulo 2^16 of [ToInt16] is the
    identity. *)
Lemma ToInt16_small (q : Q) :
  - 32767 <= truncate q <= 32767 -> ToInt16 (Finite q) = truncate q.
Proof.
  intros H. unfold ToInt16. cbv zeta.
  set (i := truncate q) in *.
  change (2 ^ 16) with 65536. change (2 ^ 15) with 32768.
  destruct (Z.leb_spec 32768 (i mod 65536)) as [Hc | Hc].
  - assert (i < 0).
    { destruct (Z.lt_ge_cases i 0); [assumption|].
      rewrite Z.mod_small in Hc by lia. lia. }
    replace i with ((i + 65536) + (-1) * 65536) at 1 by lia.
    rewrite Z.mod_add by lia. rewrite Z.mod_small by lia. lia.
  - destruct (Z.lt_ge_cases i 0).
    + replace i with ((i + 65536) + (-1) * 65536) in Hc at 1 by lia.
      rewrite Z.mod_add in Hc by lia. rewrite Z.mod_small in Hc by lia. lia.
    + apply Z.mod_small. lia.
Qed.

(** A finite sample: the stored value is the integer part of the clamped, scaled sample. *)
Lemma encodeSample_finite (q : Q) :
  encodeSample (Finite q) = toward_zero (spec_scaled q)
  /\ - 32767 <= encodeSample (Finite q) <= 32767.
Proof.
  destruct (clamp_finite q) as (c & Hc & Heq & Hlo & Hhi).
  unfold encodeSample. rewrite Hc. unfold x7FFF. cbn [mul].
  assert (Hb : - 32767 <= toward_zero (c * inject_Z 32767) <= 32767).
  { apply (toward_zero_bounds _ 32767).
    - apply Qle_trans with (inject_Z (-1) * inject_Z 32767)%Q; [discriminate|].
      apply Qmult_le_compat_r; [exact Hlo | discriminate].
    - apply Qle_trans with (inject_Z 1 * inject_Z 32767)%Q; [|discriminate].
      apply Qmult_le_compat_r; [exact Hhi | discriminate]. }
  rewrite ToInt16_small by (rewrite truncate_toward_zero; exact Hb).
  rewrite truncate_toward_zero. split; [|exact Hb].
  apply toward_zero_comp. unfold spec_scaled. rewrite Heq. reflexivity.
Qed.

(** *** The product by [0x7FFF] is exact in binary64 *)

Lemma digits2_pos_lower (p : positive) : 2 ^ (Zpos (digits2_pos p) - 1) <= Zpos p.
Proof.
  induction p as [p IH | p IH |]; cbn [digits2_pos].
  - rewrite Pos2Z.inj_succ.
    replace (Z.succ (Zpos (digits2_pos p)) - 1) with (Z.succ (Zpos (digits2_pos p) - 1))
      by lia.
    rewrite Z.pow_succ_r by lia.
    set (x := 2 ^ (Zpos (digits2_pos p) - 1)) in *.
    rewrite (Pos2Z.inj_xI p). lia.
  - rewrite Pos2Z.inj_succ.
    replace (Z.succ (Zpos (digits2_pos p)) - 1) with (Z.succ (Zpos (digits2_pos p) - 1))
      by lia.
    rewrite Z.pow_succ_r by lia.
    set (x := 2 ^ (Zpos (digits2_pos p) - 1)) in *.
    rewrite (Pos2Z.inj_xO p). lia.
  - cbn. lia.
Qed.

Lemma digits2_pos_bound (p : positive) (n : Z) :
  0 <= n -> Zpos p < 2 ^ n -> Zpos (digits2_pos p) <= n.
Proof.
  intros Hn Hp. pose proof (digits2_pos_lower p) as Hl.
  destruct (Z.le_gt_cases (Zpos (digits2_pos p)) n) as [H | H]; [exact H|].
  exfalso.
  assert (2 ^ n <= 2 ^ (Zpos (digits2_pos p) - 1)) by (apply Z.pow_le_mono_r; lia).
  lia.
Qed.

(** A significand of at most 24 bits (a [Float32Array] element) times the
    15-bit constant needs no rounding: the binary64 product is the exact
    product. *)
Lemma scale_is_exact (s : bool) (m : positive) (e : Z) :
  Zpos m < 2 ^ 24 -> -1074 <= e <= 971 ->
  binary64_mul (S754_finite s m e) x7FFF_float = S754_finite s (m * 32767) e.
Proof.
  intros Hm He. unfold binary64_mul, x7FFF_float, SFmul.
  rewrite Z.add_0_r, xorb_false_r.
  assert (Hd : Zpos (digits2_pos (m * 32767)) <= 39).
  { apply digits2_pos_bound; [lia|]. rewrite Pos2Z.inj_mul.
    change (2 ^ 39) with (2 ^ 24 * 2 ^ 15).
    assert (Zpos 32767 < 2 ^ 15) by reflexivity. nia. }
  unfold binary_round_aux.
  assert (Hshift : forall l, shr_fexp 53 1024 (Zpos (m * 32767)) e l =
                    (shr_record_of_loc (Zpos (m * 32767)) l, e)).
  { intros l. unfold shr_fexp, shr. cbn [Zdigits2].
    assert (Hn : fexp 53 1024 (Zpos (digits2_pos (m * 32767)) + e) - e <= 0).
    { unfold fexp, emin. lia. }
    destruct (fexp 53 1024 (Zpos (digits2_pos (m * 32767)) + e) - e); try reflexivity.
    lia. }
  rewrite Hshift. cbn [shr_record_of_loc shr_m loc_of_shr_record round_nearest_even].
  rewrite Hshift. cbn [shr_record_of_loc shr_m].
  destruct (Z.leb_spec e (1024 - 53)); [reflexivity | lia].
Qed.

(** So the rational product of the model is the product the engine
    computes. *)
Lemma mul_models_binary64 (s : bool) (m : positive) (e : Z) :
  Zpos m < 2 ^ 24 -> -1074 <= e <= 971 ->
  number_eq (of_float (binary64_mul (S754_finite s m e) x7FFF_float))
            (mul (of_float (S754_finite s m e)) x7FFF).
Proof.
  intros Hm He. rewrite (scale_is_exact s m e Hm He).
  unfold of_float, x7FFF, mul, number_eq.
  assert (Hz : cond_Zopp s (Zpos (m * 32767)) = cond_Zopp s (Zpos m) * 32767).
  { destruct s; cbn [cond_Zopp]; lia. }
  rewrite Hz, inject_Z_mult. ring.
Qed.

(** C1, as the code has it: every sample is clamped to [-1, 1], scaled by
    32767 and truncated toward zero (not rounded to nearest); the result
    lies in [-32767, 32767], so the 16-bit store never wraps; NaN encodes
    as 0 and the infinities as the two extremes; the boundary samples
    -1, 0 and 1 encode as -32767, 0 and 32767. *)
Theorem encoder_truncates_clamped_sample :
  (forall q : Q,
      encodeSample (Finite q) = toward_zero (spec_scaled q)
      /\ - 32767 <= encodeSample (Finite q) <= 32767)
  /\ encodeSample NaN = 0
  /\ encodeSample (Infinity false) = 32767
  /\ encodeSample (Infinity true) = - 32767
  /\ encodeSample (Finite (inject_Z (-1))) = - 32767
  /\ encodeSample (Finite (inject_Z 0)) = 0
  /\ encodeSample (Finite (inject_Z 1)) = 32767.
Proof.
  split; [exact encodeSample_finite|].
  repeat split; reflexivity.
Qed.

(** C1 as stated fails: the sample 0.25 scales to 8191.75, whose nearest
    integer is 8192, and the encoder stores 8191. *)
Lemma encoder_does_not_round_to_nearest :
  encodeSample (Finite (1 # 4)) = 8191
  /\ spec_round (1 # 4) = 8192
  /\ ~ nearest (spec_scaled (1 # 4)) (encodeSample (Finite (1 # 4))).
Proof.
  split; [reflexivity|]. split; [reflexivity|].
  unfold nearest. intros H. vm_compute in H. apply H. reflexivity.
Qed.

End EncoderFacts.

(* ================================================================== *)
(** * Properties of the message dispatcher *)
(* ================================================================== *)

Section DispatcherFacts.
Import Js Dispatcher.

Lemma str_eqb_refl (a : jsstring) : str_eqb a a = true.
Proof.
  induction a as [|x a IH]; cbn; [reflexivity|].
  rewrite N.eqb_refl. exact IH.
Qed.

Lemma str_eqb_eq (a b : jsstring) : str_eqb a b = true <-> a = b.
Proof.
  split.
  - revert b. induction a as [|x a IH]; intros [|y b] H; cbn in H; try discriminate.
    + reflexivity.
    + apply andb_true_iff in H. destruct H as [Hx Hr].
      apply N.eqb_eq in Hx. apply IH in Hr. congruence.
  - intros ->. apply str_eqb_refl.
Qed.

(** Reading a property of a parsed message. *)
Lemma get_field (d : json) (k : string) :
  d <> JNull -> get (Some d) (lit k) = Normal (field d k).
Proof.
  destruct d; intros H; try reflexivity. exfalso; apply H; reflexivity.
Qed.

Lemma typed_not_null (d v : json) : field d "type" = Some v -> d <> JNull.
Proof. intros H Hd. subst d. discriminate H. Qed.

(** The code's test [data.data && typeof data.data === 'object'] selects
    the objects. *)
Lemma object_test (v : jsval) : truthy v && typeof_object v = is_object v.
Proof.
  destruct v as [[| b | n | s | l | p]|]; cbn; try reflexivity; apply andb_false_r.
Qed.

Lemma get_of_object (v : json) (k : string) :
  is_object (Some v) = true -> get (Some v) (lit k) = Normal (field v k).
Proof. destruct v; cbn; intros H; try discriminate H; reflexivity. Qed.

Variable parse : jsstring -> completion json.

(** The dispatcher up to the test of [data.type]. *)
Lemma onmessage_typed (clk : Clock) (data : jsstring) (d : json) (ty : jsstring) (u : UI) :
  str_eqb data (lit "pong") = false ->
  parse data = Normal d ->
  field d "type" = Some (JStr ty) ->
  onmessage_body parse clk data u =
    (if str_eqb ty (lit "transcript") then onTranscript clk (Some d)
     else if str_eqb ty (lit "analysis") then onAnalysis (Some d)
     else if str_eqb ty (lit "error") then onErrorMessage (Some d)
     else
       st <- lift (get (Some d) (lit "status")) ;;
       if strict_eq_str st (lit "ready") || str_eqb ty (lit "status") then
         modify (print LLog "Transcription service status:")
       else
         ev <- lift (get (Some d) (lit "event")) ;;
         if strict_eq_str ev (lit "transcription") then
           onLegacyText "Received transcription event:" clk (Some d)
         else
           t <- lift (get (Some d) (lit "text")) ;;
           if truthy t then onLegacyText "Received text data:" clk (Some d)
           else ret tt)
      (print LLog "Received WebSocket message:" u).
Proof.
  intros Hpong Hparse Hty.
  unfold onmessage_body. rewrite Hpong.
  unfold bind at 1. unfold lift at 1. rewrite Hparse.
  unfold bind at 1. unfold modify at 1.
  unfold bind at 1. unfold lift at 1.
  rewrite (get_field d "type" (typed_not_null _ _ Hty)). rewrite Hty.
  reflexivity.
Qed.

(** The whole effect of a [transcript] message. *)
Lemma onmessage_transcript (clk : Clock) (data : jsstring) (d : json) (u : UI) :
  str_eqb data (lit "pong") = false ->
  parse data = Normal d ->
  field d "type" = Some (JStr (lit "transcript")) ->
  onmessage parse clk data u =
    setTranscript (fun prev => prev ++ [transcript_line clk d])
      (print LLog "Received WebSocket message:" u).
Proof.
  intros Hpong Hparse Hty. unfold onmessage, try_catch.
  rewrite (onmessage_typed clk data d _ u Hpong Hparse Hty).
  rewrite str_eqb_refl.
  unfold onTranscript, bind, lift.
  pose proof (typed_not_null _ _ Hty) as Hd.
  rewrite (get_field d "speaker" Hd), (get_field d "text" Hd).
  reflexivity.
Qed.

(** An [analysis] message reaches [onAnalysis]. *)
Lemma onmessage_analysis (clk : Clock) (data : jsstring) (d : json) (u : UI) :
  str_eqb data (lit "pong") = false ->
  parse data = Normal d ->
  field d "type" = Some (JStr (lit "analysis")) ->
  onmessage_body parse clk data u =
    onAnalysis (Some d) (print LLog "Received WebSocket message:" u).
Proof.
  intros Hpong Hparse Hty.
  rewrite (onmessage_typed clk data d _ u Hpong Hparse Hty).
  reflexivity.
Qed.

(** C6: a [transcript] message carrying the integer speaker index [n]
    appends exactly one line, labelled "Speaker " followed by [n + 1];
    index 0 gives "Speaker 1". *)
Theorem transcript_speaker_label_is_one_based
    (clk : Clock) (data : jsstring) (d : json) (n : Z) (u : UI) :
  str_eqb data (lit "pong") = false ->
  parse data = Normal d ->
  field d "type" = Some (JStr (lit "transcript")) ->
  field d "speaker" = Some (JNum n) ->
  0 <= n < 2 ^ 53 - 1 ->
  transcript (onmessage parse clk data u) =
    transcript u ++
      [mkLine (Date_now clk) (field d "text")
         (Some (JStr (lit "Speaker " ++ Number_toString (n + 1)))) (new_Date clk)]
  /\ (n = 0 ->
      exists line,
        transcript (onmessage parse clk data u) = transcript u ++ [line]
        /\ speaker line = Some (JStr (lit "Speaker 1"))).
Proof.
  intros Hpong Hparse Hty Hsp Hn.
  rewrite (onmessage_transcript clk data d u Hpong Hparse Hty).
  unfold transcript_line. rewrite Hsp.
  cbn [transcript setTranscript print]. split; [reflexivity|].
  intros ->. eexists. split; reflexivity.
Qed.

(** C9: a [transcript] message whose speaker is absent or not a number
    appends one line labelled "Speaker 1". *)
Theorem transcript_speaker_defaults_to_zero
    (clk : Clock) (data : jsstring) (d : json) (u : UI) :
  str_eqb data (lit "pong") = false ->
  parse data = Normal d ->
  field d "type" = Some (JStr (lit "transcript")) ->
  (forall n, field d "speaker" <> Some (JNum n)) ->
  transcript (onmessage parse clk data u) =
    transcript u ++
      [mkLine (Date_now clk) (field d "text") (Some (JStr (lit "Speaker 1")))
         (new_Date clk)].
Proof.
  intros Hpong Hparse Hty Hsp.
  rewrite (onmessage_transcript clk data d u Hpong Hparse Hty).
  unfold transcript_line. cbn [transcript setTranscript print].
  destruct (field d "speaker") as [[| | n | | |]|]; try reflexivity.
  exfalso. apply (Hsp n). reflexivity.
Qed.

(** C5: an [analysis] message whose [data] is an object replaces the
    whole snapshot by the received sub-fields, each missing one replaced
    by its default; the previous snapshot plays no part, nothing is
    thrown, and transcript and error state stay as they were. *)
Theorem analysis_replaces_snapshot_with_defaults
    (clk : Clock) (data : jsstring) (d v : json) (u : UI) :
  str_eqb data (lit "pong") = false ->
  parse data = Normal d ->
  field d "type" = Some (JStr (lit "analysis")) ->
  field d "data" = Some v ->
  is_object (Some v) = true ->
  onmessage_body parse clk data u =
    (Normal tt,
     setAnalysis (snapshot_of v)
       (print LLog "Received analysis data:"
          (print LLog "Received WebSocket message:" u)))
  /\ analysis (onmessage parse clk data u) = snapshot_of v
  /\ (field v "symptoms" = undefined ->
      symptoms (analysis (onmessage parse clk data u)) = JArr [])
  /\ (field v "suggestions" = undefined ->
      suggestions (analysis (onmessage parse clk data u)) = JArr [])
  /\ (field v "severity" = undefined ->
      severity (analysis (onmessage parse clk data u)) =
        JObj [(lit "level", JStr (lit "Low")); (lit "rationale", JStr [])])
  /\ (field v "diagnoses" = undefined ->
      diagnoses (analysis (onmessage parse clk data u)) = JArr [])
  /\ transcript (onmessage parse clk data u) = transcript u
  /\ error (onmessage parse clk data u) = error u
  /\ renderFailed (onmessage parse clk data u) = renderFailed u.
Proof.
  intros Hpong Hparse Hty Hdata Hobj.
  assert (Hbody : onmessage_body parse clk data u =
    (Normal tt,
     setAnalysis (snapshot_of v)
       (print LLog "Received analysis data:"
          (print LLog "Received WebSocket message:" u)))).
  { rewrite (onmessage_analysis clk data d u Hpong Hparse Hty).
    unfold onAnalysis. unfold bind at 1. unfold lift at 1.
    rewrite (get_field d "data" (typed_not_null _ _ Hty)), Hdata.
    rewrite object_test, Hobj.
    unfold bind, lift, modify.
    rewrite !(get_of_object v _ Hobj). reflexivity. }
  split; [exact Hbody|].
  unfold onmessage, try_catch. rewrite Hbody.
  cbn [analysis setAnalysis print transcript error renderFailed snapshot_of
       symptoms suggestions severity diagnoses].
  repeat split; try (intros ->; reflexivity).
Qed.

(** C10: an [analysis] message whose [data] is missing or not an object
    only logs a warning; the snapshot, like the rest of the state, is
    left as it was. *)
Theorem analysis_without_object_data_is_ignored
    (clk : Clock) (data : jsstring) (d : json) (u : UI) :
  str_eqb data (lit "pong") = false ->
  parse data = Normal d ->
  field d "type" = Some (JStr (lit "analysis")) ->
  field d "data" = undefined \/ is_object (field d "data") = false ->
  onmessage parse clk data u =
    print LWarn "Received analysis message with invalid data structure:"
      (print LLog "Received WebSocket message:" u)
  /\ analysis (onmessage parse clk data u) = analysis u.
Proof.
  intros Hpong Hparse Hty Hdata.
  assert (Hno : is_object (field d "data") = false).
  { destruct Hdata as [-> | H]; [reflexivity | exact H]. }
  assert (Heq : onmessage parse clk data u =
    print LWarn "Received analysis message with invalid data structure:"
      (print LLog "Received WebSocket message:" u)).
  { unfold onmessage, try_catch.
    rewrite (onmessage_analysis clk data d u Hpong Hparse Hty).
    unfold onAnalysis. unfold bind at 1. unfold lift at 1.
    rewrite (get_field d "data" (typed_not_null _ _ Hty)).
    rewrite object_test, Hno. reflexivity. }
  split; [exact Heq|]. rewrite Heq. reflexivity.
Qed.

(** The identifiers of the lines appended by a run of [transcript]
    messages are the readings of the clock, in order. *)
Lemma transcript_ids_are_clock_readings (msgs : list (Clock * jsstring)) (u : UI) :
  Forall (fun m =>
            str_eqb (snd m) (lit "pong") = false
            /\ exists d, parse (snd m) = Normal d
                         /\ field d "type" = Some (JStr (lit "transcript"))) msgs ->
  map id (transcript (dispatchAll parse msgs u)) =
    map id (transcript u) ++ map (fun m => Date_now (fst m)) msgs.
Proof.
  revert u. induction msgs as [|[clk data] msgs IH]; intros u H.
  - cbn. rewrite app_nil_r. reflexivity.
  - inversion H as [|m l [Hpong (d & Hparse & Hty)] Hrest]; subst.
    cbn [dispatchAll]. rewrite (IH _ Hrest).
    cbn [snd] in *.
    rewrite (onmessage_transcript clk data d u Hpong Hparse Hty).
    cbn [transcript setTranscript print fst map].
    rewrite map_app. cbn [map]. rewrite <- app_assoc. reflexivity.
Qed.

End DispatcherFacts.

(* ================================================================== *)
(** * Properties of the transport and of the event loop *)
(* ================================================================== *)

Section TransportFacts.
Import Js Dispatcher Transport.

Lemma alter_length {A} (f : A -> A) (i : nat) (l : list A) :
  List.length (alter f i l) = List.length l.
Proof.
  revert i. induction l as [|x l IH]; intros [|i]; cbn; auto.
Qed.

Lemma nth_error_alter {A} (f : A -> A) (i j : nat) (l : list A) :
  nth_error (alter f i l) j =
    if (i =? j)%nat then option_map f (nth_error l j) else nth_error l j.
Proof.
  revert i j. induction l as [|x l IH]; intros [|i] [|j]; cbn; try reflexivity.
  - destruct (i =? j)%nat; reflexivity.
  - apply IH.
Qed.

Lemma Forall_alter {A} (P : A -> Prop) (f : A -> A) (i : nat) (l : list A) :
  Forall P l -> (forall x, nth_error l i = Some x -> P (f x)) -> Forall P (alter f i l).
Proof.
  revert i. induction l as [|x l IH]; intros [|i] Hl Hf; cbn; auto;
    inversion Hl; subst; constructor; auto.
Qed.

Lemma nth_error_snoc {A} (l : list A) (x : A) (j : nat) :
  nth_error (l ++ [x]) j =
    if (j <? List.length l)%nat then nth_error l j
    else if (j =? List.length l)%nat then Some x else None.
Proof.
  destruct (Nat.ltb_spec j (List.length l)) as [H | H].
  - apply nth_error_app1, H.
  - rewrite nth_error_app2 by exact H.
    destruct (Nat.eqb_spec j (List.length l)) as [-> | Hne].
    + rewrite Nat.sub_diag. reflexivity.
    + destruct (j - List.length l)%nat as [|k] eqn:Hk; [lia|].
      cbn. destruct k; reflexivity.
Qed.

Lemma skipn_nth_error {A} (l : list A) (i : nat) (x : A) :
  nth_error l i = Some x -> skipn i l = x :: skipn (S i) l.
Proof.
  revert i. induction l as [|y l IH]; intros [|i] H; cbn in H; try discriminate.
  - injection H as ->. reflexivity.
  - cbn [skipn]. rewrite (IH i H). reflexivity.
Qed.

Lemma sleeps_app (t : nat) (l1 l2 : list (Timer * Z)) :
  sleeps t (l1 ++ l2) = (sleeps t l1 + sleeps t l2)%nat.
Proof.
  induction l1 as [|[k d] l1 IH]; cbn; [reflexivity|].
  destruct k; try exact IH. rewrite IH. lia.
Qed.

Variable pf : Platform.

(** *** What each handler does to the stores *)

Lemma poll_sleep (t st w r : nat) (s : Session) :
  socket_is_open s w = false -> (0 < r)%nat ->
  poll pf t st w r s =
    schedule (SleepOf t) RETRY_DELAY_MS
      (with_tasks (alter (fun _ => AwaitOpen st w r) t)
         (with_ui (print LLog "Waiting for WebSocket connection") s)).
Proof.
  intros Ho Hr. unfold poll. rewrite Ho. cbn [negb andb].
  destruct (Nat.ltb_spec 0 r); [reflexivity | lia].
Qed.

Lemma poll_fallback (t st w : nat) (s : Session) :
  socket_is_open s w = false -> poll pf t st w 0 s = fallback t st s.
Proof. intros Ho. unfold poll. rewrite Ho. reflexivity. Qed.

Lemma poll_open (t st w r : nat) (s : Session) :
  socket_is_open s w = true -> poll pf t st w r s = start_streaming pf t st w s.
Proof. intros Ho. unfold poll. rewrite Ho. reflexivity. Qed.


(** [close_existing] touches one socket at most, by [close()]. *)
Lemma close_existing_socket (s : Session) (w : nat) :
  nth_error (sockets (close_existing s)) w = nth_error (sockets s) w
  \/ exists ws, nth_error (sockets s) w = Some ws
                /\ nth_error (sockets (close_existing s)) w = Some (ws_close None ws).
Proof.
  unfold close_existing. destruct (websocketRef s) as [w0|]; [|left; reflexivity].
  cbn. rewrite nth_error_alter. destruct (w0 =? w)%nat; [|left; reflexivity].
  destruct (nth_error (sockets s) w) as [ws|]; [|left; reflexivity].
  right. exists ws. split; reflexivity.
Qed.

Lemma close_existing_length (s : Session) :
  List.length (sockets (close_existing s)) = List.length (sockets s).
Proof.
  unfold close_existing. destruct (websocketRef s); [|reflexivity].
  cbn. apply alter_length.
Qed.

Lemma close_existing_frame (s : Session) :
  ui (close_existing s) = ui s /\ streams (close_existing s) = streams s
  /\ processors (close_existing s) = processors s /\ tasks (close_existing s) = tasks s
  /\ scheduled (close_existing s) = scheduled s
  /\ simulations (close_existing s) = simulations s.
Proof. unfold close_existing. destruct (websocketRef s); repeat split. Qed.

(** The socket just created is connecting. *)
Lemma fresh_socket_not_open (s : Session) (l : list WebSocket) :
  sockets s = l ++ [newWebSocket] -> socket_is_open s (List.length l) = false.
Proof.
  intros H. unfold socket_is_open. rewrite H, nth_error_snoc.
  rewrite Nat.ltb_irrefl, Nat.eqb_refl. reflexivity.
Qed.

(** [getUserMedia] granted and the socket created: the invocation goes
    to sleep with the full retry budget. *)
Lemma handleRecord_media_waits (t : nat) (s : Session) (url : jsstring) :
  nth_error (tasks s) t = Some AwaitMedia ->
  getWebSocketUrl pf = Some url -> url_accepted pf url = true ->
  handleRecord_media pf t true s =
    schedule (SleepOf t) RETRY_DELAY_MS
      (with_tasks
         (alter (fun _ => AwaitOpen (List.length (streams s)) (List.length (sockets s))
                            MAX_RETRIES) t)
         (with_ui (print LLog "Waiting for WebSocket connection")
            (set_websocketRef (Some (List.length (sockets s)))
               (with_sockets (fun l => l ++ [newWebSocket])
                  (with_ui (fun u => print LLog "Attempting WebSocket connection to backend"
                                      (print LLog "Calculated WebSocket URL:" u))
                     (close_existing (with_streams (fun l => l ++ [true]) s))))))).
Proof.
  intros Ht Hurl Hacc. unfold handleRecord_media. rewrite Ht.
  unfold setupWebSocket. rewrite Hurl, Hacc. cbn zeta.
  set (s1 := close_existing (with_streams (fun l => l ++ [true]) s)).
  assert (H1 : List.length (sockets s1) = List.length (sockets s)).
  { subst s1. rewrite close_existing_length. reflexivity. }
  cbn [sockets with_ui]. rewrite H1.
  rewrite poll_sleep.
  - reflexivity.
  - rewrite <- H1. apply fresh_socket_not_open. reflexivity.
  - unfold MAX_RETRIES. lia.
Qed.


(** The three ways [getUserMedia] settling can go: nothing to resume, failure, or the wait loop entered. *)
Lemma handleRecord_media_cases (t : nat) (g : bool) (s : Session) :
  handleRecord_media pf t g s = s
  \/ (nth_error (tasks s) t = Some AwaitMedia
      /\ tasks (handleRecord_media pf t g s) = alter (fun _ => Finished) t (tasks s)
      /\ processors (handleRecord_media pf t g s) = processors s
      /\ scheduled (handleRecord_media pf t g s) = scheduled s
      /\ (sockets (handleRecord_media pf t g s) = sockets s
          \/ sockets (handleRecord_media pf t g s) = sockets (close_existing s))
      /\ (streams (handleRecord_media pf t g s) = streams s
          \/ streams (handleRecord_media pf t g s) = streams s ++ [true]))
  \/ (nth_error (tasks s) t = Some AwaitMedia
      /\ tasks (handleRecord_media pf t g s) =
           alter (fun _ => AwaitOpen (List.length (streams s)) (List.length (sockets s))
                              MAX_RETRIES) t (tasks s)
      /\ processors (handleRecord_media pf t g s) = processors s
      /\ scheduled (handleRecord_media pf t g s) =
           scheduled s ++ [(SleepOf t, RETRY_DELAY_MS)]
      /\ sockets (handleRecord_media pf t g s) = sockets (close_existing s) ++ [newWebSocket]
      /\ streams (handleRecord_media pf t g s) = streams s ++ [true]).
Proof.
  destruct (nth_error (tasks s) t) as [[| |]|] eqn:Ht;
    try (left; unfold handleRecord_media; rewrite Ht; reflexivity).
  destruct g.
  - destruct (getWebSocketUrl pf) as [url|] eqn:Hurl.
    + destruct (url_accepted pf url) eqn:Hacc.
      * right; right. rewrite (handleRecord_media_waits t s url Ht Hurl Hacc).
        cbn.
        destruct (close_existing_frame (with_streams (fun l => l ++ [true]) s))
          as (_ & Hst & Hpr & Hta & Hsc & _).
        rewrite Hst, Hpr, Hta, Hsc. cbn.
        repeat split.
        unfold close_existing. cbn. destruct (websocketRef s); reflexivity.
      * right; left. split; [reflexivity|].
        unfold handleRecord_media. rewrite Ht. unfold setupWebSocket. rewrite Hurl, Hacc.
        cbn.
        destruct (close_existing_frame (with_streams (fun l => l ++ [true]) s))
          as (_ & Hst & Hpr & Hta & Hsc & _).
        rewrite Hst, Hpr, Hta, Hsc. cbn.
        repeat split; [right | right; reflexivity].
        unfold close_existing. cbn. destruct (websocketRef s); reflexivity.
    + right; left. split; [reflexivity|].
      unfold handleRecord_media. rewrite Ht. unfold setupWebSocket. rewrite Hurl.
      cbn.
      destruct (close_existing_frame (with_streams (fun l => l ++ [true]) s))
        as (_ & Hst & Hpr & Hta & Hsc & _).
      rewrite Hst, Hpr, Hta, Hsc. cbn.
      repeat split; [right | right; reflexivity].
      unfold close_existing. cbn. destruct (websocketRef s); reflexivity.
  - right; left. split; [reflexivity|].
    unfold handleRecord_media. rewrite Ht. cbn.
    repeat split; left; reflexivity.
Qed.

(** What step 5 of [handleRecord] touches. *)
Lemma start_streaming_frame (t st w : nat) (s : Session) :
  tasks (start_streaming pf t st w s) = alter (fun _ => Finished) t (tasks s)
  /\ sockets (start_streaming pf t st w s) = sockets s
  /\ streams (start_streaming pf t st w s) = streams s
  /\ scheduled (start_streaming pf t st w s) = scheduled s
  /\ (processors (start_streaming pf t st w s) = processors s
      \/ processors (start_streaming pf t st w s) = processors s ++ [mkProcessor w true true]).
Proof.
  unfold start_streaming, setupAudioProcessing.
  destruct (audio_ok pf); [destruct (recorder_ok pf)|]; cbn; repeat split;
    (left; reflexivity) || (right; reflexivity).
Qed.

(** What the demonstration mode touches. *)
Lemma fallback_frame (t st : nat) (s : Session) :
  tasks (fallback t st s) = alter (fun _ => Finished) t (tasks s)
  /\ sockets (fallback t st s) = sockets s
  /\ streams (fallback t st s) = alter (fun _ => false) st (streams s)
  /\ scheduled (fallback t st s) =
       scheduled s ++ [(IntervalOf (List.length (simulations s)), SIMULATION_INTERVAL_MS)]
  /\ processors (fallback t st s) = processors s
  /\ simulations (fallback t st s) = simulations s ++ [mkSim 0 true]
  /\ isRecording (ui (fallback t st s)) = true
  /\ error (ui (fallback t st s)) =
       Some (lit "Could not connect to transcription service. Using demo mode.")
  /\ transcript (ui (fallback t st s)) = transcript (ui s).
Proof. repeat split. Qed.

(** The four ways a wake-up can go. *)
Lemma handleRecord_wake_cases (t : nat) (s : Session) :
  handleRecord_wake pf t s = s
  \/ exists st w r,
       nth_error (tasks s) t = Some (AwaitOpen st w r)
       /\ ((socket_is_open s w = false /\ (0 < pred r)%nat
            /\ handleRecord_wake pf t s =
                 schedule (SleepOf t) RETRY_DELAY_MS
                   (with_tasks (alter (fun _ => AwaitOpen st w (pred r)) t)
                      (with_ui (print LLog "Waiting for WebSocket connection") s)))
           \/ (socket_is_open s w = false /\ pred r = 0%nat
               /\ handleRecord_wake pf t s = fallback t st s)
           \/ (socket_is_open s w = true
               /\ handleRecord_wake pf t s = start_streaming pf t st w s)).
Proof.
  unfold handleRecord_wake.
  destruct (nth_error (tasks s) t) as [[| st w r |]|] eqn:Ht; try (left; reflexivity).
  right. exists st, w, r. split; [reflexivity|].
  destruct (socket_is_open s w) eqn:Ho.
  - right; right. split; [reflexivity|]. apply poll_open, Ho.
  - destruct (pred r) as [|r'] eqn:Hr.
    + right; left. split; [reflexivity|]. split; [reflexivity|]. apply poll_fallback, Ho.
    + left. split; [reflexivity|]. split; [lia|]. apply poll_sleep; [exact Ho | lia].
Qed.

(** What [handleStop] touches. *)
Lemma handleStop_frame (s : Session) :
  tasks (handleStop s) = tasks s
  /\ List.length (streams (handleStop s)) = List.length (streams s)
  /\ (forall p, option_map socket (nth_error (processors (handleStop s)) p) =
                option_map socket (nth_error (processors s) p))
  /\ (sockets (handleStop s) = sockets s
      \/ exists w, socket_is_open s w = true
                   /\ sockets (handleStop s) =
                        alter (ws_close (Some (1000, "Client stopped recording"%string))) w
                          (sockets s))
  /\ (forall t, sleeps t (scheduled (handleStop s)) = sleeps t (scheduled s)).
Proof.
  unfold handleStop. destruct (isRecording (ui s)).
  2:{ repeat split; auto. }
  cbn zeta.
  set (s1 := with_ui _ s).
  set (s2 := match mediaRecorderRef s1 with Some r => _ | None => s1 end).
  assert (H2 : sockets s2 = sockets s /\ tasks s2 = tasks s /\ processors s2 = processors s
               /\ scheduled s2 = scheduled s
               /\ List.length (streams s2) = List.length (streams s)).
  { subst s2. destruct (mediaRecorderRef s1) as [r|]; [destruct (active r)|];
      cbn; repeat split. apply alter_length. }
  destruct H2 as (H2s & H2t & H2p & H2c & H2l).
  set (s3 := match websocketRef s2 with Some w => _ | None => s2 end).
  assert (H3 : tasks s3 = tasks s /\ processors s3 = processors s
               /\ scheduled s3 = scheduled s
               /\ List.length (streams s3) = List.length (streams s)
               /\ (sockets s3 = sockets s
                   \/ exists w, socket_is_open s w = true
                      /\ sockets s3 =
                           alter (ws_close (Some (1000, "Client stopped recording"%string))) w
                             (sockets s))).
  { subst s3. destruct (websocketRef s2) as [w|].
    - destruct (socket_is_open s2 w) eqn:Ho.
      + cbn. repeat split; auto. right. exists w. split.
        * unfold socket_is_open in *. rewrite <- H2s. exact Ho.
        * rewrite H2s. reflexivity.
      + repeat split; auto.
    - repeat split; auto. }
  destruct H3 as (H3t & H3p & H3c & H3l & H3s).
  destruct (processorNodeRef s3) as [p0|]; cbn.
  - rewrite H3t, H3l, H3c. repeat split; auto.
    + intros p. rewrite nth_error_alter, H3p.
      destruct (p0 =? p)%nat; [|reflexivity].
      destruct (nth_error (processors s) p); reflexivity.
    + intros t. rewrite sleeps_app. cbn. lia.
  - rewrite H3t, H3l, H3c, H3p. repeat split; auto.
    intros t. rewrite sleeps_app. cbn. lia.
Qed.

(** A firing of the interval touches the component state and its own
    index only. *)
Lemma simulation_tick_frame (k : nat) (clk : Clock) (s : Session) :
  tasks (simulation_tick k clk s) = tasks s
  /\ sockets (simulation_tick k clk s) = sockets s
  /\ streams (simulation_tick k clk s) = streams s
  /\ processors (simulation_tick k clk s) = processors s
  /\ scheduled (simulation_tick k clk s) = scheduled s.
Proof.
  unfold simulation_tick. destruct (nth_error (simulations s) k) as [sim|]; [|repeat split].
  destruct (running sim); [|repeat split].
  destruct (index sim <? List.length mockConversation)%nat; [|repeat split].
  destruct (nth_error mockConversation (S (index sim))); repeat split.
Qed.


(** *** What one event does to one socket *)

Lemma step_socket (e : Event) (s : Session) (w : nat) (ws : WebSocket) :
  nth_error (sockets s) w = Some ws ->
  exists ws',
    nth_error (sockets (step pf e s)) w = Some ws'
    /\ (ws' = ws
        \/ (exists a, ws' = ws_close a ws)
        \/ (e = WsOpen w /\ ws' = ws_set_state OPEN ws)
        \/ ws' = ws_set_state CLOSED ws
        \/ (exists n, ws' = ws_drain n ws)
        \/ (exists p pr input,
              e = AudioProcess p input
              /\ nth_error (processors s) p = Some pr /\ socket pr = w
              /\ ws' = fst (onaudioprocess (recording pr) ws input (ui s)))).
Proof.
  intros Hw.
  assert (Hsame : forall s', sockets s' = sockets s ->
            exists ws', nth_error (sockets s') w = Some ws'
              /\ (ws' = ws
        \/ (exists a, ws' = ws_close a ws)
        \/ (e = WsOpen w /\ ws' = ws_set_state OPEN ws)
        \/ ws' = ws_set_state CLOSED ws
        \/ (exists n, ws' = ws_drain n ws)
        \/ (exists p pr input,
              e = AudioProcess p input
              /\ nth_error (processors s) p = Some pr /\ socket pr = w
              /\ ws' = fst (onaudioprocess (recording pr) ws input (ui s))))).
  { intros s' Hs. exists ws. rewrite Hs. split; [exact Hw | left; reflexivity]. }
  assert (Hclosed : exists ws', nth_error (sockets (close_existing s)) w = Some ws'
                      /\ (ws' = ws \/ exists a, ws' = ws_close a ws)).
  { destruct (close_existing_socket s w) as [H | (ws0 & H0 & H1)].
    - exists ws. rewrite H. split; [exact Hw | left; reflexivity].
    - exists (ws_close None ws). rewrite Hw in H0. injection H0 as <-.
      split; [exact H1 | right; exists None; reflexivity]. }
  destruct e; cbn [step].
  - apply Hsame. unfold handleRecord. destruct mediaDevices; reflexivity.
  - destruct (handleRecord_media_cases t granted s)
      as [H | [(_ & _ & _ & _ & [H | H] & _) | (_ & _ & _ & _ & H & _)]].
    + apply Hsame. rewrite H. reflexivity.
    + apply Hsame, H.
    + rewrite H. destruct Hclosed as (ws' & H1 & H2). exists ws'. split; [exact H1|].
      destruct H2 as [-> | H2]; [left; reflexivity | right; left; exact H2].
    + rewrite H. destruct Hclosed as (ws' & H1 & H2). exists ws'. split.
      * rewrite nth_error_app1; [exact H1|]. apply nth_error_Some. congruence.
      * destruct H2 as [-> | H2]; [left; reflexivity | right; left; exact H2].
  - apply Hsame.
    destruct (handleRecord_wake_cases t s)
      as [H | (st & w0 & r & _ & [(_ & _ & H) | [(_ & _ & H) | (_ & H)]])]; rewrite H.
    + reflexivity.
    + reflexivity.
    + apply fallback_frame.
    + apply start_streaming_frame.
  - unfold socket_state.
    destruct (nth_error (sockets s) w0) as [ws0|] eqn:H0; cbn [option_map];
      [|apply Hsame; reflexivity].
    destruct (readyState ws0) eqn:Hr; try (apply Hsame; reflexivity).
    cbn. rewrite nth_error_alter.
    destruct (Nat.eqb_spec w0 w) as [-> | Hne].
    + rewrite Hw. cbn. eexists. split; [reflexivity|].
      right; right; left. split; reflexivity.
    + exists ws. split; [exact Hw | left; reflexivity].
  - apply Hsame. destruct (socket_state s w0) as [[| | |]|]; reflexivity.
  - apply Hsame. destruct (socket_state s w0); reflexivity.
  - unfold socket_state.
    destruct (nth_error (sockets s) w0) as [ws0|] eqn:H0; cbn [option_map];
      [|apply Hsame; reflexivity].
    destruct (readyState ws0) eqn:Hr; try (apply Hsame; reflexivity);
      cbn; rewrite nth_error_alter;
      (destruct (Nat.eqb_spec w0 w) as [-> | Hne];
       [ rewrite Hw; cbn; eexists; split; [reflexivity|]; right; right; right; left; reflexivity
       | exists ws; split; [exact Hw | left; reflexivity] ]).
  - cbn. rewrite nth_error_alter.
    destruct (Nat.eqb_spec w0 w) as [-> | Hne].
    + rewrite Hw. cbn. eexists. split; [reflexivity|].
      right; right; right; right; left. exists n. reflexivity.
    + exists ws. split; [exact Hw | left; reflexivity].
  - destruct (nth_error (processors s) p) as [pr|] eqn:Hp; [|apply Hsame; reflexivity].
    destruct (connected pr); [|apply Hsame; reflexivity].
    destruct (nth_error (sockets s) (socket pr)) as [ws0|] eqn:H0; [|apply Hsame; reflexivity].
    destruct (onaudioprocess (recording pr) ws0 inputData (ui s)) as [ws1 u1] eqn:Ha.
    cbn. rewrite nth_error_alter.
    destruct (Nat.eqb_spec (socket pr) w) as [Heq | Hne].
    + rewrite Hw. cbn. eexists. split; [reflexivity|].
      do 5 right. exists p, pr, inputData.
      rewrite Heq in H0. rewrite Hw in H0. injection H0 as <-.
      rewrite Ha. repeat split; auto.
    + exists ws. split; [exact Hw | left; reflexivity].
  - apply Hsame. apply simulation_tick_frame.
  - destruct (handleStop_frame s) as (_ & _ & _ & [H | (w0 & Ho & H)] & _).
    + apply Hsame, H.
    + rewrite H, nth_error_alter.
      destruct (Nat.eqb_spec w0 w) as [-> | Hne].
      * rewrite Hw. cbn. eexists. split; [reflexivity|]. right; left. eexists; reflexivity.
      * exists ws. split; [exact Hw | left; reflexivity].
  - apply Hsame. reflexivity.
Qed.


(** *** What one event does to the invocations and the audio callbacks *)

Lemma step_tasks_cases (e : Event) (s : Session) :
  tasks (step pf e s) = tasks s
  \/ tasks (step pf e s) = tasks s ++ [AwaitMedia]
  \/ (exists t, tasks (step pf e s) = alter (fun _ => Finished) t (tasks s)
                 /\ (e = RetryTimer t
                     \/ exists g, e = MediaSettled t g
                                  /\ nth_error (tasks s) t = Some AwaitMedia))
  \/ (exists t g, e = MediaSettled t g
        /\ nth_error (tasks s) t = Some AwaitMedia
        /\ tasks (step pf e s) =
             alter (fun _ => AwaitOpen (List.length (streams s)) (List.length (sockets s))
                                MAX_RETRIES) t (tasks s)
        /\ sockets (step pf e s) = sockets (close_existing s) ++ [newWebSocket]
        /\ streams (step pf e s) = streams s ++ [true])
  \/ (exists t st w r, e = RetryTimer t
        /\ nth_error (tasks s) t = Some (AwaitOpen st w r)
        /\ socket_is_open s w = false
        /\ tasks (step pf e s) = alter (fun _ => AwaitOpen st w (pred r)) t (tasks s)).
Proof.
  destruct e; cbn [step].
  - unfold handleRecord. destruct mediaDevices; [right; left | left]; reflexivity.
  - destruct (handleRecord_media_cases t granted s)
      as [H | [H | (Ht & H & _ & _ & Hso & Hst)]].
    + left. rewrite H. reflexivity.
    + right; right; left. exists t. split; [apply H|]. right. exists granted.
      split; [reflexivity | apply H].
    + right; right; right; left. exists t, granted. auto.
  - destruct (handleRecord_wake_cases t s)
      as [H | (st & w0 & r & Ht & [(Ho & _ & H) | [(_ & _ & H) | (_ & H)]])].
    + left. rewrite H. reflexivity.
    + do 4 right. exists t, st, w0, r. rewrite H. auto.
    + right; right; left. exists t. rewrite H. split; [apply fallback_frame | auto].
    + right; right; left. exists t. rewrite H. split; [apply start_streaming_frame | auto].
  - left. destruct (socket_state s w) as [[| | |]|]; reflexivity.
  - left. destruct (socket_state s w) as [[| | |]|]; reflexivity.
  - left. destruct (socket_state s w); reflexivity.
  - left. destruct (socket_state s w) as [[| | |]|]; reflexivity.
  - left. reflexivity.
  - left. destruct (nth_error (processors s) p) as [pr|]; [|reflexivity].
    destruct (connected pr); [|reflexivity].
    destruct (nth_error (sockets s) (socket pr)); [|reflexivity].
    destruct (onaudioprocess _ _ _ _). reflexivity.
  - left. apply simulation_tick_frame.
  - left. apply handleStop_frame.
  - left. reflexivity.
Qed.

(** An invocation found waiting after a step was waiting before, on the same socket, or has just created its socket. *)
Lemma step_waiter_origin (e : Event) (s : Session) (t' st' w' r' : nat) :
  nth_error (tasks (step pf e s)) t' = Some (AwaitOpen st' w' r') ->
  nth_error (tasks s) t' = Some (AwaitOpen st' w' r')
  \/ (e = RetryTimer t'
      /\ exists r0, nth_error (tasks s) t' = Some (AwaitOpen st' w' r0)
                    /\ r' = pred r0 /\ socket_is_open s w' = false)
  \/ (w' = List.length (sockets s) /\ st' = List.length (streams s)
      /\ List.length (sockets (step pf e s)) = S (List.length (sockets s))
      /\ List.length (streams (step pf e s)) = S (List.length (streams s))).
Proof.
  destruct (step_tasks_cases e s)
    as [H | [H | [(t & H & _) | [(t & g & He & Ht & H & Hso & Hst) | (t & st & w & r & He & Ht & Ho & H)]]]];
    rewrite H.
  - auto.
  - rewrite nth_error_snoc.
    destruct (t' <? List.length (tasks s))%nat; [auto|].
    destruct (t' =? List.length (tasks s))%nat; discriminate.
  - rewrite nth_error_alter. destruct (t =? t')%nat; [|auto].
    destruct (nth_error (tasks s) t'); discriminate.
  - rewrite nth_error_alter. destruct (Nat.eqb_spec t t') as [-> | Hne]; [|auto].
    rewrite Ht. cbn. intros [= <- <- <-]. right; right.
    rewrite Hso, Hst, !length_app, close_existing_length. cbn. repeat split; lia.
  - rewrite nth_error_alter. destruct (Nat.eqb_spec t t') as [-> | Hne]; [|auto].
    rewrite Ht. cbn. intros [= <- <- <-]. right; left. split; [exact He|].
    exists r. auto.
Qed.

(** Only its own timer moves a waiting invocation. *)
Lemma step_waiter_kept (e : Event) (s : Session) (t st w r : nat) :
  nth_error (tasks s) t = Some (AwaitOpen st w r) ->
  e <> RetryTimer t ->
  nth_error (tasks (step pf e s)) t = Some (AwaitOpen st w r).
Proof.
  intros Ht Hne.
  destruct (step_tasks_cases e s)
    as [H | [H | [(t0 & H & Hwhy) | [(t0 & g & He & Ht0 & H & _) | (t0 & st0 & w0 & r0 & He & Ht0 & Ho & H)]]]].
  - rewrite H. exact Ht.
  - rewrite H. rewrite nth_error_app1; [exact Ht|]. apply nth_error_Some. congruence.
  - rewrite H, nth_error_alter.
    destruct (Nat.eqb_spec t0 t) as [-> | Hn]; [|exact Ht].
    destruct Hwhy as [-> | (g & _ & Ht0)]; [contradiction | congruence].
  - rewrite H, nth_error_alter.
    destruct (Nat.eqb_spec t0 t) as [-> | Hn]; [congruence | exact Ht].
  - rewrite H, nth_error_alter.
    destruct (Nat.eqb_spec t0 t) as [-> | Hn]; [congruence | exact Ht].
Qed.


(** A step keeps the audio callbacks and their sockets, or adds one for an invocation whose socket is open. *)
Lemma step_processors_cases (e : Event) (s : Session) :
  (forall p, option_map socket (nth_error (processors (step pf e s)) p) =
             option_map socket (nth_error (processors s) p))
  \/ (exists t st w r,
        e = RetryTimer t
        /\ nth_error (tasks s) t = Some (AwaitOpen st w r)
        /\ socket_is_open s w = true
        /\ processors (step pf e s) = processors s ++ [mkProcessor w true true]).
Proof.
  assert (Hsame : forall s', processors s' = processors s ->
            forall p, option_map socket (nth_error (processors s') p) =
                      option_map socket (nth_error (processors s) p)).
  { intros s' -> p. reflexivity. }
  destruct e; cbn [step].
  - left. apply Hsame. unfold handleRecord. destruct mediaDevices; reflexivity.
  - left. apply Hsame.
    destruct (handleRecord_media_cases t granted s)
      as [H | [(_ & _ & H & _) | (_ & _ & H & _)]]; rewrite H; reflexivity.
  - destruct (handleRecord_wake_cases t s)
      as [H | (st & w0 & r & Ht & [(_ & _ & H) | [(_ & _ & H) | (Ho & H)]])].
    + left. apply Hsame. rewrite H. reflexivity.
    + left. apply Hsame. rewrite H. reflexivity.
    + left. apply Hsame. rewrite H. apply fallback_frame.
    + rewrite H.
      destruct (start_streaming_frame t st w0 s) as (_ & _ & _ & _ & [Hp | Hp]).
      * left. apply Hsame, Hp.
      * right. exists t, st, w0, r. auto.
  - left. apply Hsame. destruct (socket_state s w) as [[| | |]|]; reflexivity.
  - left. apply Hsame. destruct (socket_state s w) as [[| | |]|]; reflexivity.
  - left. apply Hsame. destruct (socket_state s w); reflexivity.
  - left. apply Hsame. destruct (socket_state s w) as [[| | |]|]; reflexivity.
  - left. apply Hsame. reflexivity.
  - left. apply Hsame. destruct (nth_error (processors s) p) as [pr|]; [|reflexivity].
    destruct (connected pr); [|reflexivity].
    destruct (nth_error (sockets s) (socket pr)); [|reflexivity].
    destruct (onaudioprocess _ _ _ _). reflexivity.
  - left. apply Hsame. apply simulation_tick_frame.
  - left. apply handleStop_frame.
  - left. apply Hsame. reflexivity.
Qed.

(** Where an audio callback found after a step comes from. *)
Lemma step_processor (e : Event) (s : Session) (p : nat) (pr : Processor) :
  nth_error (processors (step pf e s)) p = Some pr ->
  (exists pr0, nth_error (processors s) p = Some pr0 /\ socket pr0 = socket pr)
  \/ (exists t st r,
        e = RetryTimer t
        /\ nth_error (tasks s) t = Some (AwaitOpen st (socket pr) r)
        /\ socket_is_open s (socket pr) = true).
Proof.
  intros Hp.
  destruct (step_processors_cases e s) as [H | (t & st & w & r & He & Ht & Ho & H)].
  - left. specialize (H p). rewrite Hp in H. cbn in H.
    destruct (nth_error (processors s) p) as [pr0|]; [|discriminate].
    exists pr0. cbn in H. split; [reflexivity | congruence].
  - rewrite H, nth_error_snoc in Hp.
    destruct (p <? List.length (processors s))%nat.
    + left. exists pr. auto.
    + destruct (p =? List.length (processors s))%nat; [|discriminate].
      injection Hp as <-. right. exists t, st, r. auto.
Qed.

Lemma step_streams_length (e : Event) (s : Session) :
  (List.length (streams s) <= List.length (streams (step pf e s)))%nat.
Proof.
  destruct e; cbn [step].
  - unfold handleRecord. destruct mediaDevices; cbn; lia.
  - destruct (handleRecord_media_cases t granted s)
      as [H | [(_ & _ & _ & _ & _ & [H | H]) | (_ & _ & _ & _ & _ & H)]]; rewrite H;
      try rewrite length_app; cbn; lia.
  - destruct (handleRecord_wake_cases t s)
      as [H | (st & w0 & r & Ht & [(_ & _ & H) | [(_ & _ & H) | (Ho & H)]])]; rewrite H.
    + lia.
    + cbn. lia.
    + destruct (fallback_frame t st s) as (_ & _ & Hs & _). rewrite Hs, alter_length. lia.
    + destruct (start_streaming_frame t st w0 s) as (_ & _ & Hs & _). rewrite Hs. lia.
  - destruct (socket_state s w) as [[| | |]|]; cbn; lia.
  - destruct (socket_state s w) as [[| | |]|]; cbn; lia.
  - destruct (socket_state s w); cbn; lia.
  - destruct (socket_state s w) as [[| | |]|]; cbn; lia.
  - cbn. lia.
  - destruct (nth_error (processors s) p) as [pr|]; [|lia].
    destruct (connected pr); [|lia].
    destruct (nth_error (sockets s) (socket pr)); [|lia].
    destruct (onaudioprocess _ _ _ _). cbn. lia.
  - destruct (simulation_tick_frame k clk s) as (_ & _ & Hs & _). rewrite Hs. lia.
  - destruct (handleStop_frame s) as (_ & Hs & _). rewrite Hs. lia.
  - cbn. lia.
Qed.

Lemma step_sockets_length (e : Event) (s : Session) :
  (List.length (sockets s) <= List.length (sockets (step pf e s)))%nat.
Proof.
  destruct (List.length (sockets s)) as [|n] eqn:Hn; [lia|].
  assert (Hlt : (n < List.length (sockets s))%nat) by lia.
  apply nth_error_Some in Hlt.
  destruct (nth_error (sockets s) n) as [ws|] eqn:Hw; [|contradiction].
  destruct (step_socket e s n ws Hw) as (ws' & H' & _).
  assert (nth_error (sockets (step pf e s)) n <> None) by congruence.
  apply nth_error_Some in H. lia.
Qed.

(** Only its own timer makes a waiting invocation request another sleep. *)
Lemma step_sleeps_kept (e : Event) (s : Session) (t st w r : nat) :
  nth_error (tasks s) t = Some (AwaitOpen st w r) ->
  e <> RetryTimer t ->
  sleeps t (scheduled (step pf e s)) = sleeps t (scheduled s).
Proof.
  intros Ht Hne. destruct e; cbn [step].
  - unfold handleRecord. destruct mediaDevices; reflexivity.
  - destruct (handleRecord_media_cases t0 granted s)
      as [H | [(_ & _ & _ & H & _) | (Ht0 & _ & _ & H & _)]]; rewrite H; try reflexivity.
    rewrite sleeps_app. cbn.
    destruct (Nat.eqb_spec t0 t) as [-> | Hn]; [congruence | cbn; lia].
  - destruct (handleRecord_wake_cases t0 s)
      as [H | (st0 & w0 & r0 & Ht0 & [(_ & _ & H) | [(_ & _ & H) | (Ho & H)]])]; rewrite H.
    + reflexivity.
    + cbn. rewrite sleeps_app. cbn.
      destruct (Nat.eqb_spec t0 t) as [-> | Hn]; [contradiction | cbn; lia].
    + destruct (fallback_frame t0 st0 s) as (_ & _ & _ & Hs & _).
      rewrite Hs, sleeps_app. cbn. lia.
    + destruct (start_streaming_frame t0 st0 w0 s) as (_ & _ & _ & Hs & _).
      rewrite Hs. reflexivity.
  - destruct (socket_state s w0) as [[| | |]|]; reflexivity.
  - destruct (socket_state s w0) as [[| | |]|]; reflexivity.
  - destruct (socket_state s w0); reflexivity.
  - destruct (socket_state s w0) as [[| | |]|]; reflexivity.
  - reflexivity.
  - destruct (nth_error (processors s) p) as [pr|]; [|reflexivity].
    destruct (connected pr); [|reflexivity].
    destruct (nth_error (sockets s) (socket pr)); [|reflexivity].
    destruct (onaudioprocess _ _ _ _). reflexivity.
  - destruct (simulation_tick_frame k clk s) as (_ & _ & _ & _ & Hs). rewrite Hs. reflexivity.
  - apply handleStop_frame.
  - reflexivity.
Qed.


(** *** Invariants of the event loop *)

Lemma well_formed_initial : well_formed initialSession.
Proof.
  split.
  - intros t st w r H. destruct t; discriminate H.
  - intros p pr H. destruct p; discriminate H.
Qed.

(** References stay within the stores. *)
Lemma well_formed_step (e : Event) (s : Session) :
  well_formed s -> well_formed (step pf e s).
Proof.
  intros [Ht Hp].
  pose proof (step_sockets_length e s) as Hso.
  pose proof (step_streams_length e s) as Hst.
  split.
  - intros t st w r H.
    destruct (step_waiter_origin e s t st w r H)
      as [H0 | [(_ & r0 & H0 & _) | (-> & -> & H1 & H2)]].
    + destruct (Ht _ _ _ _ H0). lia.
    + destruct (Ht _ _ _ _ H0). lia.
    + lia.
  - intros p pr H.
    destruct (step_processor e s p pr H) as [(pr0 & H0 & Heq) | (t & st & r & _ & H0 & _)].
    + specialize (Hp _ _ H0). lia.
    + destruct (Ht _ _ _ _ H0). lia.
Qed.

Lemma well_formed_run (events : list Event) (s : Session) :
  well_formed s -> well_formed (run pf events s).
Proof.
  revert s. induction events as [|e events IH]; intros s H; [exact H|].
  cbn [run]. apply IH, well_formed_step, H.
Qed.

(** A step changes what a socket has sent only through an audio
    callback bound to it, and opens it only by its [open] event. *)
Lemma step_socket_sent (e : Event) (s : Session) (w : nat) (ws : WebSocket) :
  nth_error (sockets s) w = Some ws ->
  unbound w s ->
  exists ws',
    nth_error (sockets (step pf e s)) w = Some ws'
    /\ sent ws' = sent ws
    /\ (e <> WsOpen w -> is_open (readyState ws) = false ->
        is_open (readyState ws') = false).
Proof.
  intros Hw Hu.
  destruct (step_socket e s w ws Hw)
    as (ws' & H' & [-> | [(a & ->) | [(He & ->) | [-> | [(n & ->) | (p & pr & i & _ & Hp & Hs & _)]]]]]).
  - exists ws. auto.
  - eexists. split; [exact H'|]. split; [reflexivity|].
    intros _ Ho. cbn. destruct (readyState ws); auto.
  - eexists. split; [exact H'|]. split; [reflexivity|]. intros Hne. contradiction.
  - eexists. split; [exact H'|]. split; reflexivity.
  - eexists. split; [exact H'|]. split; [reflexivity|]. auto.
  - exfalso. exact (Hu p pr Hp Hs).
Qed.

(** A quiet socket stays quiet, whatever the event. *)
Lemma quiet_step (e : Event) (s : Session) (w : nat) :
  quiet w s -> quiet w (step pf e s).
Proof.
  intros ((ws & Hw & Hsent) & Hu & Hn).
  assert (Hlt : (w < List.length (sockets s))%nat).
  { apply nth_error_Some. congruence. }
  split; [|split].
  - destruct (step_socket_sent e s w ws Hw Hu) as (ws' & H' & Hs' & _).
    exists ws'. split; [exact H' | congruence].
  - intros p pr Hp Heq.
    destruct (step_processor e s p pr Hp) as [(pr0 & H0 & Hs0) | (t & st & r & _ & H0 & _)].
    + apply (Hu p pr0 H0). congruence.
    + rewrite Heq in H0. exact (Hn _ _ _ H0).
  - intros t st r H.
    destruct (step_waiter_origin e s t st w r H)
      as [H0 | [(_ & r0 & H0 & _) | (Heq & _)]].
    + exact (Hn _ _ _ H0).
    + exact (Hn _ _ _ H0).
    + lia.
Qed.

Lemma quiet_run (events : list Event) (s : Session) (w : nat) :
  quiet w s -> quiet w (run pf events s).
Proof.
  revert s. induction events as [|e events IH]; intros s H; [exact H|].
  cbn [run]. apply IH, quiet_step, H.
Qed.

Section Waiting.
Variables t st w : nat.

(** While the socket gets no [open] event, events other than its own timer leave a waiting invocation waiting. *)
Lemma waiting_step_other (e : Event) (s : Session) (r : nat) :
  waiting t st w r s ->
  e <> WsOpen w -> e <> RetryTimer t ->
  waiting t st w r (step pf e s)
  /\ sleeps t (scheduled (step pf e s)) = sleeps t (scheduled s).
Proof.
  intros (Ht & Hone & (ws & Hw & Hsent) & Hu & Ho & Hst) Hno Hnw.
  assert (Hlt : (w < List.length (sockets s))%nat).
  { apply nth_error_Some. congruence. }
  destruct (step_socket_sent e s w ws Hw Hu) as (ws' & H' & Hs' & Hopen).
  split; [|exact (step_sleeps_kept e s t st w r Ht Hnw)].
  split; [exact (step_waiter_kept e s t st w r Ht Hnw)|].
  split; [|split; [|split; [|split]]].
  - intros t' st' r' H.
    destruct (step_waiter_origin e s t' st' w r' H)
      as [H0 | [(_ & r0 & H0 & _) | (Heq & _)]].
    + exact (Hone _ _ _ H0).
    + exact (Hone _ _ _ H0).
    + lia.
  - exists ws'. split; [exact H' | congruence].
  - intros p pr Hp Heq.
    destruct (step_processor e s p pr Hp) as [(pr0 & H0 & Hs0) | (t0 & st0 & r0 & _ & _ & Hop)].
    + apply (Hu p pr0 H0). congruence.
    + rewrite Heq in Hop. congruence.
  - unfold socket_is_open in *. rewrite H'. rewrite Hw in Ho. apply Hopen; assumption.
  - pose proof (step_streams_length e s). lia.
Qed.

(** With retries left, the end of a sleep starts the next one. *)
Lemma waiting_step_wake (s : Session) (r : nat) :
  waiting t st w r s -> (2 <= r)%nat ->
  waiting t st w (pred r) (step pf (RetryTimer t) s)
  /\ sleeps t (scheduled (step pf (RetryTimer t) s)) = S (sleeps t (scheduled s)).
Proof.
  intros (Ht & Hone & Hsil & Hu & Ho & Hst) Hr.
  cbn [step]. unfold handleRecord_wake. rewrite Ht.
  rewrite poll_sleep by (assumption || lia).
  split.
  - split; [|split; [|split; [|split; [|split]]]]; cbn.
    + rewrite nth_error_alter, Nat.eqb_refl, Ht. reflexivity.
    + intros t' st' r' H. cbn in H. rewrite nth_error_alter in H.
      destruct (Nat.eqb_spec t t') as [-> | Hne]; [reflexivity|].
      exact (Hone _ _ _ H).
    + exact Hsil.
    + exact Hu.
    + exact Ho.
    + exact Hst.
  - cbn. rewrite sleeps_app. cbn. rewrite Nat.eqb_refl. cbn. lia.
Qed.

(** A run without [open] event that ends fewer sleeps than there are retries left keeps the invocation waiting. *)
Lemma waiting_run (events : list Event) (s : Session) (r : nat) :
  waiting t st w r s ->
  opens w events = false ->
  (wakes t events < r)%nat ->
  waiting t st w (r - wakes t events) (run pf events s)
  /\ sleeps t (scheduled (run pf events s)) =
       (sleeps t (scheduled s) + wakes t events)%nat.
Proof.
  revert s r. induction events as [|e events IH]; intros s r Hwait Hop Hw.
  - cbn. rewrite Nat.sub_0_r, Nat.add_0_r. auto.
  - cbn [run].
    assert (Hcases : (e = RetryTimer t /\ wakes t (e :: events) = S (wakes t events))
                     \/ (e <> RetryTimer t /\ wakes t (e :: events) = wakes t events)).
    { destruct e; try (right; split; [discriminate | reflexivity]).
      cbn. destruct (Nat.eqb_spec t0 t) as [-> | Hne].
      - left. auto.
      - right. split; [congruence | reflexivity]. }
    assert (Hopen : e <> WsOpen w /\ opens w events = false).
    { destruct e; try (split; [discriminate | exact Hop]).
      cbn in Hop. apply orb_false_iff in Hop. destruct Hop as [Hne Hop].
      apply Nat.eqb_neq in Hne. split; [congruence | exact Hop]. }
    destruct Hopen as [Hno Hop'].
    destruct Hcases as [[-> Hk] | [Hne Hk]]; rewrite Hk in *.
    + destruct (waiting_step_wake s r Hwait ltac:(lia)) as [Hwait' Hsl].
      destruct (IH _ _ Hwait' Hop' ltac:(lia)) as [H1 H2].
      split.
      * replace (r - S (wakes t events))%nat with (pred r - wakes t events)%nat by lia.
        exact H1.
      * rewrite H2, Hsl. lia.
    + destruct (waiting_step_other e s r Hwait Hno Hne) as [Hwait' Hsl].
      destruct (IH _ _ Hwait' Hop' Hw) as [H1 H2].
      split; [exact H1 | rewrite H2, Hsl; reflexivity].
Qed.

(** The last retry: the loop is left and the fallback runs. *)
Lemma waiting_last_wake (s : Session) :
  waiting t st w 1 s ->
  step pf (RetryTimer t) s = fallback t st s /\ quiet w (fallback t st s).
Proof.
  intros (Ht & Hone & Hsil & Hu & Ho & Hst).
  split.
  - cbn [step]. unfold handleRecord_wake. rewrite Ht. apply poll_fallback, Ho.
  - split; [exact Hsil|]. split; [exact Hu|].
    intros t' st' r' H. cbn in H. rewrite nth_error_alter in H.
    destruct (Nat.eqb_spec t t') as [-> | Hne].
    + rewrite Ht in H. discriminate H.
    + apply Hne. symmetry. exact (Hone _ _ _ H).
Qed.

End Waiting.

(** The scripted sequence: the firing that finds [index = i] appends
    entry [i + 1] of [mockConversation]. *)
Lemma simulation_ticks (k : nat) (ticks : list Clock) (s : Session) (i : nat) :
  nth_error (simulations s) k = Some (mkSim i true) ->
  (S i + List.length ticks <= List.length mockConversation)%nat ->
  transcript (ui (run pf (map (SimTick k) ticks) s)) =
    transcript (ui s) ++ scripted ticks (skipn (S i) mockConversation)
  /\ nth_error (simulations (run pf (map (SimTick k) ticks) s)) k =
       Some (mkSim (i + List.length ticks) true)
  /\ renderFailed (ui (run pf (map (SimTick k) ticks) s)) = renderFailed (ui s)
  /\ isRecording (ui (run pf (map (SimTick k) ticks) s)) = isRecording (ui s).
Proof.
  revert s i. induction ticks as [|clk ticks IH]; intros s i Hk Hlen.
  - cbn. rewrite app_nil_r, Nat.add_0_r. auto.
  - cbn [map run step List.length] in *.
    assert (Hi : (S i < List.length mockConversation)%nat) by lia.
    destruct (nth_error mockConversation (S i)) as [entry|] eqn:He.
    2:{ apply nth_error_None in He. lia. }
    assert (Hstep : simulation_tick k clk s =
              with_ui (setTranscript (fun prev => prev ++ [mockLine clk entry]))
                (with_simulations (alter (fun x => mkSim (S (index x)) (running x)) k) s)).
    { unfold simulation_tick. rewrite Hk. cbn [running index].
      assert (Hlt : (i <? List.length mockConversation)%nat = true)
        by (apply Nat.ltb_lt; lia).
      rewrite Hlt, He. reflexivity. }
    rewrite Hstep.
    destruct (IH (with_ui (setTranscript (fun prev => prev ++ [mockLine clk entry]))
                (with_simulations (alter (fun x => mkSim (S (index x)) (running x)) k) s))
                 (S i)) as (H1 & H2 & H3 & H4).
    + cbn. rewrite nth_error_alter, Nat.eqb_refl, Hk. reflexivity.
    + lia.
    + rewrite H1, H2, H3, H4. cbn [ui with_simulations with_ui transcript setTranscript].
      split; [| split; [| split; reflexivity]].
      * rewrite <- app_assoc. f_equal.
        rewrite (skipn_nth_error _ _ _ He). reflexivity.
      * f_equal. f_equal. lia.
Qed.


Lemma run_app (l1 l2 : list Event) (s : Session) :
  run pf (l1 ++ l2) s = run pf l2 (run pf l1 s).
Proof.
  revert s. induction l1 as [|e l1 IH]; intros s; [reflexivity|].
  cbn [app run]. apply IH.
Qed.

(** The state in which [handleRecord] enters its wait loop. *)
Lemma waiting_begins (s : Session) (t : nat) (url : jsstring) :
  well_formed s ->
  nth_error (tasks s) t = Some AwaitMedia ->
  getWebSocketUrl pf = Some url -> url_accepted pf url = true ->
  waiting t (List.length (streams s)) (List.length (sockets s)) MAX_RETRIES
    (step pf (MediaSettled t true) s)
  /\ sleeps t (scheduled (step pf (MediaSettled t true) s)) = S (sleeps t (scheduled s)).
Proof.
  intros [Hwt Hwp] Ht Hurl Hacc. cbn [step].
  rewrite (handleRecord_media_waits t s url Ht Hurl Hacc).
  destruct (close_existing_frame (with_streams (fun l => l ++ [true]) s))
    as (_ & Hst & Hpr & Hta & Hsc & _).
  pose proof (close_existing_length (with_streams (fun l => l ++ [true]) s)) as Hlen.
  cbn in Hst, Hpr, Hta, Hsc, Hlen.
  split.
  - split; [|split; [|split; [|split; [|split]]]]; cbn.
    + rewrite Hta, nth_error_alter, Nat.eqb_refl, Ht. reflexivity.
    + intros t' st' r' H. cbn in H. rewrite Hta, nth_error_alter in H.
      destruct (Nat.eqb_spec t t') as [-> | Hne]; [reflexivity|].
      destruct (Hwt _ _ _ _ H). lia.
    + exists newWebSocket. cbn. rewrite nth_error_snoc, <- Hlen.
      rewrite Nat.ltb_irrefl, Nat.eqb_refl. split; reflexivity.
    + intros p pr Hp. cbn in Hp. rewrite Hpr in Hp. specialize (Hwp _ _ Hp). lia.
    + rewrite <- Hlen. apply fresh_socket_not_open. reflexivity.
    + rewrite Hst, length_app. cbn. lia.
  - cbn. rewrite Hsc, sleeps_app. cbn. rewrite Nat.eqb_refl. cbn. lia.
Qed.

(** C3: when [handleRecord] has the microphone and a socket that is not
    opened before its thirtieth sleep of one second ends, it stops the
    microphone stream, reports the demonstration mode, starts the
    scripted transcription (an interval of 2500 ms whose firings append
    the lines of [mockConversation] in order, beginning with the second:
    the updater reads [index] after its increment) and marks the session
    as recording; from then on no event ever makes that socket carry an
    audio frame, even if it opens late. *)
Theorem unreachable_relay_falls_back_to_simulation
    (before waits : list Event) (t : nat) (url : jsstring) :
  nth_error (tasks (run pf before initialSession)) t = Some AwaitMedia ->
  getWebSocketUrl pf = Some url -> url_accepted pf url = true ->
  opens (List.length (sockets (run pf before initialSession))) waits = false ->
  wakes t waits = 29%nat ->
  let s0 := run pf before initialSession in
  let w := List.length (sockets s0) in
  let st := List.length (streams s0) in
  let s1 := run pf (MediaSettled t true :: waits ++ [RetryTimer t]) s0 in
  MAX_RETRIES = 30%nat /\ RETRY_DELAY_MS = 1000
  /\ sleeps t (scheduled s1) = (sleeps t (scheduled s0) + 30)%nat
  /\ nth_error (streams s1) st = Some false
  /\ error (ui s1) = Some (lit "Could not connect to transcription service. Using demo mode.")
  /\ isRecording (ui s1) = true
  /\ (exists k,
        nth_error (simulations s1) k = Some (mkSim 0 true)
        /\ In (IntervalOf k, SIMULATION_INTERVAL_MS) (scheduled s1)
        /\ forall ticks,
             (S (List.length ticks) <= List.length mockConversation)%nat ->
             transcript (ui (run pf (map (SimTick k) ticks) s1)) =
               transcript (ui s1) ++ scripted ticks (tl mockConversation))
  /\ (forall later,
        exists ws, nth_error (sockets (run pf later s1)) w = Some ws /\ sent ws = []).
Proof.
  intros Ht Hurl Hacc Hop Hwk s0 w st s1.
  assert (Hwf : well_formed s0) by (apply well_formed_run, well_formed_initial).
  destruct (waiting_begins s0 t url Hwf Ht Hurl Hacc) as [Hw0 Hs0].
  fold w st in Hw0.
  destruct (waiting_run t st w waits _ MAX_RETRIES Hw0 Hop ltac:(rewrite Hwk; unfold MAX_RETRIES; lia))
    as [Hw1 Hs1].
  rewrite Hwk in Hw1, Hs1. change (MAX_RETRIES - 29)%nat with 1%nat in Hw1.
  destruct (waiting_last_wake t st w _ Hw1) as [Hlast Hquiet].
  assert (Hs1eq : s1 = fallback t st (run pf waits (step pf (MediaSettled t true) s0))).
  { unfold s1. cbn [run]. rewrite run_app. cbn [run]. exact Hlast. }
  set (sw := run pf waits (step pf (MediaSettled t true) s0)) in *.
  destruct (fallback_frame t st sw) as (_ & _ & Hst & Hsc & _ & Hsim & Hrec & Herr & _).
  destruct Hw1 as (_ & _ & _ & _ & _ & Hlt).
  rewrite Hs1eq.
  split; [reflexivity|]. split; [reflexivity|].
  split.
  { rewrite Hsc, sleeps_app, Hs1, Hs0. cbn. lia. }
  split.
  { rewrite Hst, nth_error_alter, Nat.eqb_refl.
    destruct (nth_error (streams sw) st) eqn:E; [reflexivity|].
    apply nth_error_None in E. lia. }
  split; [exact Herr|]. split; [exact Hrec|].
  split.
  { exists (List.length (simulations sw)).
    assert (Hk : nth_error (simulations (fallback t st sw)) (List.length (simulations sw))
                 = Some (mkSim 0 true)).
    { rewrite Hsim, nth_error_snoc, Nat.ltb_irrefl, Nat.eqb_refl. reflexivity. }
    split; [exact Hk|]. split.
    - rewrite Hsc. apply in_or_app. right. left. reflexivity.
    - intros ticks Hlen.
      destruct (simulation_ticks _ ticks _ 0 Hk Hlen) as [H _].
      exact H. }
  intros later. exact (proj1 (quiet_run later _ w Hquiet)).
Qed.


(** *** Backpressure *)

Lemma onaudioprocess_bound (r : bool) (ws : WebSocket) (input : list Encoder.number) (u : UI) :
  bufferedAmount ws <= bufferedAmount (fst (onaudioprocess r ws input u))
    <= Z.max (bufferedAmount ws)
             (recorderBufferSize * 2 - 1 + 2 * Z.of_nat (List.length input)).
Proof.
  unfold onaudioprocess.
  destruct (r && is_open (readyState ws)); cbn [fst]; [|lia].
  destruct (Z.ltb_spec (bufferedAmount ws) (recorderBufferSize * 2)); cbn [fst].
  - unfold ws_send, Encoder.encodeFrame. cbn [bufferedAmount]. rewrite length_map. lia.
  - lia.
Qed.

(** Every socket of the next state is a socket of this state after one
    of the operations of the model, or a new socket. *)
Lemma step_sockets_Forall (P : WebSocket -> Prop) (e : Event) (s : Session) :
  P newWebSocket ->
  (forall a ws, P ws -> P (ws_close a ws)) ->
  (forall r ws, P ws -> P (ws_set_state r ws)) ->
  (forall n ws, P ws -> P (ws_drain n ws)) ->
  (forall p input, e = AudioProcess p input ->
     forall r ws u, P ws -> P (fst (onaudioprocess r ws input u))) ->
  Forall P (sockets s) -> Forall P (sockets (step pf e s)).
Proof.
  intros P_new P_close P_state P_drain Haudio H.
  assert (Hin : forall i x, nth_error (sockets s) i = Some x -> P x).
  { intros i x Hx. eapply Forall_forall; [exact H|]. eapply nth_error_In; eauto. }
  assert (Hclosed : Forall P (sockets (close_existing s))).
  { unfold close_existing. destruct (websocketRef s); [|exact H].
    cbn. apply Forall_alter; auto. intros x Hx. apply P_close. eauto. }
  destruct e; cbn [step].
  - unfold handleRecord. destruct mediaDevices; exact H.
  - destruct (handleRecord_media_cases t granted s)
      as [H0 | [(_ & _ & _ & _ & [H0 | H0] & _) | (_ & _ & _ & _ & H0 & _)]]; rewrite H0;
      try assumption.
    apply Forall_app. split; [exact Hclosed | constructor; auto].
  - destruct (handleRecord_wake_cases t s)
      as [H0 | (st & w0 & r & _ & [(_ & _ & H0) | [(_ & _ & H0) | (_ & H0)]])]; rewrite H0.
    + exact H.
    + exact H.
    + exact H.
    + destruct (start_streaming_frame t st w0 s) as (_ & Hs & _). rewrite Hs. exact H.
  - destruct (socket_state s w) as [[| | |]|]; try exact H.
    cbn. apply Forall_alter; auto. intros x Hx. apply P_state. eauto.
  - destruct (socket_state s w) as [[| | |]|]; exact H.
  - destruct (socket_state s w); exact H.
  - destruct (socket_state s w) as [[| | |]|]; try exact H;
      cbn; apply Forall_alter; auto; intros x Hx; apply P_state; eauto.
  - cbn. apply Forall_alter; auto. intros x Hx. apply P_drain. eauto.
  - destruct (nth_error (processors s) p) as [pr|]; [|exact H].
    destruct (connected pr); [|exact H].
    destruct (nth_error (sockets s) (socket pr)) as [ws|] eqn:Hws; [|exact H].
    pose proof (Haudio p inputData eq_refl (recording pr) ws (ui s)) as Ha.
    destruct (onaudioprocess (recording pr) ws inputData (ui s)) as [ws' u'].
    cbn. apply Forall_alter; auto. intros x Hx. apply Ha. eauto.
  - destruct (simulation_tick_frame k clk s) as (_ & Hs & _). rewrite Hs. exact H.
  - destruct (handleStop_frame s) as (_ & _ & _ & [Hs | (w0 & _ & Hs)] & _); rewrite Hs.
    + exact H.
    + apply Forall_alter; auto. intros x Hx. apply P_close. eauto.
  - exact H.
Qed.

(** The bytes queued on every socket stay bounded along a run. *)
Lemma run_buffers_bounded (events : list Event) (s : Session) :
  frames_fit events ->
  Forall buffer_ok (sockets s) ->
  Forall buffer_ok (sockets (run pf events s)).
Proof.
  revert s. induction events as [|e events IH]; intros s Hfit H; [exact H|].
  cbn [run]. apply IH.
  - destruct e; cbn in Hfit; try exact Hfit. apply Hfit.
  - apply step_sockets_Forall; auto.
    + unfold buffer_ok, newWebSocket, recorderBufferSize. cbn. lia.
    + intros n ws Hw. unfold buffer_ok, ws_drain in *. cbn [bufferedAmount]. lia.
    + intros p input -> r ws u Hw. cbn in Hfit. destruct Hfit as [Hlen _].
      pose proof (onaudioprocess_bound r ws input u) as Hb.
      unfold buffer_ok in *. unfold recorderBufferSize in *. lia.
Qed.

(** C4: on an open socket the audio callback compares [bufferedAmount]
    with twice [recorderBufferSize]; above the threshold the frame is
    not handed to the socket and a warning is printed, below it the
    encoded frame is sent; one callback never raises the queue beyond
    the threshold plus one frame, and in every run whose callbacks
    deliver buffers of at most [recorderBufferSize] samples the bytes
    queued on any socket stay below that bound. *)
Theorem backpressure_guard_drops_frames
    (ws : WebSocket) (inputData : list Encoder.number) (u : UI) :
  readyState ws = OPEN ->
  (recorderBufferSize * 2 < bufferedAmount ws ->
   onaudioprocess true ws inputData u =
     (ws, print LWarn "WebSocket buffer full, dropping audio chunk" u))
  /\ (bufferedAmount ws < recorderBufferSize * 2 ->
      onaudioprocess true ws inputData u =
        (ws_send (Encoder.encodeFrame inputData) ws, u))
  /\ bufferedAmount (fst (onaudioprocess true ws inputData u))
       <= Z.max (bufferedAmount ws)
                (recorderBufferSize * 2 - 1 + 2 * Z.of_nat (List.length inputData))
  /\ (forall events i x,
        frames_fit events ->
        nth_error (sockets (run pf events initialSession)) i = Some x ->
        0 <= bufferedAmount x < recorderBufferSize * 2 + 2 * recorderBufferSize).
Proof.
  intros Ho. split; [|split; [|split]].
  - intros Hb. unfold onaudioprocess. rewrite Ho. cbn [is_open andb].
    destruct (Z.ltb_spec (bufferedAmount ws) (recorderBufferSize * 2)); [lia | reflexivity].
  - intros Hb. unfold onaudioprocess. rewrite Ho. cbn [is_open andb].
    destruct (Z.ltb_spec (bufferedAmount ws) (recorderBufferSize * 2)); [reflexivity | lia].
  - apply onaudioprocess_bound.
  - intros events i x Hfit Hx.
    assert (H : Forall buffer_ok (sockets (run pf events initialSession))).
    { apply run_buffers_bounded; [exact Hfit | constructor]. }
    eapply Forall_forall in H; [exact H|]. eapply nth_error_In; eauto.
Qed.

(** C7, as the code has it: the close handler sets the error
    "WebSocket connection closed unexpectedly." exactly when the event is
    not clean, whatever its code; [handleStop] on a recording session
    with an open socket closes it with code 1000 and leaves the error
    state alone, and so does the clean closure that answers it. *)
Theorem close_handler_reports_unclean_closure
    (event : CloseEvent) (u : UI) (s : Session) (w : nat) (ws : WebSocket)
    (why : jsstring) :
  isRecording (ui s) = true ->
  websocketRef s = Some w ->
  nth_error (sockets s) w = Some ws ->
  readyState ws = OPEN ->
  (wasClean event = false ->
   onclose event u =
     setError (Some (lit "WebSocket connection closed unexpectedly."))
       (print LLog "WebSocket connection closed." u))
  /\ (wasClean event = true ->
      onclose event u = print LLog "WebSocket connection closed." u)
  /\ nth_error (sockets (handleStop s)) w =
       Some (ws_close (Some (1000, "Client stopped recording"%string)) ws)
  /\ error (ui (handleStop s)) = error (ui s)
  /\ error (ui (step pf (WsClose w (mkCloseEvent 1000 why true)) (handleStop s))) =
       error (ui s).
Proof.
  intros Hrec Href Hw Ho.
  split; [intros Hc; unfold onclose; rewrite Hc; reflexivity|].
  split; [intros Hc; unfold onclose; rewrite Hc; reflexivity|].
  assert (Hstop : nth_error (sockets (handleStop s)) w =
                    Some (ws_close (Some (1000, "Client stopped recording"%string)) ws)
                  /\ error (ui (handleStop s)) = error (ui s)).
  { unfold handleStop. rewrite Hrec. cbn zeta.
    set (s1 := with_ui _ s).
    set (s2 := match mediaRecorderRef s1 with Some r => _ | None => s1 end).
    assert (H2 : sockets s2 = sockets s /\ websocketRef s2 = Some w
                 /\ error (ui s2) = error (ui s)).
    { subst s2. destruct (mediaRecorderRef s1) as [r|]; [destruct (active r)|];
        cbn; auto. }
    destruct H2 as (H2s & H2r & H2e).
    rewrite H2r.
    assert (Hopen : socket_is_open s2 w = true).
    { unfold socket_is_open. rewrite H2s, Hw, Ho. reflexivity. }
    rewrite Hopen.
    set (s3 := with_sockets _ _).
    assert (H3 : nth_error (sockets s3) w =
                   Some (ws_close (Some (1000, "Client stopped recording"%string)) ws)
                 /\ error (ui s3) = error (ui s)).
    { subst s3. cbn. rewrite nth_error_alter, Nat.eqb_refl, H2s, Hw. auto. }
    destruct (processorNodeRef s3); cbn; exact H3. }
  destruct Hstop as [Hs He].
  split; [exact Hs|]. split; [exact He|].
  cbn [step]. unfold socket_state. rewrite Hs. cbn [option_map].
  unfold ws_close at 1. rewrite Ho. cbn [readyState].
  cbn [ui with_ui with_sockets onclose wasClean negb error print]. exact He.
Qed.

(** C7 as stated fails for closure codes: a clean closure with the
    server-error code 1011 sets no error. *)
Lemma clean_closure_with_error_code_sets_no_error :
  code Scenarios.clean_server_error <> 1000
  /\ wasClean Scenarios.clean_server_error = true
  /\ error (onclose Scenarios.clean_server_error initialUI) = None.
Proof.
  split; [discriminate|]. split; reflexivity.
Qed.

(** C8: a text that [JSON.parse] rejects is logged and dropped: the
    handler only prints an error, so transcript, snapshot and error
    state are unchanged, and in the event loop nothing but the console
    changes; the text "pong" is answered by a log line whatever the
    parser would do with it. *)
Theorem unparseable_message_is_dropped
    (parse : jsstring -> completion json)
    (clk : Clock) (data : jsstring) (e : exn) (u : UI) :
  str_eqb data (lit "pong") = false ->
  parse data = Throw e ->
  onmessage parse clk data u = print LError "Error processing WebSocket message:" u
  /\ transcript (onmessage parse clk data u) = transcript u
  /\ analysis (onmessage parse clk data u) = analysis u
  /\ error (onmessage parse clk data u) = error u
  /\ (forall s w,
        JSON_parse pf = parse ->
        socket_state s w = Some OPEN ->
        step pf (WsMessage w clk data) s =
          with_ui (print LError "Error processing WebSocket message:") s)
  /\ (forall (other : jsstring -> completion json) clk' u',
        onmessage other clk' (lit "pong") u' = print LLog "Received pong from server" u').
Proof.
  intros Hpong Hparse.
  assert (Heq : onmessage parse clk data u =
                print LError "Error processing WebSocket message:" u).
  { unfold onmessage, try_catch, onmessage_body. rewrite Hpong.
    unfold bind, lift. rewrite Hparse. reflexivity. }
  rewrite Heq. repeat split.
  intros s w Hp Ho. cbn [step]. rewrite Ho, Hp.
  unfold with_ui. f_equal.
  unfold onmessage, try_catch, onmessage_body. rewrite Hpong.
  unfold bind, lift. rewrite Hparse. reflexivity.
Qed.

End TransportFacts.

(* ================================================================== *)
(** * The claims on sample runs *)
(* ================================================================== *)

Section Examples.
Import Js Dispatcher Transport Samples Scenarios.

(** C2 fails on the code: two [transcript] messages handled within one
    millisecond are appended with the same identifier, so the
    identifiers are neither unique nor strictly increasing. *)
Theorem transcript_ids_collide_within_one_millisecond :
  map id (transcript
            (dispatchAll parse_samples
               [(same_millisecond, hello0); (same_millisecond, again0)] initialUI))
    = [1700000000000; 1700000000000]
  /\ ~ NoDup (map id (transcript
                        (dispatchAll parse_samples
                           [(same_millisecond, hello0); (same_millisecond, again0)]
                           initialUI)))
  /\ ~ strictly_increasing
         (map id (transcript
                    (dispatchAll parse_samples
                       [(same_millisecond, hello0); (same_millisecond, again0)]
                       initialUI))).
Proof.
  assert (H : map id (transcript
            (dispatchAll parse_samples
               [(same_millisecond, hello0); (same_millisecond, again0)] initialUI))
    = [1700000000000; 1700000000000]) by reflexivity.
  rewrite H. split; [reflexivity|]. split.
  - intros Hnd. inversion Hnd as [|x l Hin _]; subst. apply Hin. left. reflexivity.
  - cbn. lia.
Qed.

(** C6 on the message [{type: transcript, text: Hello, speaker: 0}]. *)
Lemma transcript_speaker_label_witness :
  str_eqb hello0 (lit "pong") = false
  /\ parse_samples hello0 = Normal hello0_value
  /\ field hello0_value "type" = Some (JStr (lit "transcript"))
  /\ field hello0_value "speaker" = Some (JNum 0)
  /\ transcript (onmessage parse_samples same_millisecond hello0 initialUI) =
       [mkLine 1700000000000 (Some (JStr (lit "Hello")))
          (Some (JStr (lit "Speaker 1"))) 1700000000000].
Proof.
  assert (H1 : str_eqb hello0 (lit "pong") = false) by reflexivity.
  assert (H2 : parse_samples hello0 = Normal hello0_value) by reflexivity.
  assert (H3 : field hello0_value "type" = Some (JStr (lit "transcript"))) by reflexivity.
  assert (H4 : field hello0_value "speaker" = Some (JNum 0)) by reflexivity.
  assert (H5 : 0 <= 0 < 2 ^ 53 - 1) by (vm_compute; split; [discriminate | reflexivity]).
  repeat (split; [assumption|]).
  exact (proj1 (transcript_speaker_label_is_one_based parse_samples same_millisecond
                  hello0 hello0_value 0 initialUI H1 H2 H3 H4 H5)).
Defined.

(** C9 on a [transcript] message whose speaker is the string "A". *)
Lemma transcript_speaker_default_witness :
  str_eqb letter_speaker (lit "pong") = false
  /\ parse_samples letter_speaker = Normal letter_speaker_value
  /\ field letter_speaker_value "type" = Some (JStr (lit "transcript"))
  /\ (forall n, field letter_speaker_value "speaker" <> Some (JNum n))
  /\ transcript (onmessage parse_samples same_millisecond letter_speaker initialUI) =
       [mkLine 1700000000000 (Some (JStr (lit "Hi")))
          (Some (JStr (lit "Speaker 1"))) 1700000000000].
Proof.
  assert (H1 : str_eqb letter_speaker (lit "pong") = false) by reflexivity.
  assert (H2 : parse_samples letter_speaker = Normal letter_speaker_value) by reflexivity.
  assert (H3 : field letter_speaker_value "type" = Some (JStr (lit "transcript"))) by reflexivity.
  assert (H4 : forall n, field letter_speaker_value "speaker" <> Some (JNum n)).
  { intros n H. discriminate H. }
  repeat (split; [assumption|]).
  exact (transcript_speaker_defaults_to_zero parse_samples same_millisecond
           letter_speaker letter_speaker_value initialUI H1 H2 H3 H4).
Defined.

(** C5 on an [analysis] message whose data holds suggestions only. *)
Lemma analysis_defaults_witness :
  str_eqb partial_analysis (lit "pong") = false
  /\ parse_samples partial_analysis = Normal partial_analysis_value
  /\ field partial_analysis_value "type" = Some (JStr (lit "analysis"))
  /\ field partial_analysis_value "data" =
       Some (JObj [(lit "suggestions", JArr [JStr (lit "Rest")])])
  /\ analysis (onmessage parse_samples same_millisecond partial_analysis initialUI) =
       mkAnalysis (JArr []) (JArr [JStr (lit "Rest")]) defaultSeverity (JArr []).
Proof.
  assert (H1 : str_eqb partial_analysis (lit "pong") = false) by reflexivity.
  assert (H2 : parse_samples partial_analysis = Normal partial_analysis_value) by reflexivity.
  assert (H3 : field partial_analysis_value "type" = Some (JStr (lit "analysis")))
    by reflexivity.
  assert (H4 : field partial_analysis_value "data" =
                 Some (JObj [(lit "suggestions", JArr [JStr (lit "Rest")])])) by reflexivity.
  repeat (split; [assumption|]).
  exact (proj1 (proj2 (analysis_replaces_snapshot_with_defaults parse_samples
                         same_millisecond partial_analysis partial_analysis_value _
                         initialUI H1 H2 H3 H4 eq_refl))).
Defined.

(** C10 on an [analysis] message whose data is a string. *)
Lemma analysis_ignored_witness :
  str_eqb bad_analysis (lit "pong") = false
  /\ parse_samples bad_analysis = Normal bad_analysis_value
  /\ field bad_analysis_value "type" = Some (JStr (lit "analysis"))
  /\ is_object (field bad_analysis_value "data") = false
  /\ analysis (onmessage parse_samples same_millisecond bad_analysis initialUI) =
       initialAnalysis.
Proof.
  assert (H1 : str_eqb bad_analysis (lit "pong") = false) by reflexivity.
  assert (H2 : parse_samples bad_analysis = Normal bad_analysis_value) by reflexivity.
  assert (H3 : field bad_analysis_value "type" = Some (JStr (lit "analysis"))) by reflexivity.
  assert (H4 : is_object (field bad_analysis_value "data") = false) by reflexivity.
  repeat (split; [assumption|]).
  exact (proj2 (analysis_without_object_data_is_ignored parse_samples same_millisecond
                  bad_analysis bad_analysis_value initialUI H1 H2 H3 (or_intror H4))).
Defined.

(** C8 on a text that is not JSON. *)
Lemma unparseable_message_witness :
  str_eqb garbage (lit "pong") = false
  /\ parse_samples garbage = Throw SyntaxError
  /\ onmessage parse_samples same_millisecond garbage initialUI =
       print LError "Error processing WebSocket message:" initialUI.
Proof.
  assert (H1 : str_eqb garbage (lit "pong") = false) by reflexivity.
  assert (H2 : parse_samples garbage = Throw SyntaxError) by reflexivity.
  repeat (split; [assumption|]).
  exact (proj1 (unparseable_message_is_dropped demo_platform parse_samples
                  same_millisecond garbage SyntaxError initialUI H1 H2)).
Defined.

(** C4 on a socket with 9000 bytes queued. *)
Lemma backpressure_witness :
  readyState congested_socket = OPEN
  /\ recorderBufferSize * 2 < bufferedAmount congested_socket
  /\ onaudioprocess true congested_socket [Encoder.Finite (1 # 4)] initialUI =
       (congested_socket,
        print LWarn "WebSocket buffer full, dropping audio chunk" initialUI).
Proof.
  assert (H1 : readyState congested_socket = OPEN) by reflexivity.
  assert (H2 : recorderBufferSize * 2 < bufferedAmount congested_socket) by reflexivity.
  repeat (split; [assumption|]).
  exact (proj1 (backpressure_guard_drops_frames demo_platform congested_socket
                  [Encoder.Finite (1 # 4)] initialUI H1) H2).
Defined.

(** C7 on a recording in progress that the user stops. *)
Lemma stop_closes_normally_witness :
  isRecording (ui recording_session) = true
  /\ websocketRef recording_session = Some 0%nat
  /\ nth_error (sockets recording_session) 0 = Some (mkWs OPEN 0 [] [])
  /\ nth_error (sockets (handleStop recording_session)) 0 =
       Some (mkWs CLOSING 0 [] [Some (1000, "Client stopped recording"%string)])
  /\ error (ui (step demo_platform (WsClose 0 (mkCloseEvent 1000 [] true))
                  (handleStop recording_session))) = None.
Proof.
  assert (H1 : isRecording (ui recording_session) = true) by reflexivity.
  assert (H2 : websocketRef recording_session = Some 0%nat) by reflexivity.
  assert (H3 : nth_error (sockets recording_session) 0 = Some (mkWs OPEN 0 [] []))
    by reflexivity.
  repeat (split; [assumption|]).
  destruct (close_handler_reports_unclean_closure demo_platform clean_server_error
              initialUI recording_session 0 (mkWs OPEN 0 [] []) [] H1 H2 H3 eq_refl)
    as (_ & _ & Hs & _ & He).
  split; [exact Hs | exact He].
Defined.

(** C3 on a relay that never answers. *)
Lemma fallback_witness :
  nth_error (tasks (run demo_platform record_clicked initialSession)) 0 = Some AwaitMedia
  /\ getWebSocketUrl demo_platform = Some (lit "ws://localhost:8000/ws/transcribe")
  /\ opens 0 never_connects = false
  /\ wakes 0 never_connects = 29%nat
  /\ error (ui (run demo_platform
                  (record_clicked ++ MediaSettled 0 true :: never_connects ++ [RetryTimer 0])
                  initialSession)) =
       Some (lit "Could not connect to transcription service. Using demo mode.")
  /\ (forall later,
        exists ws,
          nth_error
            (sockets (run demo_platform later
                        (run demo_platform
                           (MediaSettled 0 true :: never_connects ++ [RetryTimer 0])
                           (run demo_platform record_clicked initialSession)))) 0 = Some ws
          /\ sent ws = []).
Proof.
  assert (H1 : nth_error (tasks (run demo_platform record_clicked initialSession)) 0
               = Some AwaitMedia) by reflexivity.
  assert (H2 : getWebSocketUrl demo_platform = Some (lit "ws://localhost:8000/ws/transcribe"))
    by reflexivity.
  assert (H3 : opens 0 never_connects = false) by reflexivity.
  assert (H4 : wakes 0 never_connects = 29%nat) by reflexivity.
  repeat (split; [assumption|]).
  destruct (unreachable_relay_falls_back_to_simulation demo_platform record_clicked
              never_connects 0 _ H1 H2 eq_refl H3 H4)
    as (_ & _ & _ & _ & Herr & _ & _ & Hsent).
  split; [|exact Hsent].
  rewrite run_app. exact Herr.
Defined.

End Examples.

(* ================================================================== *)
(** * More on the encoder *)
(* ================================================================== *)

Section EncoderOrder.
Import Encoder.

Lemma toward_zero_monotone (p q : Q) : (p <= q)%Q -> toward_zero p <= toward_zero q.
Proof.
  intros H. unfold toward_zero.
  destruct (Qle_bool 0 p) eqn:Hp; destruct (Qle_bool 0 q) eqn:Hq.
  - apply Qfloor_resp_le, H.
  - apply Qle_bool_iff in Hp. apply Qle_bool_false in Hq.
    exfalso. apply (Qlt_irrefl 0). eapply Qle_lt_trans; [|exact Hq].
    eapply Qle_trans; eauto.
  - apply Qle_bool_false in Hp. apply Qle_bool_iff in Hq.
    apply Z.le_trans with 0.
    + rewrite <- (Qceiling_Z 0). apply Qceiling_resp_le, Qlt_le_weak, Hp.
    + rewrite <- (Qfloor_Z 0). apply Qfloor_resp_le, Hq.
  - apply Qceiling_resp_le, H.
Qed.

Lemma spec_scaled_monotone (p q : Q) : (p <= q)%Q -> (spec_scaled p <= spec_scaled q)%Q.
Proof.
  intros H. unfold spec_scaled.
  apply Qmult_le_compat_r; [|discriminate].
  apply Q.max_le_compat_l. apply Q.min_le_compat_l. exact H.
Qed.

(** X1: the per-sample encoder is monotone: a louder sample never encodes
    to a smaller integer, so clamping and truncation keep the order of
    the samples. *)
Theorem encoder_preserves_order (p q : Q) :
  (p <= q)%Q -> encodeSample (Finite p) <= encodeSample (Finite q).
Proof.
  intros H.
  rewrite (proj1 (encodeSample_finite p)), (proj1 (encodeSample_finite q)).
  apply toward_zero_monotone, spec_scaled_monotone, H.
Qed.

Lemma truncate_opp (q : Q) : truncate (- q) = - truncate q.
Proof.
  destruct q as [n d]. unfold truncate. cbn [Qopp Qnum Qden].
  apply Z.quot_opp_l. discriminate.
Qed.

Lemma spec_scaled_opp (q : Q) : (spec_scaled (- q) == - spec_scaled q)%Q.
Proof.
  unfold spec_scaled.
  assert (H : (Qmax (inject_Z (-1)) (Qmin (inject_Z 1) (- q)) ==
               - Qmax (inject_Z (-1)) (Qmin (inject_Z 1) q))%Q).
  { destruct (Qlt_le_dec q (inject_Z (-1))) as [H1 | H1].
    - (* q < -1 *)
      assert (Ha : (inject_Z 1 <= - q)%Q).
      { apply Qlt_le_weak in H1. apply Qopp_le_compat in H1. exact H1. }
      rewrite (Q.min_l _ _ Ha).
      assert (Hb : (q <= inject_Z 1)%Q).
      { eapply Qle_trans; [apply Qlt_le_weak, H1 | discriminate]. }
      rewrite (Q.min_r _ _ Hb).
      rewrite Q.max_r by discriminate.
      rewrite (Q.max_l _ _ (Qlt_le_weak _ _ H1)). reflexivity.
    - destruct (Qlt_le_dec (inject_Z 1) q) as [H2 | H2].
      + (* q > 1 *)
        rewrite (Q.min_l (inject_Z 1) q (Qlt_le_weak _ _ H2)).
        assert (Ha : (- q <= inject_Z 1)%Q).
        { apply Qopp_le_compat in H1. eapply Qle_trans; [exact H1 | apply Qle_refl]. }
        rewrite (Q.min_r _ _ Ha).
        assert (Hb : (- q <= inject_Z (-1))%Q).
        { apply Qlt_le_weak in H2. apply Qopp_le_compat in H2. exact H2. }
        rewrite (Q.max_l _ _ Hb). rewrite Q.max_r by discriminate. reflexivity.
      + (* -1 <= q <= 1 *)
        rewrite (Q.min_r _ _ H2). rewrite (Q.max_r _ _ H1).
        assert (Ha : (- q <= inject_Z 1)%Q).
        { apply Qopp_le_compat in H1. exact H1. }
        rewrite (Q.min_r _ _ Ha).
        assert (Hb : (inject_Z (-1) <= - q)%Q).
        { apply Qopp_le_compat in H2. exact H2. }
        rewrite (Q.max_r _ _ Hb). reflexivity. }
  rewrite H. ring.
Qed.

(** X2: the per-sample encoder is symmetric about zero: negating a
    sample negates its code (truncation is toward zero on both sides, and
    -32768 is never produced). *)
Theorem encoder_is_odd (q : Q) :
  encodeSample (Finite (- q)) = - encodeSample (Finite q).
Proof.
  rewrite (proj1 (encodeSample_finite (- q))), (proj1 (encodeSample_finite q)).
  rewrite (toward_zero_comp _ _ (spec_scaled_opp q)).
  rewrite <- !truncate_toward_zero. apply truncate_opp.
Qed.

Lemma encodeSample_range (x : number) : - 32767 <= encodeSample x <= 32767.
Proof.
  destruct x as [| [|] | q].
  - cbn. lia.
  - vm_compute. split; discriminate.
  - vm_compute. split; discriminate.
  - apply encodeSample_finite.
Qed.

(** X3: the encoded buffer has as many samples as the input buffer, and
    every one of them lies in [-32767, 32767], whatever the input holds
    (NaN and the infinities included). *)
Theorem encoded_frame_stays_in_range (inputData : list number) :
  List.length (encodeFrame inputData) = List.length inputData
  /\ Forall (fun z => - 32767 <= z <= 32767) (encodeFrame inputData).
Proof.
  split; [apply length_map|].
  unfold encodeFrame. apply Forall_map. apply Forall_forall. intros x _.
  apply encodeSample_range.
Qed.

End EncoderOrder.

(* ================================================================== *)
(** * The speaker helpers *)
(* ================================================================== *)

Section SpeakerFacts.
Import Js Dispatcher.

Lemma strip_prefix_app (p s : jsstring) : strip_prefix p (p ++ s) = Some s.
Proof.
  induction p as [|x p IH]; cbn; [reflexivity|].
  rewrite N.eqb_refl. exact IH.
Qed.

Lemma strip_prefix_sound (p s r : jsstring) : strip_prefix p s = Some r -> s = p ++ r.
Proof.
  revert s. induction p as [|x p IH]; intros s H; cbn in H.
  - injection H as ->. reflexivity.
  - destruct s as [|y s]; [discriminate|].
    destruct (N.eqb_spec x y) as [-> | Hne]; [|discriminate].
    cbn. f_equal. apply IH, H.
Qed.

Lemma span_app (f : N -> bool) (s : jsstring) : s = fst (span f s) ++ snd (span f s).
Proof.
  induction s as [|c s IH]; cbn; [reflexivity|].
  destruct (f c); [|reflexivity].
  destruct (span f s) as [a b]. cbn in *. f_equal. exact IH.
Qed.

Lemma span_all (f : N -> bool) (a b : jsstring) :
  Forall (fun c => f c = true) a ->
  match b with [] => True | c :: _ => f c = false end ->
  span f (a ++ b) = (a, b).
Proof.
  intros Ha Hb. induction Ha as [|c a Hc Ha IH]; cbn.
  - destruct b as [|c b]; [reflexivity|]. cbn. rewrite Hb. reflexivity.
  - rewrite Hc, IH. reflexivity.
Qed.

(** X4: round trip of the two speaker helpers: on a text made of the
    label [Speaker <digits>], a colon, white space and a remainder that
    does not start with white space, [extractSpeakerFromText] returns the
    label and [removeSpeakerPrefix] returns the remainder. *)
Theorem speaker_prefix_is_split_off (digits spaces rest : jsstring) :
  digits <> [] ->
  Forall (fun c => is_digit c = true) digits ->
  Forall (fun c => is_space c = true) spaces ->
  match rest with [] => True | c :: _ => is_space c = false end ->
  extractSpeakerFromText (lit "Speaker " ++ digits ++ lit ":" ++ spaces ++ rest) =
    Some (JStr (lit "Speaker " ++ digits))
  /\ removeSpeakerPrefix (lit "Speaker " ++ digits ++ lit ":" ++ spaces ++ rest) = rest.
Proof.
  intros Hne Hd Hs Hr.
  assert (Hm : match_speaker (lit "Speaker " ++ digits ++ lit ":" ++ spaces ++ rest) =
               Some (lit "Speaker " ++ digits, spaces ++ rest)).
  { unfold match_speaker. rewrite strip_prefix_app.
    rewrite (span_all is_digit digits (lit ":" ++ spaces ++ rest) Hd) by reflexivity.
    destruct digits as [|d ds]; [contradiction|]. reflexivity. }
  unfold extractSpeakerFromText, removeSpeakerPrefix. rewrite Hm.
  split; [reflexivity|].
  rewrite (span_all is_space spaces rest Hs Hr). reflexivity.
Qed.

Lemma match_speaker_sound (t g after : jsstring) :
  match_speaker t = Some (g, after) -> t = g ++ lit ":" ++ after.
Proof.
  unfold match_speaker. intros H.
  destruct (strip_prefix (lit "Speaker ") t) as [rest|] eqn:Hp; [|discriminate].
  apply strip_prefix_sound in Hp.
  pose proof (span_app is_digit rest) as Hs.
  destruct (span is_digit rest) as [[|d ds] [|c a]]; try discriminate.
  destruct (N.eqb_spec c 58) as [-> | Hc]; [|discriminate].
  injection H as <- <-. cbn [fst snd] in Hs.
  rewrite Hp, Hs. rewrite app_assoc. reflexivity.
Qed.

(** X5: [removeSpeakerPrefix] only ever removes a prefix; when
    [extractSpeakerFromText] finds no label the text is returned
    unchanged, and when it finds the label [g] the text starts with [g]
    and a colon and the result is strictly shorter. *)
Theorem speaker_helpers_only_cut_a_prefix (t : jsstring) :
  (exists p, t = p ++ removeSpeakerPrefix t)
  /\ (extractSpeakerFromText t = undefined -> removeSpeakerPrefix t = t)
  /\ (forall g, extractSpeakerFromText t = Some (JStr g) ->
        exists r, t = g ++ lit ":" ++ r
                  /\ (List.length (removeSpeakerPrefix t) < List.length t)%nat).
Proof.
  unfold extractSpeakerFromText, removeSpeakerPrefix.
  destruct (match_speaker t) as [[g after]|] eqn:Hm.
  - apply match_speaker_sound in Hm.
    pose proof (span_app is_space after) as Hs.
    split; [|split].
    + exists (g ++ lit ":" ++ fst (span is_space after)).
      rewrite Hm at 1. rewrite Hs at 1. rewrite <- !app_assoc. reflexivity.
    + discriminate.
    + intros g' [= <-]. exists after. split; [exact Hm|].
      pose proof (f_equal (@List.length N) Hs) as Hl. rewrite length_app in Hl.
      pose proof (f_equal (@List.length N) Hm) as Ht. rewrite !length_app in Ht.
      cbn [List.length lit map list_ascii_of_string] in Ht. lia.
  - split; [exists []; reflexivity|]. split; [reflexivity | discriminate].
Qed.

End SpeakerFacts.

(* ================================================================== *)
(** * More on the dispatcher: routing *)
(* ================================================================== *)

Section DispatcherRouting.
Import Js Dispatcher Invariants.

Variable parse : jsstring -> completion json.

Lemma onmessage_routed (clk : Clock) (data : jsstring) (d : json) (u : UI) :
  str_eqb data (lit "pong") = false ->
  parse data = Normal d ->
  d <> JNull ->
  onmessage_body parse clk data u =
    (if strict_eq_str (field d "type") (lit "transcript") then onTranscript clk (Some d)
     else if strict_eq_str (field d "type") (lit "analysis") then onAnalysis (Some d)
     else if strict_eq_str (field d "type") (lit "error") then onErrorMessage (Some d)
     else if strict_eq_str (field d "status") (lit "ready")
             || strict_eq_str (field d "type") (lit "status")
     then modify (print LLog "Transcription service status:")
     else if strict_eq_str (field d "event") (lit "transcription")
     then onLegacyText "Received transcription event:" clk (Some d)
     else if truthy (field d "text") then onLegacyText "Received text data:" clk (Some d)
     else ret tt)
      (print LLog "Received WebSocket message:" u).
Proof.
  intros Hpong Hparse Hd.
  unfold onmessage_body. rewrite Hpong.
  unfold bind at 1. unfold lift at 1. rewrite Hparse.
  unfold bind at 1. unfold modify at 1.
  unfold bind at 1. unfold lift at 1.
  rewrite (get_field d "type" Hd).
  destruct (strict_eq_str (field d "type") (lit "transcript")); [reflexivity|].
  destruct (strict_eq_str (field d "type") (lit "analysis")); [reflexivity|].
  destruct (strict_eq_str (field d "type") (lit "error")); [reflexivity|].
  unfold bind at 1. unfold lift at 1. rewrite (get_field d "status" Hd).
  destruct (strict_eq_str (field d "status") (lit "ready")
            || strict_eq_str (field d "type") (lit "status")); [reflexivity|].
  unfold bind at 1. unfold lift at 1. rewrite (get_field d "event" Hd).
  destruct (strict_eq_str (field d "event") (lit "transcription")); [reflexivity|].
  unfold bind at 1. unfold lift at 1. rewrite (get_field d "text" Hd).
  reflexivity.
Qed.

Lemma onLegacyText_cases (logmsg : string) (clk : Clock) (d : json) (u : UI) :
  d <> JNull ->
  onLegacyText logmsg clk (Some d) u =
    match field d "text" with
    | Some (JStr s) =>
        (Normal tt,
         setTranscript
           (fun prev =>
              prev ++ [mkLine (Date_now clk) (Some (JStr (removeSpeakerPrefix s)))
                         (or_else (field d "speaker") (extractSpeakerFromText s))
                         (new_Date clk)])
           (print LLog logmsg u))
    | _ =>
        if truthy (field d "speaker") then (Normal tt, failRender (print LLog logmsg u))
        else (Throw TypeError, print LLog logmsg u)
    end.
Proof.
  intros Hd. unfold onLegacyText.
  unfold bind at 1. unfold lift at 1. rewrite (get_field d "text" Hd).
  unfold bind at 1. unfold modify at 1.
  unfold bind at 1. unfold lift at 1. rewrite (get_field d "speaker" Hd).
  unfold or_else.
  destruct (truthy (field d "speaker")) eqn:Hs.
  - unfold bind, ret. destruct (field d "text") as [[| | | s | |]|]; reflexivity.
  - unfold bind, lift, ret, as_string.
    destruct (field d "text") as [[| | | s | |]|]; reflexivity.
Qed.

End DispatcherRouting.

(* ================================================================== *)
(** * More on the dispatcher: the other branches *)
(* ================================================================== *)

Section DispatcherBranches.
Import Js Dispatcher Invariants.

Variable parse : jsstring -> completion json.

Lemma onmessage_legacy (clk : Clock) (data : jsstring) (d : json) (u : UI) :
  str_eqb data (lit "pong") = false ->
  parse data = Normal d ->
  d <> JNull ->
  legacy_shape d ->
  exists logmsg,
    onmessage_body parse clk data u =
      onLegacyText logmsg clk (Some d) (print LLog "Received WebSocket message:" u).
Proof.
  intros Hpong Hparse Hd (H1 & H2 & H3 & H4 & H5 & H6).
  unfold has_type in *.
  rewrite (onmessage_routed parse clk data d u Hpong Hparse Hd).
  rewrite H1, H2, H3, H4, H5. cbn [orb].
  destruct (strict_eq_str (field d "event") (lit "transcription")) eqn:He.
  - eexists; reflexivity.
  - destruct H6 as [H6 | H6]; [discriminate|]. rewrite H6. eexists; reflexivity.
Qed.

(** X6: a legacy message ([event === "transcription"] or a bare [text])
    whose text is a string appends exactly one line: its text is the
    message text without the speaker prefix, its speaker is the speaker
    of the message if truthy and the label found in the text otherwise;
    analysis and error are untouched. *)
Theorem legacy_text_message_appends_cleaned_line
    (clk : Clock) (data : jsstring) (d : json) (txt : jsstring) (u : UI) :
  str_eqb data (lit "pong") = false ->
  parse data = Normal d ->
  legacy_shape d ->
  field d "text" = Some (JStr txt) ->
  let u' := onmessage parse clk data u in
  transcript u' =
    transcript u ++
      [mkLine (Date_now clk) (Some (JStr (removeSpeakerPrefix txt)))
         (or_else (field d "speaker") (extractSpeakerFromText txt)) (new_Date clk)]
  /\ analysis u' = analysis u /\ error u' = error u.
Proof.
  intros Hpong Hparse Hl Ht.
  assert (Hd : d <> JNull) by (intros ->; discriminate).
  destruct (onmessage_legacy clk data d u Hpong Hparse Hd Hl) as [logmsg E].
  cbv zeta. unfold onmessage, try_catch. rewrite E.
  rewrite (onLegacyText_cases logmsg clk d _ Hd), Ht.
  cbn. repeat split; reflexivity.
Qed.

(** X7: a legacy message without a truthy speaker whose text is not a
    string makes [extractSpeakerFromText] throw; the handler catches it:
    no line is appended, no state but the console changes, and the
    console ends with the handler's error line. *)
Theorem legacy_message_without_string_text_is_dropped
    (clk : Clock) (data : jsstring) (d : json) (u : UI) :
  str_eqb data (lit "pong") = false ->
  parse data = Normal d ->
  d <> JNull ->
  legacy_shape d ->
  (forall s, field d "text" <> Some (JStr s)) ->
  truthy (field d "speaker") = false ->
  let u' := onmessage parse clk data u in
  transcript u' = transcript u /\ analysis u' = analysis u /\ error u' = error u
  /\ renderFailed u' = renderFailed u
  /\ exists logmsg,
       console u' =
         console u ++ [(LLog, "Received WebSocket message:"%string); (LLog, logmsg);
                       (LError, "Error processing WebSocket message:"%string)].
Proof.
  intros Hpong Hparse Hd Hl Ht Hs.
  destruct (onmessage_legacy clk data d u Hpong Hparse Hd Hl) as [logmsg E].
  cbv zeta. unfold onmessage, try_catch. rewrite E.
  rewrite (onLegacyText_cases logmsg clk d _ Hd), Hs.
  assert (Hc : forall v, field d "text" = v ->
     match v with
     | Some (JStr s) =>
        (Normal tt,
         setTranscript
           (fun prev =>
              prev ++ [mkLine (Date_now clk) (Some (JStr (removeSpeakerPrefix s)))
                         (or_else (field d "speaker") (extractSpeakerFromText s))
                         (new_Date clk)])
           (print LLog logmsg (print LLog "Received WebSocket message:" u)))
     | _ => (Throw TypeError, print LLog logmsg (print LLog "Received WebSocket message:" u))
     end = (Throw TypeError, print LLog logmsg (print LLog "Received WebSocket message:" u))).
  { intros v Hv. destruct v as [[| | | s | |]|]; try reflexivity.
    exfalso. exact (Ht s Hv). }
  rewrite (Hc _ eq_refl). cbn.
  repeat split; try reflexivity.
  exists logmsg. rewrite <- !app_assoc. reflexivity.
Qed.

(** X8: an [error] message whose [message] converts to a string sets
    the error state to [Error: ] followed by that string: the text of a
    string message, [Error: undefined] when the field is missing.  A
    [message] that cannot be converted (an object with a property
    [toString] of its own) makes the template literal throw before
    [setError] is called: the error state stays as it was and the
    console ends with the handler's error line.  Transcript, analysis
    and the recording flag are unchanged in every case.  The numbers
    printed are the integers of magnitude below 2^53. *)
Theorem error_message_sets_banner
    (clk : Clock) (data : jsstring) (d : json) (u : UI) :
  str_eqb data (lit "pong") = false ->
  parse data = Normal d ->
  has_type d "error" = true ->
  (forall v, field d "message" = Some v -> printed_numbers_safe v = true) ->
  let u' := onmessage parse clk data u in
  match ToString (field d "message") with
  | Normal shown => error u' = Some (lit "Error: " ++ shown)
  | Throw _ =>
      error u' = error u
      /\ console u' =
           console u ++ [(LLog, "Received WebSocket message:"%string);
                         (LError, "Received error message:"%string);
                         (LError, "Error processing WebSocket message:"%string)]
  end
  /\ (field d "message" = undefined -> error u' = Some (lit "Error: undefined"))
  /\ (forall text, field d "message" = Some (JStr text) ->
        error u' = Some (lit "Error: " ++ text))
  /\ (forall props own, field d "message" = Some (JObj props) ->
        lookup (lit "toString") props = Some own -> error u' = error u)
  /\ transcript u' = transcript u /\ analysis u' = analysis u
  /\ isRecording u' = isRecording u.
Proof.
  intros Hpong Hparse Ht _. unfold has_type in Ht.
  assert (Hd : d <> JNull) by (intros ->; discriminate).
  assert (E : onmessage parse clk data u =
              match ToString (field d "message") with
              | Normal shown =>
                  setError (Some (lit "Error: " ++ shown))
                    (print LError "Received error message:"
                       (print LLog "Received WebSocket message:" u))
              | Throw _ =>
                  print LError "Error processing WebSocket message:"
                    (print LError "Received error message:"
                       (print LLog "Received WebSocket message:" u))
              end).
  { unfold onmessage, try_catch.
    rewrite (onmessage_routed parse clk data d u Hpong Hparse Hd).
    assert (H1 : strict_eq_str (field d "type") (lit "transcript") = false).
    { destruct (field d "type") as [[| | | s | |]|]; try reflexivity.
      cbn [strict_eq_str] in *. apply str_eqb_eq in Ht. subst s. reflexivity. }
    assert (H2 : strict_eq_str (field d "type") (lit "analysis") = false).
    { destruct (field d "type") as [[| | | s | |]|]; try reflexivity.
      cbn [strict_eq_str] in *. apply str_eqb_eq in Ht. subst s. reflexivity. }
    rewrite H1, H2, Ht.
    unfold onErrorMessage. unfold bind at 1. unfold lift at 1.
    rewrite (get_field d "message" Hd).
    unfold bind, modify, lift.
    destruct (ToString (field d "message")); reflexivity. }
  cbv zeta. rewrite E. clear E.
  destruct (ToString (field d "message")) as [shown | e] eqn:Hs.
  - split; [reflexivity|]. split; [| split; [| split]].
    + intros Hm. rewrite Hm in Hs. cbn in Hs. injection Hs as <-. reflexivity.
    + intros text Hm. rewrite Hm in Hs. cbn in Hs. injection Hs as <-. reflexivity.
    + intros props own Hm Ho. rewrite Hm in Hs.
      cbn [ToString ToString_json] in Hs. rewrite Ho in Hs. discriminate.
    + repeat split; reflexivity.
  - split; [split; [reflexivity | cbn; rewrite <- !app_assoc; reflexivity]|].
    split; [| split; [| split]].
    + intros Hm. rewrite Hm in Hs. discriminate.
    + intros text Hm. rewrite Hm in Hs. discriminate.
    + intros props own _ _. reflexivity.
    + repeat split; reflexivity.
Qed.

(** X9: a message that parses to anything but an object literal (null,
    a boolean, a number, a string, an array) changes nothing but the
    console. *)
Theorem message_without_properties_changes_nothing
    (clk : Clock) (data : jsstring) (d : json) (u : UI) :
  parse data = Normal d ->
  (forall props, d <> JObj props) ->
  let u' := onmessage parse clk data u in
  transcript u' = transcript u /\ analysis u' = analysis u /\ error u' = error u
  /\ isRecording u' = isRecording u /\ isProcessing u' = isProcessing u
  /\ renderFailed u' = renderFailed u.
Proof.
  intros Hparse Hno. cbv zeta. unfold onmessage, try_catch, onmessage_body.
  destruct (str_eqb data (lit "pong")).
  - cbn. repeat split; reflexivity.
  - unfold bind at 1. unfold lift at 1. rewrite Hparse.
    destruct d as [| b | n | s | items | props];
      try (cbn; repeat split; reflexivity).
    exfalso. exact (Hno props eq_refl).
Qed.

Lemma onLegacyText_gentle (logmsg : string) (clk : Clock) (d : json) (u v : UI) :
  d <> JNull ->
  handled_gently u v ->
  transcript v = transcript u ->
  handled_gently u
    (match onLegacyText logmsg clk (Some d) v with
     | (Normal _, u') => u'
     | (Throw _, u') => print LError "Error processing WebSocket message:" u'
     end).
Proof.
  intros Hd (_ & A & B & C & c & E) T.
  rewrite (onLegacyText_cases logmsg clk d v Hd).
  destruct (field d "text") as [[| | | s | |]|];
    try (destruct (truthy (field d "speaker")));
    unfold failRender, print, setTranscript; cbn; rewrite ?T, ?E, <- ?app_assoc;
    (repeat split; try assumption;
     [ first [ left; reflexivity | right; eexists; reflexivity ]
     | eexists; reflexivity ]).
Qed.

Lemma onmessage_gentle (clk : Clock) (data : jsstring) (u : UI) :
  handled_gently u (onmessage parse clk data u).
Proof.
  assert (G0 : forall l m v, handled_gently u v -> handled_gently u (print l m v)).
  { intros l m v (T & A & B & C & c & E). repeat split; try assumption.
    exists (c ++ [(l, m)]). cbn. rewrite E, app_assoc. reflexivity. }
  assert (Gu : handled_gently u u).
  { repeat split; try reflexivity. left; reflexivity. exists []. rewrite app_nil_r. reflexivity. }
  unfold onmessage, try_catch.
  destruct (str_eqb data (lit "pong")) eqn:Hpong.
  { unfold onmessage_body. rewrite Hpong. cbn. apply G0, Gu. }
  destruct (parse data) as [d | e] eqn:Hparse.
  2:{ unfold onmessage_body. rewrite Hpong. unfold bind at 1. unfold lift at 1.
      rewrite Hparse. apply G0, Gu. }
  assert (Hd : d = JNull \/ d <> JNull).
  { destruct d; [left; reflexivity | right; discriminate ..]. }
  destruct Hd as [-> | Hd].
  { unfold onmessage_body. rewrite Hpong. unfold bind at 1. unfold lift at 1.
    rewrite Hparse. cbn. apply G0, G0, Gu. }
  rewrite (onmessage_routed parse clk data d u Hpong Hparse Hd).
  set (v := print LLog "Received WebSocket message:" u).
  assert (Gv : handled_gently u v) by (apply G0, Gu).
  assert (Tv : transcript v = transcript u) by reflexivity.
  destruct (strict_eq_str (field d "type") (lit "transcript")).
  { unfold onTranscript. unfold bind at 1. unfold lift at 1.
    rewrite (get_field d "speaker" Hd).
    unfold bind at 1. unfold lift at 1. rewrite (get_field d "text" Hd).
    cbn. repeat split; try reflexivity.
    - right; eexists; reflexivity.
    - eexists; reflexivity. }
  destruct (strict_eq_str (field d "type") (lit "analysis")).
  { unfold onAnalysis. unfold bind at 1. unfold lift at 1.
    rewrite (get_field d "data" Hd).
    destruct (field d "data") as [[| b | n | s | items | props]|];
      try (destruct b); try (destruct s); try (destruct (n =? 0)%Z eqn:?);
      subst v; cbn; rewrite ?Heqb; unfold print, setAnalysis; cbn;
      (repeat split; try reflexivity;
       [ left; reflexivity | rewrite <- ?app_assoc; eexists; reflexivity ]). }
  destruct (strict_eq_str (field d "type") (lit "error")).
  { unfold onErrorMessage. unfold bind at 1. unfold lift at 1.
    rewrite (get_field d "message" Hd). subst v.
    unfold bind, modify, lift.
    destruct (ToString (field d "message")); unfold setError, print; cbn;
      (repeat split; try reflexivity;
       [ left; reflexivity | rewrite <- ?app_assoc; eexists; reflexivity ]). }
  destruct (strict_eq_str (field d "status") (lit "ready")
            || strict_eq_str (field d "type") (lit "status")).
  { cbn. apply G0, Gv. }
  destruct (strict_eq_str (field d "event") (lit "transcription")).
  { apply onLegacyText_gentle; assumption. }
  destruct (truthy (field d "text")).
  { apply onLegacyText_gentle; assumption. }
  exact Gv.
Qed.

(** X10: whatever the parser returns and whatever the messages are, the
    dispatcher only ever appends to the transcript, at most one line per
    message, and never touches the recording flag, the processing flag
    or the duration; the console only grows. *)
Theorem dispatcher_only_appends
    (msgs : list (Clock * jsstring)) (u : UI) :
  let u' := dispatchAll parse msgs u in
  (exists added,
     transcript u' = transcript u ++ added /\
     (List.length added <= List.length msgs)%nat)
  /\ isRecording u' = isRecording u /\ isProcessing u' = isProcessing u
  /\ recordingDuration u' = recordingDuration u
  /\ exists logged, console u' = console u ++ logged.
Proof.
  cbv zeta. revert u. induction msgs as [| [clk data] rest IH]; intros u.
  - cbn. repeat split; try reflexivity.
    + exists []. rewrite app_nil_r. split; [reflexivity | apply Nat.le_refl].
    + exists []. rewrite app_nil_r. reflexivity.
  - cbn [dispatchAll].
    destruct (onmessage_gentle clk data u) as (T & A & B & C & c & E).
    destruct (IH (onmessage parse clk data u))
      as ((added & Ta & La) & A' & B' & C' & c' & E').
    repeat split; try congruence.
    + destruct T as [T | [line T]].
      * exists added. rewrite Ta, T. split; [reflexivity | cbn; lia].
      * exists (line :: added). rewrite Ta, T, <- app_assoc. split; [reflexivity | cbn; lia].
    + exists (c ++ c'). rewrite E', E, app_assoc. reflexivity.
Qed.

End DispatcherBranches.

(* ================================================================== *)
(** * Starting, failing early, and the demonstration *)
(* ================================================================== *)

Section StartAndStop.
Import Js Dispatcher Transport Invariants.

Variable pf : Platform.

(** X11: [getWebSocketUrl] substitutes the protocol: [http://host]
    gives [ws://host/ws/transcribe] and [https://host] gives
    [wss://host/ws/transcribe]. *)
Theorem websocket_url_substitutes_protocol (secure : bool) (host : jsstring) :
  API_BASE_URL pf = Some (lit (if secure then "https://" else "http://") ++ host) ->
  getWebSocketUrl pf =
    Some (lit (if secure then "wss://" else "ws://") ++ host ++ lit "/ws/transcribe").
Proof.
  intros H. unfold getWebSocketUrl. rewrite H.
  destruct secure; reflexivity.
Qed.

Lemma strip_prefix_longer (p q t : jsstring) :
  strip_prefix p t = None -> strip_prefix (p ++ q) t = None.
Proof.
  revert t. induction p as [| x p IH]; intros t H; cbn in *.
  - discriminate.
  - destruct t as [| y t]; [reflexivity|].
    destruct (x =? y)%N; [apply IH, H | reflexivity].
Qed.

(** X12: a base URL that does not start with [http] is kept whole and
    gets the [ws] protocol. *)
Theorem websocket_url_without_scheme (base : jsstring) :
  API_BASE_URL pf = Some base ->
  base <> [] ->
  starts_with (lit "http") base = false ->
  getWebSocketUrl pf = Some (lit "ws://" ++ base ++ lit "/ws/transcribe").
Proof.
  intros H Hne Hs. unfold getWebSocketUrl. rewrite H.
  destruct base as [| c0 base]; [contradiction|].
  unfold starts_with in *.
  assert (P : forall q, strip_prefix (lit "http" ++ q) (c0 :: base) = None).
  { intros q. apply strip_prefix_longer.
    destruct (strip_prefix (lit "http") (c0 :: base)); [discriminate | reflexivity]. }
  change (lit "https") with (lit "http" ++ lit "s").
  change (lit "https://") with (lit "http" ++ lit "s://").
  change (lit "http://") with (lit "http" ++ lit "://").
  rewrite !P. reflexivity.
Qed.

(** X13: when [handleRecord] fails before its wait loop (microphone
    refused, base URL not configured, or the WebSocket constructor
    throwing), the catch block overwrites any error with the microphone
    message, the recording flag is false, no socket is created, nothing
    is scheduled, and a stream that was granted is left running. *)
Theorem early_failure_reports_microphone_error (t : nat) (granted : bool) (s : Session) :
  nth_error (tasks s) t = Some AwaitMedia ->
  granted = false
  \/ getWebSocketUrl pf = None
  \/ (exists url, getWebSocketUrl pf = Some url /\ url_accepted pf url = false) ->
  let s' := handleRecord_media pf t granted s in
  error (ui s') = Some (lit "Could not access microphone or connect to transcription service. Please check permissions.")
  /\ isRecording (ui s') = false
  /\ nth_error (tasks s') t = Some Finished
  /\ List.length (sockets s') = List.length (sockets s)
  /\ websocketRef s' = websocketRef s
  /\ scheduled s' = scheduled s
  /\ simulations s' = simulations s
  /\ processors s' = processors s
  /\ (granted = true -> streams s' = streams s ++ [true]).
Proof.
  intros Ht Hwhy. cbv zeta. unfold handleRecord_media. rewrite Ht.
  assert (Hf : forall x, tasks x = tasks s ->
             nth_error (tasks (record_failed t x)) t = Some Finished).
  { intros x Hx. unfold record_failed, finish. cbn. rewrite Hx, nth_error_alter, Nat.eqb_refl, Ht.
    reflexivity. }
  destruct granted.
  - destruct Hwhy as [Hg | [Hu | (url & Hu & Ha)]]; [discriminate | |].
    + unfold setupWebSocket. rewrite Hu.
      destruct (close_existing_frame (with_streams (fun l => l ++ [true]) s))
        as (_ & Hst & Hp & Hta & Hsc & Hsi).
      repeat split; try reflexivity.
      * apply Hf. cbn. exact Hta.
      * cbn. rewrite close_existing_length. reflexivity.
      * cbn. unfold close_existing. cbn. destruct (websocketRef s) eqn:E; cbn; congruence.
      * cbn. exact Hsc.
      * cbn. exact Hsi.
      * cbn. exact Hp.
      * intros _. cbn. exact Hst.
    + unfold setupWebSocket. rewrite Hu, Ha.
      destruct (close_existing_frame (with_streams (fun l => l ++ [true]) s))
        as (_ & Hst & Hp & Hta & Hsc & Hsi).
      repeat split; try reflexivity.
      * apply Hf. cbn. exact Hta.
      * cbn. rewrite close_existing_length. reflexivity.
      * cbn. unfold close_existing. cbn. destruct (websocketRef s) eqn:E; cbn; congruence.
      * cbn. exact Hsc.
      * cbn. exact Hsi.
      * cbn. exact Hp.
      * intros _. cbn. exact Hst.
  - repeat split; try reflexivity.
    + apply Hf. reflexivity.
    + intros; discriminate.
Qed.




End StartAndStop.

(* ================================================================== *)
(** * One live connection *)
(* ================================================================== *)

Section SocketInvariant.
Import Js Dispatcher Transport Invariants.

Variable pf : Platform.

Lemma poll_frame (t st w r : nat) (s : Session) :
  websocketRef (poll pf t st w r s) = websocketRef s
  /\ sockets (poll pf t st w r s) = sockets s.
Proof.
  unfold poll, fallback, start_streaming, setupAudioProcessing, record_failed, finish.
  destruct (negb (socket_is_open s w) && (0 <? r)%nat); [split; reflexivity|].
  destruct (negb (socket_is_open s w)); [split; reflexivity|].
  destruct (audio_ok pf); [destruct (recorder_ok pf)|]; split; reflexivity.
Qed.

Lemma handleStop_ref (s : Session) :
  websocketRef (handleStop s) = websocketRef s
  /\ List.length (sockets (handleStop s)) = List.length (sockets s).
Proof.
  unfold handleStop. destruct (isRecording (ui s)); [| split; reflexivity].
  cbn.
  destruct (mediaRecorderRef s) as [r|]; [destruct (active r)|]; cbn;
    (destruct (websocketRef s) as [w|] eqn:Hw; cbn;
     [ match goal with |- context [socket_is_open ?x w] => destruct (socket_is_open x w) end; cbn |];
     (destruct (processorNodeRef s); cbn; rewrite ?alter_length; split; congruence)).
Qed.

Lemma step_ref_cases (e : Event) (s : Session) :
  (websocketRef (step pf e s) = websocketRef s
   /\ List.length (sockets (step pf e s)) = List.length (sockets s))
  \/ (websocketRef (step pf e s) = Some (List.length (sockets s))
      /\ sockets (step pf e s) = sockets (close_existing s) ++ [newWebSocket]).
Proof.
  destruct e as [md | t g | t | w | w clk data | w | w ev | w n | p input | k clk | |];
    cbn [step].
  - left. unfold handleRecord. destruct md; split; reflexivity.
  - unfold handleRecord_media.
    destruct (nth_error (tasks s) t) as [[| ? ? ? |]|]; try (left; split; reflexivity).
    destruct g.
    + unfold setupWebSocket.
      destruct (getWebSocketUrl pf) as [url|].
      * destruct (url_accepted pf url).
        -- right.
           match goal with |- context [poll pf ?a ?b ?c ?d ?x] =>
             destruct (poll_frame a b c d x) as [-> ->] end.
           cbn. rewrite close_existing_length. split; [reflexivity|].
           unfold close_existing. cbn. destruct (websocketRef s); reflexivity.
        -- left. cbn. rewrite close_existing_length. split; [| reflexivity].
           unfold close_existing. cbn. destruct (websocketRef s) eqn:E; cbn; congruence.
      * left. cbn. rewrite close_existing_length. split; [| reflexivity].
        unfold close_existing. cbn. destruct (websocketRef s) eqn:E; cbn; congruence.
    + left. split; reflexivity.
  - left. unfold handleRecord_wake.
    destruct (nth_error (tasks s) t) as [[| st w r |]|]; try (split; reflexivity).
    destruct (poll_frame t st w (pred r) s) as [-> ->]. split; reflexivity.
  - left. destruct (socket_state s w) as [[| | |]|]; cbn; rewrite ?alter_length; split; reflexivity.
  - left. destruct (socket_state s w) as [[| | |]|]; cbn; split; reflexivity.
  - left. destruct (socket_state s w) as [[| | |]|]; cbn; split; reflexivity.
  - left. destruct (socket_state s w) as [[| | |]|]; cbn; rewrite ?alter_length; split; reflexivity.
  - left. cbn. rewrite alter_length. split; reflexivity.
  - left. destruct (nth_error (processors s) p) as [pr|]; [| split; reflexivity].
    destruct (connected pr); [| split; reflexivity].
    destruct (nth_error (sockets s) (socket pr)) as [ws|]; [| split; reflexivity].
    destruct (onaudioprocess (recording pr) ws input (ui s)) as [ws' u'].
    cbn. rewrite alter_length. split; reflexivity.
  - left. destruct (simulation_tick_frame k clk s) as (_ & Hs & _).
    rewrite Hs. split; [| reflexivity].
    unfold simulation_tick.
    destruct (nth_error (simulations s) k) as [sim|]; [| reflexivity].
    destruct (running sim); [| reflexivity].
    destruct (index sim <? List.length mockConversation)%nat; [| reflexivity].
    destruct (nth_error mockConversation (S (index sim))); reflexivity.
  - left. apply handleStop_ref.
  - left. split; reflexivity.
Qed.

Lemma step_socket_forward (e : Event) (s : Session) (w : nat) (ws : WebSocket) :
  nth_error (sockets s) w = Some ws ->
  exists ws',
    nth_error (sockets (step pf e s)) w = Some ws'
    /\ state_code (readyState ws) <= state_code (readyState ws').
Proof.
  intros Hw.
  assert (Hopen : forall w0, e = WsOpen w0 ->
            exists ws', nth_error (sockets (step pf e s)) w = Some ws'
                        /\ state_code (readyState ws) <= state_code (readyState ws')).
  { intros w0 ->. cbn [step]. unfold socket_state.
    destruct (nth_error (sockets s) w0) as [ws0|] eqn:H0; cbn [option_map].
    - destruct (readyState ws0) eqn:Hr; try (exists ws; split; [exact Hw | lia]).
      cbn. rewrite nth_error_alter.
      destruct (Nat.eqb_spec w0 w) as [-> | Hne].
      + rewrite Hw. cbn. eexists; split; [reflexivity|]. cbn.
        assert (ws0 = ws) by congruence. subst ws0. rewrite Hr. cbn. lia.
      + exists ws. split; [exact Hw | lia].
    - exists ws. split; [exact Hw | lia]. }
  destruct (step_socket pf e s w ws Hw) as (ws' & Hn & Hc).
  destruct Hc as [-> | [(a & ->) | [(He & _) | [-> | [(n & ->) | (p & pr & input & He & Hp & Hs & ->)]]]]].
  - exists ws. split; [exact Hn | lia].
  - eexists; split; [exact Hn|]. cbn. destruct (readyState ws); cbn; lia.
  - apply (Hopen w He).
  - eexists; split; [exact Hn|]. cbn. destruct (readyState ws); cbn; lia.
  - eexists; split; [exact Hn|]. cbn. lia.
  - eexists; split; [exact Hn|]. unfold onaudioprocess.
    destruct (recording pr && is_open (readyState ws)); [| cbn; lia].
    destruct (bufferedAmount ws <? recorderBufferSize * 2); cbn; lia.
Qed.

Lemma superseded_closed_step (e : Event) (s : Session) :
  superseded_closed s -> superseded_closed (step pf e s).
Proof.
  intros Inv w ws' Hw' Hne.
  assert (Hcode : forall r, 2 <= state_code r -> r = CLOSING \/ r = CLOSED).
  { intros [| | |]; cbn; intros; try lia; auto. }
  destruct (step_ref_cases e s) as [[Hr Hl] | [Hr Hs]].
  - assert (Hlt : (w < List.length (sockets s))%nat).
    { rewrite <- Hl. apply nth_error_Some. congruence. }
    destruct (nth_error (sockets s) w) as [ws|] eqn:Hw.
    2:{ apply nth_error_None in Hw. lia. }
    destruct (step_socket_forward e s w ws Hw) as (ws2 & H2 & Hle).
    assert (ws2 = ws') by congruence. subst ws2.
    rewrite Hr in Hne. destruct (Inv w ws Hw Hne) as [Hc | Hc];
      apply Hcode; rewrite Hc in Hle; cbn in Hle; lia.
  - rewrite Hs in Hw'. rewrite Hr in Hne.
    rewrite nth_error_snoc in Hw'. rewrite close_existing_length in Hw'.
    destruct (Nat.ltb_spec w (List.length (sockets s))) as [Hlt | Hge].
    + unfold close_existing in Hw'.
      destruct (websocketRef s) as [w0|] eqn:Href.
      * cbn in Hw'. rewrite nth_error_alter in Hw'.
        destruct (Nat.eqb_spec w0 w) as [-> | Hd].
        -- destruct (nth_error (sockets s) w) as [ws|]; [| discriminate].
           cbn in Hw'. injection Hw' as <-. cbn.
           destruct (readyState ws); auto.
        -- apply (Inv w ws' Hw'). congruence.
      * apply (Inv w ws' Hw'). congruence.
    + destruct (Nat.eqb_spec w (List.length (sockets s))) as [-> | Hd]; [| discriminate].
      exfalso. apply Hne. reflexivity.
Qed.

(** X16: in every reachable state, every socket other than the one
    [websocketRef] names is closing or closed: starting again never
    leaves an earlier connection live. *)
Theorem superseded_sockets_are_closed (events : list Event) (w : nat) (ws : WebSocket) :
  let s := run pf events initialSession in
  nth_error (sockets s) w = Some ws ->
  websocketRef s <> Some w ->
  readyState ws = CLOSING \/ readyState ws = CLOSED.
Proof.
  cbv zeta.
  assert (H : forall evs s, superseded_closed s -> superseded_closed (run pf evs s)).
  { induction evs as [| e evs IH]; intros s Hs; [exact Hs|].
    cbn [run]. apply IH, superseded_closed_step, Hs. }
  apply (H events initialSession).
  intros w0 ws0 Hn. destruct w0; discriminate.
Qed.

End SocketInvariant.

(* ================================================================== *)
(** * The retry budget *)
(* ================================================================== *)

Section RetryBudget.
Import Js Dispatcher Transport Invariants.

Variable pf : Platform.

Lemma step_budget_cases (e : Event) (s : Session) :
  ((tasks (step pf e s) = tasks s \/ tasks (step pf e s) = tasks s ++ [AwaitMedia])
   /\ forall t, sleeps t (scheduled (step pf e s)) = sleeps t (scheduled s))
  \/ (exists t, nth_error (tasks s) t = Some AwaitMedia
        /\ tasks (step pf e s) = alter (fun _ => Finished) t (tasks s)
        /\ scheduled (step pf e s) = scheduled s)
  \/ (exists t st w, nth_error (tasks s) t = Some AwaitMedia
        /\ tasks (step pf e s) = alter (fun _ => AwaitOpen st w MAX_RETRIES) t (tasks s)
        /\ scheduled (step pf e s) = scheduled s ++ [(SleepOf t, RETRY_DELAY_MS)])
  \/ (exists t st w r, nth_error (tasks s) t = Some (AwaitOpen st w r)
        /\ (0 < pred r)%nat
        /\ tasks (step pf e s) = alter (fun _ => AwaitOpen st w (pred r)) t (tasks s)
        /\ scheduled (step pf e s) = scheduled s ++ [(SleepOf t, RETRY_DELAY_MS)])
  \/ (exists t st w r, nth_error (tasks s) t = Some (AwaitOpen st w r)
        /\ tasks (step pf e s) = alter (fun _ => Finished) t (tasks s)
        /\ forall t', sleeps t' (scheduled (step pf e s)) = sleeps t' (scheduled s)).
Proof.
  destruct e as [md | t g | t | w | w clk data | w | w ev | w n | p input | k clk | |];
    cbn [step].
  - left. unfold handleRecord. destruct md; cbn; split; auto.
  - destruct (handleRecord_media_cases pf t g s)
      as [-> | [(Ht & Hta & _ & Hsc & _) | (Ht & Hta & _ & Hsc & _)]].
    + left. split; auto.
    + right. left. exists t. auto.
    + right. right. left. eexists t, _, _. eauto.
  - destruct (handleRecord_wake_cases pf t s)
      as [-> | (st & w & r & Ht & [(Ho & Hr & ->) | [(Ho & Hr & ->) | (Ho & ->)]])].
    + left. split; auto.
    + right. right. right. left. exists t, st, w, r. repeat split; auto.
    + right. right. right. right. exists t, st, w, r.
      destruct (fallback_frame t st s) as (Hta & _ & _ & Hsc & _).
      repeat split; auto.
      intros t'. rewrite Hsc, sleeps_app. cbn. lia.
    + right. right. right. right. exists t, st, w, r.
      destruct (start_streaming_frame pf t st w s) as (Hta & _ & _ & Hsc & _).
      repeat split; auto. intros t'. rewrite Hsc. reflexivity.
  - left. destruct (socket_state s w) as [[| | |]|]; cbn; split; auto.
  - left. destruct (socket_state s w) as [[| | |]|]; cbn; split; auto.
  - left. destruct (socket_state s w) as [[| | |]|]; cbn; split; auto.
  - left. destruct (socket_state s w) as [[| | |]|]; cbn; split; auto.
  - left. cbn. split; auto.
  - left. destruct (nth_error (processors s) p) as [pr|]; [| split; auto].
    destruct (connected pr); [| split; auto].
    destruct (nth_error (sockets s) (socket pr)) as [ws|]; [| split; auto].
    destruct (onaudioprocess (recording pr) ws input (ui s)) as [ws' u'].
    cbn. split; auto.
  - left. destruct (simulation_tick_frame k clk s) as (Hta & _ & _ & _ & Hsc).
    rewrite Hta, Hsc. split; auto.
  - left. destruct (handleStop_frame s) as (Hta & _ & _ & _ & Hsl).
    rewrite Hta. split; auto.
  - left. cbn. split; auto.
Qed.

Lemma sleeps_snoc (t t' : nat) (l : list (Timer * Z)) :
  sleeps t' (l ++ [(SleepOf t, RETRY_DELAY_MS)]) =
    (sleeps t' l + if (t =? t')%nat then 1 else 0)%nat.
Proof.
  rewrite sleeps_app. cbn. destruct (t =? t')%nat; cbn; lia.
Qed.

Lemma budget_ok_step (e : Event) (s : Session) :
  budget_ok s -> budget_ok (step pf e s).
Proof.
  intros Inv t'. specialize (Inv t') as It.
  destruct (step_budget_cases e s)
    as [[[Hta | Hta] Hsl] | [(t & Ht & Hta & Hsc) | [(t & st & w & Ht & Hta & Hsc)
        | [(t & st & w & r & Ht & Hr & Hta & Hsc) | (t & st & w & r & Ht & Hta & Hsl)]]]].
  - rewrite Hta, Hsl. exact It.
  - rewrite Hta, Hsl, nth_error_snoc.
    destruct (Nat.ltb_spec t' (List.length (tasks s))) as [Hlt | Hge]; [exact It|].
    assert (Hn : nth_error (tasks s) t' = None) by (apply nth_error_None; lia).
    rewrite Hn in It.
    destruct (t' =? List.length (tasks s))%nat; exact It.
  - rewrite Hta, Hsc, nth_error_alter.
    destruct (Nat.eqb_spec t t') as [-> | Hne]; [| exact It].
    rewrite Ht in It |- *. cbn. rewrite It. unfold MAX_RETRIES. lia.
  - rewrite Hta, Hsc, nth_error_alter, sleeps_snoc.
    destruct (Nat.eqb_spec t t') as [-> | Hne].
    + rewrite Ht in It |- *. cbn. rewrite It. unfold MAX_RETRIES. lia.
    + rewrite Nat.add_0_r. exact It.
  - rewrite Hta, Hsc, nth_error_alter, sleeps_snoc.
    destruct (Nat.eqb_spec t t') as [-> | Hne].
    + rewrite Ht in It |- *. cbn. lia.
    + rewrite Nat.add_0_r. exact It.
  - rewrite Hta, Hsl, nth_error_alter.
    destruct (Nat.eqb_spec t t') as [-> | Hne]; [| exact It].
    rewrite Ht in It |- *. cbn. lia.
Qed.

Lemma budget_ok_run (events : list Event) (s : Session) :
  budget_ok s -> budget_ok (run pf events s).
Proof.
  revert s. induction events as [| e events IH]; intros s Hs; [exact Hs|].
  cbn [run]. apply IH, budget_ok_step, Hs.
Qed.

(** X17: in every reachable state no invocation of [handleRecord] has
    requested more than [MAX_RETRIES] sleeps, and while it waits the
    sleeps requested and the retries left add up to [MAX_RETRIES + 1]. *)
Theorem wait_loop_never_exceeds_retry_budget (events : list Event) (t : nat) :
  let s := run pf events initialSession in
  (sleeps t (scheduled s) <= MAX_RETRIES)%nat
  /\ (forall st w r, nth_error (tasks s) t = Some (AwaitOpen st w r) ->
        (1 <= r)%nat /\ (sleeps t (scheduled s) + r = S MAX_RETRIES)%nat).
Proof.
  cbv zeta.
  assert (H : budget_ok (run pf events initialSession)).
  { apply budget_ok_run. intros t0. destruct t0; reflexivity. }
  specialize (H t). split.
  - destruct (nth_error (tasks (run pf events initialSession)) t) as [[| st w r |]|]; lia.
  - intros st w r Ht. rewrite Ht in H. exact H.
Qed.

End RetryBudget.

(* ================================================================== *)
(** * Every run: transcript, frames, streaming *)
(* ================================================================== *)

Section RunFacts.
Import Js Dispatcher Transport Invariants.

Variable pf : Platform.

Lemma poll_transcript (t st w r : nat) (s : Session) :
  transcript (ui (poll pf t st w r s)) = transcript (ui s).
Proof.
  unfold poll, fallback, start_streaming, setupAudioProcessing, record_failed, finish.
  destruct (negb (socket_is_open s w) && (0 <? r)%nat); [reflexivity|].
  destruct (negb (socket_is_open s w)); [reflexivity|].
  destruct (audio_ok pf); [destruct (recorder_ok pf)|]; reflexivity.
Qed.

Lemma handleStop_transcript (s : Session) :
  transcript (ui (handleStop s)) = transcript (ui s).
Proof.
  unfold handleStop. destruct (isRecording (ui s)); [| reflexivity].
  cbn.
  destruct (mediaRecorderRef s) as [r|]; [destruct (active r)|]; cbn;
    (destruct (websocketRef s) as [w|]; cbn;
     [ match goal with |- context [socket_is_open ?x w] => destruct (socket_is_open x w) end; cbn |];
     (destruct (processorNodeRef s); reflexivity)).
Qed.

Lemma step_transcript (e : Event) (s : Session) :
  transcript (ui (step pf e s)) = transcript (ui s)
  \/ exists line, transcript (ui (step pf e s)) = transcript (ui s) ++ [line].
Proof.
  destruct e as [md | t g | t | w | w clk data | w | w ev | w n | p input | k clk | |];
    cbn [step].
  - left. unfold handleRecord. destruct md; reflexivity.
  - left. unfold handleRecord_media.
    destruct (nth_error (tasks s) t) as [[| ? ? ? |]|]; try reflexivity.
    destruct g; [| reflexivity].
    unfold setupWebSocket.
    destruct (getWebSocketUrl pf) as [url|].
    + destruct (url_accepted pf url).
      * rewrite poll_transcript. cbn.
        destruct (close_existing_frame (with_streams (fun l => l ++ [true]) s)) as (-> & _).
        reflexivity.
      * cbn. destruct (close_existing_frame (with_streams (fun l => l ++ [true]) s)) as (-> & _).
        reflexivity.
    + cbn. destruct (close_existing_frame (with_streams (fun l => l ++ [true]) s)) as (-> & _).
      reflexivity.
  - left. unfold handleRecord_wake.
    destruct (nth_error (tasks s) t) as [[| st w r |]|]; try reflexivity.
    apply poll_transcript.
  - left. destruct (socket_state s w) as [[| | |]|]; reflexivity.
  - assert (G : transcript (onmessage (JSON_parse pf) clk data (ui s)) = transcript (ui s)
                \/ exists line, transcript (onmessage (JSON_parse pf) clk data (ui s)) =
                                  transcript (ui s) ++ [line]).
    { apply (onmessage_gentle (JSON_parse pf) clk data (ui s)). }
    destruct (socket_state s w) as [[| | |]|]; cbn; auto.
  - left. destruct (socket_state s w) as [[| | |]|]; reflexivity.
  - left. destruct (socket_state s w) as [[| | |]|]; cbn; try reflexivity;
      unfold onclose; destruct (negb (wasClean ev)); reflexivity.
  - left. reflexivity.
  - left. destruct (nth_error (processors s) p) as [pr|]; [| reflexivity].
    destruct (connected pr); [| reflexivity].
    destruct (nth_error (sockets s) (socket pr)) as [ws|]; [| reflexivity].
    unfold onaudioprocess.
    destruct (recording pr && is_open (readyState ws)); [| reflexivity].
    destruct (bufferedAmount ws <? recorderBufferSize * 2); reflexivity.
  - unfold simulation_tick.
    destruct (nth_error (simulations s) k) as [sim|]; [| left; reflexivity].
    destruct (running sim); [| left; reflexivity].
    destruct (index sim <? List.length mockConversation)%nat; [| left; reflexivity].
    destruct (nth_error mockConversation (S (index sim))) as [entry|].
    + right. eexists. reflexivity.
    + left. reflexivity.
  - left. apply handleStop_transcript.
  - left. reflexivity.
Qed.

(** X18: no event ever removes or rewrites a line of the transcript:
    after any run the transcript is the earlier one followed by at most
    one new line per event. *)
Theorem transcript_is_append_only (events : list Event) (s : Session) :
  exists added,
    transcript (ui (run pf events s)) = transcript (ui s) ++ added
    /\ (List.length added <= List.length events)%nat.
Proof.
  revert s. induction events as [| e events IH]; intros s.
  - exists []. cbn. rewrite app_nil_r. split; [reflexivity | lia].
  - cbn [run]. destruct (IH (step pf e s)) as (added & Ha & Hl).
    destruct (step_transcript e s) as [Ht | [line Ht]].
    + exists added. rewrite Ha, Ht. split; [reflexivity | cbn; lia].
    + exists (line :: added). rewrite Ha, Ht, <- app_assoc.
      split; [reflexivity | cbn; lia].
Qed.

(** X19: every sample of every frame handed to any socket in any run
    lies in [-32767, 32767]. *)
Theorem every_sent_sample_is_in_range
    (events : list Event) (w : nat) (ws : WebSocket) (frame : list Z) (z : Z) :
  nth_error (sockets (run pf events initialSession)) w = Some ws ->
  In frame (sent ws) ->
  In z frame ->
  - 32767 <= z <= 32767.
Proof.
  set (P := fun ws : WebSocket =>
              Forall (Forall (fun z => - 32767 <= z <= 32767)) (sent ws)).
  assert (Hstep : forall e s, Forall P (sockets s) -> Forall P (sockets (step pf e s))).
  { intros e s. apply step_sockets_Forall.
    - constructor.
    - intros a x Hx. exact Hx.
    - intros r x Hx. exact Hx.
    - intros n x Hx. exact Hx.
    - intros p input _ r x u Hx. unfold onaudioprocess.
      destruct (r && is_open (readyState x)); [| exact Hx].
      destruct (bufferedAmount x <? recorderBufferSize * 2); [| exact Hx].
      unfold P. cbn. apply Forall_app. split; [exact Hx|].
      constructor; [| constructor].
      unfold Encoder.encodeFrame. apply Forall_map, Forall_forall.
      intros v _. apply encodeSample_range. }
  assert (Hrun : forall evs s, Forall P (sockets s) -> Forall P (sockets (run pf evs s))).
  { induction evs as [| e evs IH]; intros s Hs; [exact Hs|].
    cbn [run]. apply IH, Hstep, Hs. }
  intros Hw Hf Hz.
  pose proof (Hrun events initialSession (Forall_nil _)) as H.
  rewrite Forall_forall in H. specialize (H ws (nth_error_In _ _ Hw)).
  unfold P in H. rewrite Forall_forall in H. specialize (H frame Hf).
  rewrite Forall_forall in H. exact (H z Hz).
Qed.

(** X20: when a sleep ends and the socket is open, [handleRecord]
    installs one audio callback bound to that socket, records the
    [MediaRecorder], sets the recording flag, and starts no
    demonstration; the next audio buffer below the threshold is sent on
    that socket, encoded. *)
Theorem open_socket_starts_streaming
    (t st w r : nat) (s : Session) (ws : WebSocket) (inputData : list Encoder.number) :
  nth_error (tasks s) t = Some (AwaitOpen st w r) ->
  nth_error (sockets s) w = Some ws ->
  readyState ws = OPEN ->
  audio_ok pf = true ->
  recorder_ok pf = true ->
  let s1 := step pf (RetryTimer t) s in
  let p := List.length (processors s) in
  isRecording (ui s1) = true
  /\ nth_error (tasks s1) t = Some Finished
  /\ processors s1 = processors s ++ [mkProcessor w true true]
  /\ processorNodeRef s1 = Some p
  /\ mediaRecorderRef s1 = Some (mkRecorder st true)
  /\ simulations s1 = simulations s
  /\ streams s1 = streams s
  /\ sockets s1 = sockets s
  /\ scheduled s1 = scheduled s
  /\ (bufferedAmount ws < recorderBufferSize * 2 ->
      nth_error (sockets (step pf (AudioProcess p inputData) s1)) w =
        Some (ws_send (Encoder.encodeFrame inputData) ws)).
Proof.
  intros Ht Hw Hr Ha Hm. cbv zeta. cbn [step].
  unfold handleRecord_wake. rewrite Ht.
  assert (Ho : socket_is_open s w = true).
  { unfold socket_is_open. rewrite Hw, Hr. reflexivity. }
  rewrite (poll_open pf t st w (pred r) s Ho).
  unfold start_streaming, setupAudioProcessing. rewrite Ha, Hm.
  unfold finish. cbn.
  repeat split.
  - rewrite nth_error_alter, Nat.eqb_refl, Ht. reflexivity.
  - intros Hb. rewrite nth_error_snoc, Nat.ltb_irrefl, Nat.eqb_refl.
    cbn. rewrite Hw. unfold onaudioprocess. rewrite Hr. cbn.
    apply Z.ltb_lt in Hb. rewrite Hb. cbn.
    rewrite nth_error_alter, Nat.eqb_refl, Hw. reflexivity.
Qed.

(** X21: if the [MediaRecorder] cannot be created once the audio graph
    is set up, the recording flag is false and the microphone error is
    shown, but socket and stream are left as they are and the audio
    callback stays installed: [handleStop] then does nothing, and the
    next audio buffer is still sent. *)
Theorem recorder_failure_leaves_audio_streaming
    (t st w r : nat) (s : Session) (ws : WebSocket) (inputData : list Encoder.number) :
  nth_error (tasks s) t = Some (AwaitOpen st w r) ->
  nth_error (sockets s) w = Some ws ->
  readyState ws = OPEN ->
  bufferedAmount ws < recorderBufferSize * 2 ->
  audio_ok pf = true ->
  recorder_ok pf = false ->
  let s1 := step pf (RetryTimer t) s in
  let s2 := step pf StopClicked s1 in
  isRecording (ui s1) = false
  /\ error (ui s1) =
       Some (lit "Could not access microphone or connect to transcription service. Please check permissions.")
  /\ sockets s1 = sockets s
  /\ streams s1 = streams s
  /\ s2 = s1
  /\ nth_error (sockets (step pf (AudioProcess (List.length (processors s)) inputData) s2)) w =
       Some (ws_send (Encoder.encodeFrame inputData) ws).
Proof.
  intros Ht Hw Hr Hb Ha Hm. cbv zeta. cbn [step].
  unfold handleRecord_wake. rewrite Ht.
  assert (Ho : socket_is_open s w = true).
  { unfold socket_is_open. rewrite Hw, Hr. reflexivity. }
  rewrite (poll_open pf t st w (pred r) s Ho).
  unfold start_streaming, setupAudioProcessing. rewrite Ha, Hm.
  unfold record_failed, finish, handleStop. cbn.
  repeat split.
  rewrite nth_error_snoc, Nat.ltb_irrefl, Nat.eqb_refl.
  cbn. rewrite Hw. unfold onaudioprocess. rewrite Hr. cbn.
  apply Z.ltb_lt in Hb. change (recorderBufferSize * 2) with 8192 in Hb. rewrite Hb. cbn.
  rewrite nth_error_alter, Nat.eqb_refl, Hw. reflexivity.
Qed.

End RunFacts.

(* ================================================================== *)
(** * The recording clock *)
(* ================================================================== *)

Section DisplayFacts.
Import Js Display.

Lemma two_digits (n : Z) :
  0 <= n < 100 ->
  padStart 2 48 (Number_toString n) = [digit (n / 10); digit (n mod 10)].
Proof.
  intros Hn.
  assert (H : forallb
                (fun k => str_eqb (padStart 2 48 (Number_toString (Z.of_nat k)))
                            [digit (Z.of_nat k / 10); digit (Z.of_nat k mod 10)])
                (seq 0 100) = true) by (vm_compute; reflexivity).
  rewrite forallb_forall in H.
  specialize (H (Z.to_nat n)).
  rewrite Z2Nat.id in H by lia.
  apply str_eqb_eq, H. apply in_seq. lia.
Qed.

Lemma two_digit_clock (seconds : Z) :
  0 <= seconds < 6000 ->
  formatRecordingTime seconds =
    [digit (seconds / 600); digit (seconds / 60 mod 10); 58%N;
     digit (seconds mod 60 / 10); digit (seconds mod 10)].
Proof.
  intros H. unfold formatRecordingTime. cbv zeta.
  rewrite Z.rem_mod_nonneg by lia.
  rewrite (two_digits (seconds / 60)).
  2:{ split; [apply Z.div_pos; lia | apply Z.div_lt_upper_bound; lia]. }
  rewrite (two_digits (seconds mod 60)).
  2:{ pose proof (Z.mod_pos_bound seconds 60). lia. }
  rewrite Z.div_div by lia. cbn [Z.mul Pos.mul].
  assert (E : (seconds mod 60) mod 10 = seconds mod 10).
  { pose proof (Z.div_mod seconds 60). pose proof (Z.div_mod seconds 10).
    pose proof (Z.div_mod (seconds mod 60) 10).
    pose proof (Z.mod_pos_bound seconds 60). pose proof (Z.mod_pos_bound seconds 10).
    pose proof (Z.mod_pos_bound (seconds mod 60) 10). lia. }
  rewrite E. reflexivity.
Qed.

(** X22: below one hundred minutes [formatRecordingTime] gives exactly
    five code units, two digits of minutes, a colon and two digits of
    seconds; different durations give different texts. *)
Theorem recording_time_is_mm_ss (seconds : Z) :
  0 <= seconds < 6000 ->
  formatRecordingTime seconds =
    [digit (seconds / 600); digit (seconds / 60 mod 10); 58%N;
     digit (seconds mod 60 / 10); digit (seconds mod 10)]
  /\ (forall other, 0 <= other < 6000 ->
        formatRecordingTime other = formatRecordingTime seconds -> other = seconds).
Proof.
  intros Hs. split; [exact (two_digit_clock seconds Hs)|].
  intros other Ho H.
  rewrite (two_digit_clock other Ho), (two_digit_clock seconds Hs) in H.
  assert (D : forall x y, 0 <= x -> 0 <= y -> digit x = digit y -> x = y).
  { intros x y Hx Hy E. unfold digit in E. lia. }
  injection H as H1 H2 H3 H4.
  pose proof (Z.div_mod other 60). pose proof (Z.div_mod seconds 60).
  pose proof (Z.mod_pos_bound other 60). pose proof (Z.mod_pos_bound seconds 60).
  pose proof (Z.div_mod (other / 60) 10). pose proof (Z.div_mod (seconds / 60) 10).
  pose proof (Z.mod_pos_bound (other / 60) 10). pose proof (Z.mod_pos_bound (seconds / 60) 10).
  pose proof (Z.div_mod (other mod 60) 10). pose proof (Z.div_mod (seconds mod 60) 10).
  pose proof (Z.mod_pos_bound (other mod 60) 10). pose proof (Z.mod_pos_bound (seconds mod 60) 10).
  assert (Ea : other / 600 = other / 60 / 10) by (rewrite Z.div_div by lia; reflexivity).
  assert (Eb : seconds / 600 = seconds / 60 / 10) by (rewrite Z.div_div by lia; reflexivity).
  assert (Ma : (other mod 60) mod 10 = other mod 10).
  { pose proof (Z.div_mod other 10). pose proof (Z.mod_pos_bound other 10). lia. }
  assert (Mb : (seconds mod 60) mod 10 = seconds mod 10).
  { pose proof (Z.div_mod seconds 10). pose proof (Z.mod_pos_bound seconds 10). lia. }
  assert (0 <= other / 60) by (apply Z.div_pos; lia).
  assert (0 <= seconds / 60) by (apply Z.div_pos; lia).
  assert (0 <= other / 600) by (apply Z.div_pos; lia).
  assert (0 <= seconds / 600) by (apply Z.div_pos; lia).
  assert (0 <= other mod 60 / 10) by (apply Z.div_pos; lia).
  assert (0 <= seconds mod 60 / 10) by (apply Z.div_pos; lia).
  pose proof (Z.mod_pos_bound other 10). pose proof (Z.mod_pos_bound seconds 10).
  apply D in H1; [| lia | lia]. apply D in H2; [| lia | lia].
  apply D in H3; [| lia | lia]. apply D in H4; [| lia | lia].
  lia.
Qed.

End DisplayFacts.

(* ================================================================== *)
(** * The report *)
(* ================================================================== *)

Section ReportFacts.
Import Js Report.

Lemma with_items_same (k : SectionKey) (r : Report) :
  with_items k (items (section_of k (sections r))) r = r.
Proof.
  destruct r as [p d u [[t0 i0] [t1 i1] [t2 i2] [t3 i3]] a g].
  destruct k; reflexivity.
Qed.

Lemma with_items_twice (k : SectionKey) (l1 l2 : list ReportItem) (r : Report) :
  with_items k l2 (with_items k l1 r) = with_items k l2 r.
Proof.
  destruct k; reflexivity.
Qed.

Lemma items_with_items (k : SectionKey) (l : list ReportItem) (r : Report) :
  items (section_of k (sections (with_items k l r))) = l.
Proof.
  destruct k; reflexivity.
Qed.

Lemma with_items_other (k k' : SectionKey) (l : list ReportItem) (r : Report) :
  k' <> k ->
  section_of k' (sections (with_items k l r)) = section_of k' (sections r).
Proof.
  intros H. destruct k, k'; try reflexivity; contradiction.
Qed.

Lemma with_items_frame (k : SectionKey) (l : list ReportItem) (r : Report) :
  isApproved (with_items k l r) = isApproved r
  /\ title (section_of k (sections (with_items k l r))) = title (section_of k (sections r))
  /\ patientInfo (with_items k l r) = patientInfo r
  /\ consultationDate (with_items k l r) = consultationDate r
  /\ consultationDuration (with_items k l r) = consultationDuration r.
Proof.
  destruct k; repeat split; reflexivity.
Qed.

Lemma map_map_id {A} (f : A -> A) (l : list A) :
  (forall x, f (f x) = x) -> map f (map f l) = l.
Proof.
  intros H. rewrite map_map. rewrite <- (map_id l) at 2.
  apply map_ext. exact H.
Qed.

(** X23: toggling the approval of an item twice gives back the report
    exactly. *)
Theorem approval_toggle_undoes_itself
    (sectionKey : SectionKey) (itemId : jsstring) (report : option Report) :
  toggleReportItemApproval sectionKey itemId
    (toggleReportItemApproval sectionKey itemId report) = report.
Proof.
  destruct report as [r|]; [| reflexivity].
  unfold toggleReportItemApproval. cbv zeta.
  rewrite items_with_items, with_items_twice.
  rewrite map_map_id.
  - rewrite with_items_same. reflexivity.
  - intros [i t c a e]. cbn.
    destruct (str_eqb i itemId) eqn:E; cbn; rewrite ?E; [| reflexivity].
    rewrite negb_involutive. reflexivity.
Qed.

(** X24: saving an edit and opening or closing the editor change no
    approval of any item of any section, nor the approval of the report. *)
Theorem editing_never_changes_approvals
    (sectionKey k : SectionKey) (itemId newContent : jsstring) (report : option Report) :
  let approvals :=
    option_map (fun r => (map approved (items (section_of k (sections r))), isApproved r)) in
  approvals (updateReportItem sectionKey itemId newContent report) = approvals report
  /\ approvals (toggleItemEditing sectionKey itemId report) = approvals report.
Proof.
  cbv zeta. destruct report as [r|]; [| split; reflexivity].
  unfold updateReportItem, toggleItemEditing. cbv zeta. cbn [option_map].
  assert (H : forall f : ReportItem -> ReportItem,
            (forall x, approved (f x) = approved x) ->
            (map approved
               (items (section_of k
                  (sections (with_items sectionKey
                               (map f (items (section_of sectionKey (sections r)))) r)))),
             isApproved
               (with_items sectionKey (map f (items (section_of sectionKey (sections r)))) r))
            = (map approved (items (section_of k (sections r))), isApproved r)).
  { intros f Hf. apply f_equal2; [| apply with_items_frame].
    assert (D : k = sectionKey \/ k <> sectionKey).
    { destruct k, sectionKey; (left; reflexivity) || (right; discriminate). }
    destruct D as [-> | D].
    - rewrite items_with_items, map_map. apply map_ext. exact Hf.
    - rewrite with_items_other by exact D. reflexivity. }
  split; (f_equal; apply H; intros x; destruct (str_eqb (item_id x) itemId); reflexivity).
Qed.

(** X25: saving an edit replaces the content of the items of the chosen
    section that carry the identifier and closes their editor; other
    sections, other items, identifiers and order are unchanged, and
    saving the same text again changes nothing. *)
Theorem saved_edit_replaces_content_of_matching_items
    (sectionKey : SectionKey) (itemId newContent : jsstring) (r : Report) :
  exists r',
    updateReportItem sectionKey itemId newContent (Some r) = Some r'
    /\ (forall k, k <> sectionKey ->
          section_of k (sections r') = section_of k (sections r))
    /\ (forall n,
          nth_error (items (section_of sectionKey (sections r'))) n =
            option_map
              (fun item =>
                 if str_eqb (item_id item) itemId
                 then mkItem (item_id item) (item_type item) (Some (JStr newContent))
                             (approved item) (Some false)
                 else item)
              (nth_error (items (section_of sectionKey (sections r))) n))
    /\ map item_id (items (section_of sectionKey (sections r'))) =
         map item_id (items (section_of sectionKey (sections r)))
    /\ updateReportItem sectionKey itemId newContent (Some r') = Some r'.
Proof.
  eexists. split; [reflexivity|]. cbv zeta.
  split; [| split; [| split]].
  - intros k Hk. apply with_items_other, Hk.
  - intros n. rewrite items_with_items. apply nth_error_map.
  - rewrite items_with_items, map_map. apply map_ext.
    intros x. destruct (str_eqb (item_id x) itemId); reflexivity.
  - unfold updateReportItem. cbv zeta. f_equal.
    rewrite items_with_items, with_items_twice. f_equal.
    rewrite map_map. apply map_ext.
    intros [i t c a e]. cbn.
    destruct (str_eqb i itemId) eqn:E; cbn; rewrite ?E; reflexivity.
Qed.

(** X26: opening and closing the editor has period two: three toggles
    equal one (a missing flag becomes an explicit one after the first,
    so two toggles need not give back the report exactly). *)
Theorem editing_toggle_has_period_two
    (sectionKey : SectionKey) (itemId : jsstring) (report : option Report) :
  let toggle := toggleItemEditing sectionKey itemId in
  toggle (toggle (toggle report)) = toggle report.
Proof.
  cbv zeta. destruct report as [r|]; [| reflexivity].
  unfold toggleItemEditing. cbv zeta.
  rewrite !items_with_items, !with_items_twice. f_equal. f_equal.
  rewrite !map_map. apply map_ext.
  intros [i t c a e]. cbn.
  destruct (str_eqb i itemId) eqn:E; cbn; rewrite ?E; cbn; rewrite ?E; cbn; [| reflexivity].
  destruct e as [[|]|]; reflexivity.
Qed.

Lemma count_below_total {A} (f : A -> bool) (l : list A) :
  (List.length (filter f l) <? List.length l)%nat = negb (forallb f l).
Proof.
  induction l as [| x l IH]; [reflexivity|].
  pose proof (filter_length_le f l) as Hle.
  cbn [filter forallb List.length]. destruct (f x); cbn [List.length andb negb].
  - exact IH.
  - apply Nat.ltb_lt. lia.
Qed.

(** X27: [finalizeReport] approves the report exactly when every item is
    approved or the user confirms; it asks for confirmation exactly when
    some item is not approved, announces success exactly when it
    approves, and never changes a section. *)
Theorem finalize_needs_every_approval_or_consent (answer : bool) (r : Report) :
  let out := finalizeReport answer (Some r) in
  let everything := flat_map items (all_sections (sections r)) in
  let approved_report :=
    mkReport (patientInfo r) (consultationDate r) (consultationDuration r) (sections r)
             true (isGenerating r) in
  fst out = (if forallb approved everything || answer then Some approved_report else Some r)
  /\ (In Alert (snd out) <-> forallb approved everything || answer = true)
  /\ ((exists a n, In (Confirm a n) (snd out)) <-> forallb approved everything = false)
  /\ option_map sections (fst out) = Some (sections r).
Proof.
  cbv zeta. unfold finalizeReport. cbv zeta.
  rewrite count_below_total.
  destruct (forallb approved (flat_map items (all_sections (sections r)))); cbn.
  - split; [reflexivity|]. split; [| split; [| reflexivity]].
    + split; intros _; [reflexivity | left; reflexivity].
    + split; [| discriminate]. intros (a & n & [H | []]). discriminate.
  - destruct answer; cbn.
    + split; [reflexivity|]. split; [| split; [| reflexivity]].
      * split; intros _; [reflexivity | right; left; reflexivity].
      * split; intros _; [reflexivity | eexists _, _; left; reflexivity].
    + split; [reflexivity|]. split; [| split; [| reflexivity]].
      * split; [| discriminate]. intros [H | []]. discriminate.
      * split; intros _; [reflexivity | eexists _, _; left; reflexivity].
Qed.

End ReportFacts.

(* ================================================================== *)
(** * The further properties on sample inputs *)
(* ================================================================== *)

Section MoreExamples.
Import Js Dispatcher Transport Invariants Display Samples Scenarios MoreScenarios.

(** X1 on a quarter and a half of full scale. *)
Lemma encoder_order_witness :
  (1 # 4 <= 1 # 2)%Q
  /\ Encoder.encodeSample (Encoder.Finite (1 # 4))
       <= Encoder.encodeSample (Encoder.Finite (1 # 2)).
Proof.
  assert (H : (1 # 4 <= 1 # 2)%Q) by (unfold Qle; cbn; lia).
  split; [exact H|].
  exact (encoder_preserves_order (1 # 4) (1 # 2) H).
Defined.

(** X4 on the text [Speaker 12:  hello]. *)
Lemma speaker_round_trip_witness :
  extractSpeakerFromText (lit "Speaker 12:  hello") = Some (JStr (lit "Speaker 12"))
  /\ removeSpeakerPrefix (lit "Speaker 12:  hello") = lit "hello".
Proof.
  assert (H1 : lit "12" <> []) by discriminate.
  assert (H2 : Forall (fun c => is_digit c = true) (lit "12"))
    by (repeat constructor).
  assert (H3 : Forall (fun c => is_space c = true) (lit "  "))
    by (repeat constructor).
  assert (H4 : match lit "hello" with [] => True | c :: _ => is_space c = false end)
    by reflexivity.
  exact (speaker_prefix_is_split_off (lit "12") (lit "  ") (lit "hello") H1 H2 H3 H4).
Defined.

(** X6 on the message [{text: Speaker 2: I feel dizzy}]. *)
Lemma legacy_text_witness :
  str_eqb legacy_text (lit "pong") = false
  /\ parse_more legacy_text = Normal legacy_text_value
  /\ legacy_shape legacy_text_value
  /\ transcript (onmessage parse_more same_millisecond legacy_text initialUI) =
       [mkLine 1700000000000 (Some (JStr (lit "I feel dizzy")))
          (Some (JStr (lit "Speaker 2"))) 1700000000000].
Proof.
  assert (H1 : str_eqb legacy_text (lit "pong") = false) by reflexivity.
  assert (H2 : parse_more legacy_text = Normal legacy_text_value) by reflexivity.
  assert (H3 : legacy_shape legacy_text_value).
  { repeat (split; [reflexivity|]). right. reflexivity. }
  repeat (split; [assumption|]).
  exact (proj1 (legacy_text_message_appends_cleaned_line parse_more same_millisecond
                  legacy_text legacy_text_value (lit "Speaker 2: I feel dizzy") initialUI
                  H1 H2 H3 eq_refl)).
Defined.

(** X7 on the message [{event: transcription, text: 5}]. *)
Lemma legacy_dropped_witness :
  str_eqb legacy_number (lit "pong") = false
  /\ parse_more legacy_number = Normal legacy_number_value
  /\ legacy_shape legacy_number_value
  /\ field legacy_number_value "text" = Some (JNum 5)
  /\ truthy (field legacy_number_value "speaker") = false
  /\ transcript (onmessage parse_more same_millisecond legacy_number initialUI) = [].
Proof.
  assert (H1 : str_eqb legacy_number (lit "pong") = false) by reflexivity.
  assert (H2 : parse_more legacy_number = Normal legacy_number_value) by reflexivity.
  assert (H3 : legacy_shape legacy_number_value).
  { repeat (split; [reflexivity|]). left. reflexivity. }
  assert (H4 : field legacy_number_value "text" = Some (JNum 5)) by reflexivity.
  assert (H5 : truthy (field legacy_number_value "speaker") = false) by reflexivity.
  assert (H6 : legacy_number_value <> JNull) by discriminate.
  assert (H7 : forall s, field legacy_number_value "text" <> Some (JStr s)).
  { intros s H. discriminate H. }
  repeat (split; [assumption|]).
  exact (proj1 (legacy_message_without_string_text_is_dropped parse_more same_millisecond
                  legacy_number legacy_number_value initialUI H1 H2 H6 H3 H7 H5)).
Defined.

(** X8 on the message [{type: error}], which carries no message. *)
Lemma error_banner_witness :
  str_eqb bare_error (lit "pong") = false
  /\ parse_more bare_error = Normal bare_error_value
  /\ has_type bare_error_value "error" = true
  /\ error (onmessage parse_more same_millisecond bare_error initialUI) =
       Some (lit "Error: undefined").
Proof.
  assert (H1 : str_eqb bare_error (lit "pong") = false) by reflexivity.
  assert (H2 : parse_more bare_error = Normal bare_error_value) by reflexivity.
  assert (H3 : has_type bare_error_value "error" = true) by reflexivity.
  assert (H4 : forall v, field bare_error_value "message" = Some v ->
                         printed_numbers_safe v = true).
  { intros v H. discriminate H. }
  split; [exact H1|]. split; [exact H2|]. split; [exact H3|].
  exact (proj1 (proj2 (error_message_sets_banner parse_more same_millisecond bare_error
                         bare_error_value initialUI H1 H2 H3 H4)) eq_refl).
Defined.

(** X9 on the message [42]. *)
Lemma bare_number_witness :
  parse_more bare_number = Normal (JNum 42)
  /\ transcript (onmessage parse_more same_millisecond bare_number initialUI) = []
  /\ error (onmessage parse_more same_millisecond bare_number initialUI) = None.
Proof.
  assert (H1 : parse_more bare_number = Normal (JNum 42)) by reflexivity.
  assert (H2 : forall props, JNum 42 <> JObj props).
  { intros props H. discriminate H. }
  split; [assumption|].
  destruct (message_without_properties_changes_nothing parse_more same_millisecond
              bare_number (JNum 42) initialUI H1 H2) as (Ht & _ & He & _).
  split; [exact Ht | exact He].
Defined.

(** X11 on the local relay. *)
Lemma websocket_url_witness :
  API_BASE_URL demo_platform = Some (lit "http://localhost:8000")
  /\ getWebSocketUrl demo_platform = Some (lit "ws://localhost:8000/ws/transcribe").
Proof.
  assert (H : API_BASE_URL demo_platform = Some (lit "http://" ++ lit "localhost:8000"))
    by reflexivity.
  split; [exact H|].
  exact (websocket_url_substitutes_protocol demo_platform false (lit "localhost:8000") H).
Defined.

(** X12 on a base URL written without a scheme. *)
Lemma websocket_url_bare_host_witness :
  API_BASE_URL bare_host_platform = Some (lit "localhost:8000")
  /\ getWebSocketUrl bare_host_platform = Some (lit "ws://localhost:8000/ws/transcribe").
Proof.
  assert (H1 : API_BASE_URL bare_host_platform = Some (lit "localhost:8000")) by reflexivity.
  assert (H2 : lit "localhost:8000" <> []) by discriminate.
  assert (H3 : starts_with (lit "http") (lit "localhost:8000") = false) by reflexivity.
  split; [exact H1|].
  exact (websocket_url_without_scheme bare_host_platform (lit "localhost:8000") H1 H2 H3).
Defined.

(** X13 on a build without [NEXT_PUBLIC_API_URL]: the microphone is
    granted and stays on. *)
Lemma early_failure_witness :
  nth_error (tasks (run unconfigured_platform record_clicked initialSession)) 0 =
    Some AwaitMedia
  /\ getWebSocketUrl unconfigured_platform = None
  /\ error (ui (handleRecord_media unconfigured_platform 0 true
                  (run unconfigured_platform record_clicked initialSession))) =
       Some (lit "Could not access microphone or connect to transcription service. Please check permissions.")
  /\ streams (handleRecord_media unconfigured_platform 0 true
                (run unconfigured_platform record_clicked initialSession)) = [true].
Proof.
  assert (H1 : nth_error (tasks (run unconfigured_platform record_clicked initialSession)) 0
               = Some AwaitMedia) by reflexivity.
  assert (H2 : getWebSocketUrl unconfigured_platform = None) by reflexivity.
  repeat (split; [assumption|]).
  destruct (early_failure_reports_microphone_error unconfigured_platform 0 true
              (run unconfigured_platform record_clicked initialSession) H1
              (or_intror (or_introl H2)))
    as (He & _ & _ & _ & _ & _ & _ & _ & Hs).
  split; [exact He | exact (Hs eq_refl)].
Defined.



(** X16 on Record clicked twice: the first socket is closing. *)
Lemma superseded_socket_witness :
  nth_error (sockets (run demo_platform record_twice initialSession)) 0 =
    Some (mkWs CLOSING 0 [] [None])
  /\ websocketRef (run demo_platform record_twice initialSession) = Some 1%nat
  /\ (readyState (mkWs CLOSING 0 [] [None]) = CLOSING
      \/ readyState (mkWs CLOSING 0 [] [None]) = CLOSED).
Proof.
  assert (H1 : nth_error (sockets (run demo_platform record_twice initialSession)) 0 =
               Some (mkWs CLOSING 0 [] [None])) by reflexivity.
  assert (H2 : websocketRef (run demo_platform record_twice initialSession) = Some 1%nat)
    by reflexivity.
  assert (H3 : websocketRef (run demo_platform record_twice initialSession) <> Some 0%nat).
  { intros H. discriminate H. }
  repeat (split; [assumption|]).
  exact (superseded_sockets_are_closed demo_platform record_twice 0
           (mkWs CLOSING 0 [] [None]) H1 H3).
Defined.

(** X17 after the first sleep has been requested. *)
Lemma retry_budget_witness :
  nth_error (tasks (run demo_platform [RecordClicked true; MediaSettled 0 true]
                      initialSession)) 0 = Some (AwaitOpen 0 0 30)
  /\ (sleeps 0 (scheduled (run demo_platform [RecordClicked true; MediaSettled 0 true]
                             initialSession)) + 30 = S MAX_RETRIES)%nat.
Proof.
  assert (H1 : nth_error (tasks (run demo_platform [RecordClicked true; MediaSettled 0 true]
                                   initialSession)) 0 = Some (AwaitOpen 0 0 30))
    by reflexivity.
  split; [exact H1|].
  exact (proj2 (proj2 (wait_loop_never_exceeds_retry_budget demo_platform
                         [RecordClicked true; MediaSettled 0 true] 0) 0%nat 0%nat 30%nat H1)).
Defined.

(** X19 on one audio buffer sent while streaming. *)
Lemma sent_sample_witness :
  nth_error
    (sockets (run demo_platform (socket_opened ++ [RetryTimer 0; AudioProcess 0 odd_buffer])
                initialSession)) 0 =
    Some (mkWs OPEN 8 [[8191; 0; 32767; - 32767]] [])
  /\ - 32767 <= 8191 <= 32767.
Proof.
  assert (H1 : nth_error
                 (sockets (run demo_platform
                             (socket_opened ++ [RetryTimer 0; AudioProcess 0 odd_buffer])
                             initialSession)) 0 =
               Some (mkWs OPEN 8 [[8191; 0; 32767; - 32767]] [])) by reflexivity.
  split; [exact H1|].
  exact (every_sent_sample_is_in_range demo_platform
           (socket_opened ++ [RetryTimer 0; AudioProcess 0 odd_buffer]) 0
           (mkWs OPEN 8 [[8191; 0; 32767; - 32767]] []) [8191; 0; 32767; - 32767] 8191
           H1 (or_introl eq_refl) (or_introl eq_refl)).
Defined.

(** X20 when the first sleep ends on an open socket. *)
Lemma streaming_starts_witness :
  nth_error (tasks (run demo_platform socket_opened initialSession)) 0 =
    Some (AwaitOpen 0 0 30)
  /\ nth_error (sockets (run demo_platform socket_opened initialSession)) 0 =
       Some (mkWs OPEN 0 [] [])
  /\ isRecording (ui (step demo_platform (RetryTimer 0)
                        (run demo_platform socket_opened initialSession))) = true
  /\ nth_error
       (sockets (step demo_platform (AudioProcess 0 odd_buffer)
                   (step demo_platform (RetryTimer 0)
                      (run demo_platform socket_opened initialSession)))) 0 =
       Some (ws_send (Encoder.encodeFrame odd_buffer) (mkWs OPEN 0 [] [])).
Proof.
  assert (H1 : nth_error (tasks (run demo_platform socket_opened initialSession)) 0 =
               Some (AwaitOpen 0 0 30)) by reflexivity.
  assert (H2 : nth_error (sockets (run demo_platform socket_opened initialSession)) 0 =
               Some (mkWs OPEN 0 [] [])) by reflexivity.
  assert (H3 : bufferedAmount (mkWs OPEN 0 [] []) < recorderBufferSize * 2) by reflexivity.
  repeat (split; [assumption|]).
  destruct (open_socket_starts_streaming demo_platform 0 0 0 30
              (run demo_platform socket_opened initialSession) (mkWs OPEN 0 [] [])
              odd_buffer H1 H2 eq_refl eq_refl eq_refl)
    as (Hr & _ & _ & _ & _ & _ & _ & _ & _ & Hs).
  split; [exact Hr | exact (Hs H3)].
Defined.

(** X21 in a browser without [MediaRecorder]. *)
Lemma recorder_failure_witness :
  nth_error (tasks (run no_recorder_platform socket_opened initialSession)) 0 =
    Some (AwaitOpen 0 0 30)
  /\ nth_error (sockets (run no_recorder_platform socket_opened initialSession)) 0 =
       Some (mkWs OPEN 0 [] [])
  /\ recorder_ok no_recorder_platform = false
  /\ isRecording (ui (step no_recorder_platform (RetryTimer 0)
                        (run no_recorder_platform socket_opened initialSession))) = false
  /\ nth_error
       (sockets (step no_recorder_platform (AudioProcess 0 odd_buffer)
                   (step no_recorder_platform StopClicked
                      (step no_recorder_platform (RetryTimer 0)
                         (run no_recorder_platform socket_opened initialSession))))) 0 =
       Some (ws_send (Encoder.encodeFrame odd_buffer) (mkWs OPEN 0 [] [])).
Proof.
  assert (H1 : nth_error (tasks (run no_recorder_platform socket_opened initialSession)) 0 =
               Some (AwaitOpen 0 0 30)) by reflexivity.
  assert (H2 : nth_error (sockets (run no_recorder_platform socket_opened initialSession)) 0 =
               Some (mkWs OPEN 0 [] [])) by reflexivity.
  assert (H3 : recorder_ok no_recorder_platform = false) by reflexivity.
  assert (H4 : bufferedAmount (mkWs OPEN 0 [] []) < recorderBufferSize * 2) by reflexivity.
  split; [exact H1|]. split; [exact H2|]. split; [exact H3|].
  destruct (recorder_failure_leaves_audio_streaming no_recorder_platform 0 0 0 30
              (run no_recorder_platform socket_opened initialSession) (mkWs OPEN 0 [] [])
              odd_buffer H1 H2 eq_refl H4 eq_refl H3)
    as (Hr & _ & _ & _ & _ & Hs).
  split; [exact Hr | exact Hs].
Defined.

(** X22 on twelve minutes and thirty-four seconds. *)
Lemma recording_time_witness :
  0 <= 754 < 6000
  /\ formatRecordingTime 754 = lit "12:34".
Proof.
  assert (H : 0 <= 754 < 6000) by lia.
  split; [exact H|].
  exact (proj1 (recording_time_is_mm_ss 754 H)).
Defined.

End MoreExamples.
